(** * Pixel Heroes: combat resolution, progression and economy

    A shallow embedding of the game engine in [sourcecode.py]:
    stat derivation, entity experience, move resolution and turn order,
    encounter generation, roster commands, relic charging and the
    coin economy (slots, auction listing, coinflips).

    Conventions of the embedding.
    - Python [int] is [Z]; [a // b] with a positive [b] is [Z.div]
      (both round towards minus infinity); [int(x)] of a real truncates
      towards zero.
    - A Python [float] is an IEEE 754 binary64 number, the primitive
      [float] of Rocq, with the same rounding (to nearest, ties to even);
      an [int] that meets a float is converted with that rounding, which
      is exact below 2^53 in absolute value.
    - Calls to [random] are inputs of the functions: every draw is an
      argument, so a statement quantified over the arguments holds for
      every outcome of the generator.
    - An exception raised by the Python code is [None]. *)

From Stdlib Require Import ZArith Lia List String Ascii Bool.
From Stdlib Require Import PrimFloat FloatOps SpecFloat.
From stdpp Require Import gmap strings list fin_maps pretty.

Open Scope Z_scope.

(** ** Python numbers *)

(** [float(z)] for an integer [z]. *)
Definition float_of_Z (z : Z) : float :=
  SF2Prim (binary_normalize prec emax z 0 false).

(** [int(x)] for a finite float [x]: truncation towards zero. *)
Definition int_of_float (x : float) : Z :=
  match Prim2SF x with
  | S754_finite s m e =>
      let mag := if 0 <=? e then Z.shiftl (Z.pos m) e else Z.shiftr (Z.pos m) (- e) in
      if s then - mag else mag
  | _ => 0
  end.

(** [a / b] for two integers (true division), for operands below 2^53
    in absolute value. *)
Definition true_div (a b : Z) : float :=
  PrimFloat.div (float_of_Z a) (float_of_Z b).

(** [min(a, b)] and [max(a, b)] of two floats: the first argument unless
    the second is strictly beyond it. *)
Definition float_min (a b : float) : float := if PrimFloat.ltb b a then b else a.
Definition float_max (a b : float) : float := if PrimFloat.ltb a b then b else a.

(** ** Python values stored in the JSON game data *)

Inductive PyVal : Type :=
  | PNone
  | PInt (z : Z)
  | PStr (s : string).

#[global] Instance PyVal_eq_dec : EqDecision PyVal.
Proof. solve_decision. Defined.

(** Truth value of [x] in [x or y] and [if x]. *)
Definition truthy (v : PyVal) : bool :=
  match v with
  | PNone => false
  | PInt z => negb (z =? 0)
  | PStr s => negb (String.eqb s "")
  end.

(** [a or b]. *)
Definition py_or (a b : PyVal) : PyVal := if truthy a then a else b.

(** [d.get(k)]: a missing key reads as [None]. *)
Definition get_none (f : option PyVal) : PyVal := default PNone f.

(** [str(v)] for the scalars above. *)
Definition py_str (v : PyVal) : string :=
  match v with
  | PNone => "None"
  | PInt z => pretty z
  | PStr s => s
  end.

(** ** Stats and experience helpers *)

Module StatEngine.

Record Stats : Type := mkStats {
  hp : Z;
  attack : Z;
  defense : Z;
  magic : Z;
  speed : Z
}.

(** [math.floor(((2*base + iv + ev//4) * level) / 100) + level + 10].
    The quotient of an integer by 100 is either an integer or at least
    1/100 away from one, so (for a numerator below 10^15 in absolute
    value) the floor of the double quotient is the integer floor. *)
Definition calc_hp (base iv ev level : Z) : Z :=
  ((2 * base + iv + ev / 4) * level) / 100 + level + 10.

Definition calc_stat (base iv ev level : Z) : Z :=
  ((2 * base + iv + ev / 4) * level) / 100 + 5.

(** The double nearest to 0.015. *)
Definition f0_015 : float := 0x1.eb851eb851eb8p-7%float.

(** [int(0.015 * (level ** 3) + 10 * (level ** 2))]. *)
Definition entity_xp_required (level : Z) : Z :=
  int_of_float
    (PrimFloat.add (PrimFloat.mul f0_015 (float_of_Z (level ^ 3)))
       (float_of_Z (10 * level ^ 2))).

(** The five stats of [recalc_stats_from_base], [add_starter] and
    [build_instance_from_template]. *)
Definition derive_stats (base ivs evs : Stats) (level : Z) : Stats :=
  {| hp := calc_hp (hp base) (hp ivs) (hp evs) level;
     attack := calc_stat (attack base) (attack ivs) (attack evs) level;
     defense := calc_stat (defense base) (defense ivs) (defense evs) level;
     magic := calc_stat (magic base) (magic ivs) (magic evs) level;
     speed := calc_stat (speed base) (speed ivs) (speed evs) level |}.

End StatEngine.
Export StatEngine.

(** ** Entities *)

(** A moveset entry that is a dict.  The fields are the keys the battle
    code reads; [None] is a missing key.  [m_other] records whether the
    dict has further keys (it decides [not mvdata] for a dict with none of
    the keys below). *)
Record MoveData : Type := mkMove {
  m_skill : option PyVal;
  m_move : option PyVal;
  m_type : option PyVal;
  m_power : option PyVal;
  m_acc : option PyVal;
  m_acc_dot : option PyVal;
  m_other : bool
}.

(** Moveset entries "may be dicts or strings". *)
Inductive MoveEntry : Type :=
  | MDict (d : MoveData)
  | MStr (s : string).

(** The [ivs] and [evs] dicts of an entity: a stat may be missing (an
    entity saved by an older version), which is what
    [ensure_full_ivs_evs] repairs.  A missing dict is the dict with no
    key. *)
Record StatDict : Type := mkStatDict {
  d_hp : option Z;
  d_attack : option Z;
  d_defense : option Z;
  d_magic : option Z;
  d_speed : option Z
}.

Definition full_dict (s : Stats) : StatDict :=
  mkStatDict (Some (hp s)) (Some (attack s)) (Some (defense s))
    (Some (magic s)) (Some (speed s)).

(** Reading all five keys; [None] when one is missing (a [KeyError] in
    the source). *)
Definition read_dict (d : StatDict) : option Stats :=
  match d_hp d, d_attack d, d_defense d, d_magic d, d_speed d with
  | Some h, Some a, Some df, Some m, Some s => Some (mkStats h a df m s)
  | _, _, _, _, _ => None
  end.

(** [d.setdefault(k, v)] on each of the five keys. *)
Definition setdefaults (d : StatDict) (v : Stats) : StatDict :=
  mkStatDict (Some (default (hp v) (d_hp d)))
    (Some (default (attack v) (d_attack d)))
    (Some (default (defense v) (d_defense d)))
    (Some (default (magic v) (d_magic d)))
    (Some (default (speed v) (d_speed d))).

(** A hero or monster instance.  The derived [stats] are written with
    all five keys by every constructor and every update of the source, so
    they are a total record; [locked] and [shiny] read as false when
    absent ([h.get]); [base_stats_memo] is the key ["_base_stats"] written
    by [/elixir]. *)
Record Entity : Type := mkEntity {
  ent_id : Z;
  unique_id : string;
  name : string;
  element : string;
  rarity : string;
  level : Z;
  shiny : bool;
  locked : bool;
  ivs : StatDict;
  evs : StatDict;
  stats : Stats;
  current_hp : Z;
  xp : Z;
  moveset : option (list MoveEntry);
  base_stats_memo : option Stats
}.

Definition with_level (e : Entity) (l : Z) : Entity :=
  mkEntity (ent_id e) (unique_id e) (name e) (element e) (rarity e) l
    (shiny e) (locked e) (ivs e) (evs e) (stats e) (current_hp e) (xp e)
    (moveset e) (base_stats_memo e).

Definition with_xp (e : Entity) (x : Z) : Entity :=
  mkEntity (ent_id e) (unique_id e) (name e) (element e) (rarity e) (level e)
    (shiny e) (locked e) (ivs e) (evs e) (stats e) (current_hp e) x
    (moveset e) (base_stats_memo e).

Definition with_stats (e : Entity) (s : Stats) : Entity :=
  mkEntity (ent_id e) (unique_id e) (name e) (element e) (rarity e) (level e)
    (shiny e) (locked e) (ivs e) (evs e) s (current_hp e) (xp e)
    (moveset e) (base_stats_memo e).

Definition with_current_hp (e : Entity) (h : Z) : Entity :=
  mkEntity (ent_id e) (unique_id e) (name e) (element e) (rarity e) (level e)
    (shiny e) (locked e) (ivs e) (evs e) (stats e) h (xp e)
    (moveset e) (base_stats_memo e).

Definition with_shiny (e : Entity) (b : bool) : Entity :=
  mkEntity (ent_id e) (unique_id e) (name e) (element e) (rarity e) (level e)
    b (locked e) (ivs e) (evs e) (stats e) (current_hp e) (xp e)
    (moveset e) (base_stats_memo e).

Definition with_rarity (e : Entity) (r : string) : Entity :=
  mkEntity (ent_id e) (unique_id e) (name e) (element e) r (level e)
    (shiny e) (locked e) (ivs e) (evs e) (stats e) (current_hp e) (xp e)
    (moveset e) (base_stats_memo e).

Definition with_base_stats_memo (e : Entity) (b : option Stats) : Entity :=
  mkEntity (ent_id e) (unique_id e) (name e) (element e) (rarity e) (level e)
    (shiny e) (locked e) (ivs e) (evs e) (stats e) (current_hp e) (xp e)
    (moveset e) b.

Definition with_ivs_evs (e : Entity) (i v : StatDict) : Entity :=
  mkEntity (ent_id e) (unique_id e) (name e) (element e) (rarity e) (level e)
    (shiny e) (locked e) i v (stats e) (current_hp e) (xp e)
    (moveset e) (base_stats_memo e).

(** ** Progression *)

Module ProgressionTracker.

Definition zero_stats : Stats := mkStats 0 0 0 0 0.

(** [ensure_full_ivs_evs]: a missing IV becomes a fresh draw of
    [random.randint(0, 31)] ([iv_draws], one per stat), a missing EV
    becomes 0. *)
Definition ensure_full_ivs_evs (iv_draws : Stats) (e : Entity) : Entity :=
  with_ivs_evs e (setdefaults (ivs e) iv_draws) (setdefaults (evs e) zero_stats).

(** [recalc_stats_from_base]. *)
Definition recalc_stats_from_base (e : Entity) (base_stats : Stats) : option Entity :=
  let old_max := if hp (stats e) =? 0 then 1 else hp (stats e) in
  let old_cur := current_hp e in
  let hp_pct := float_max 0 (float_min 1 (true_div old_cur old_max)) in
  match read_dict (ivs e), read_dict (evs e) with
  | Some i, Some v =>
      let st := derive_stats base_stats i v (level e) in
      Some (with_current_hp (with_stats e st)
              (Z.max 1 (int_of_float (PrimFloat.mul (float_of_Z (hp st)) hp_pct))))
  | _, _ => None
  end.

(** The spec's formula for the rescaled hp, on the exact ratio:
    [max(1, floor(newMaxHp * oldFraction))] with the fraction
    [old_cur / old_max] clamped to [0, 1]. *)
Definition spec_rescaled_hp (new_max old_cur old_max : Z) : Z :=
  let den := Z.abs old_max in
  let num := Z.sgn old_max * old_cur in
  let clamped := Z.max 0 (Z.min den num) in
  Z.max 1 ((new_max * clamped) / den).

(** Lines appended to the battle log by [award_entity_xp]. *)
Inductive XpEvent : Type :=
  | Maxed (who : string)
  | LevelUp (who : string) (new_level : Z).

(** Outcome of a function whose loop is run on fuel. *)
Inductive Res (A : Type) : Type :=
  | Ok (a : A)
  | Raised
  | OutOfFuel.
Arguments Ok {A} a.
Arguments Raised {A}.
Arguments OutOfFuel {A}.

(** The [while] loop of [award_entity_xp].  [base_stats_provider] gives
    the template's base stats, or [None] when the template has none (the
    source then indexes an empty dict and raises). *)
Fixpoint level_up_loop (fuel : nat) (base_stats_provider : Entity -> option Stats)
    (e : Entity) (log : list XpEvent) : Res (Entity * list XpEvent) :=
  if (entity_xp_required (level e + 1) <=? xp e) && (level e <? 100) then
    match fuel with
    | O => OutOfFuel
    | S fuel' =>
        let e1 := with_xp e (xp e - entity_xp_required (level e + 1)) in
        let e2 := with_level e1 (level e1 + 1) in
        match base_stats_provider e2 with
        | None => Raised
        | Some base =>
            match recalc_stats_from_base e2 base with
            | None => Raised
            | Some e3 =>
                level_up_loop fuel' base_stats_provider e3
                  (log ++ [LevelUp (name e3) (level e3)])
            end
        end
    end
  else Ok (e, log).

(** [award_entity_xp].  Every iteration raises the level by one and the
    loop stops at 100, so [100 - level] iterations are enough
    ([award_entity_xp_fuel] below). *)
Definition award_entity_xp (iv_draws : Stats) (e : Entity) (xp_gain : Z)
    (log : list XpEvent) (base_stats_provider : Entity -> option Stats)
    : Res (Entity * list XpEvent) :=
  let e := ensure_full_ivs_evs iv_draws e in
  if 100 <=? level e then
    Ok (with_xp (with_level e 100) 0, log ++ [Maxed (name e)])
  else
    let e1 := with_xp e (xp e + xp_gain) in
    level_up_loop (Z.to_nat (100 - level e1)) base_stats_provider e1 log.

End ProgressionTracker.
Export ProgressionTracker.

(** ** Python builtins on strings

    [str.lower], [str.strip], [str.isdigit], [int(str)] and the [str] of
    a dict are Unicode-aware library functions; the engine is
    parameterised by them.  [int] gives [None] where Python raises
    [ValueError]. *)
Record Builtins : Type := mkBuiltins {
  py_lower : string -> string;
  py_strip : string -> string;
  py_isdigit : string -> bool;
  py_int : string -> option Z;
  py_repr : MoveData -> string
}.

(** [s.replace("%", "")]. *)
Fixpoint remove_percent (s : string) : string :=
  match s with
  | EmptyString => EmptyString
  | String c rest =>
      if Ascii.eqb c "%"%char then remove_percent rest
      else String c (remove_percent rest)
  end.

(** The builtins restricted to ASCII text, for running the engine on
    concrete data. *)
Definition ascii_lower_char (c : ascii) : ascii :=
  let n := nat_of_ascii c in
  if ((65 <=? n) && (n <=? 90))%nat then ascii_of_nat (n + 32) else c.

Fixpoint ascii_lower (s : string) : string :=
  match s with
  | EmptyString => EmptyString
  | String c rest => String (ascii_lower_char c) (ascii_lower rest)
  end.

Definition is_space (c : ascii) : bool :=
  let n := nat_of_ascii c in ((n =? 32) || ((9 <=? n) && (n <=? 13)))%nat.

Fixpoint lstrip (s : string) : string :=
  match s with
  | EmptyString => EmptyString
  | String c rest => if is_space c then lstrip rest else s
  end.

Fixpoint string_rev (s acc : string) : string :=
  match s with
  | EmptyString => acc
  | String c rest => string_rev rest (String c acc)
  end.

Definition ascii_strip (s : string) : string :=
  string_rev (lstrip (string_rev (lstrip s) EmptyString)) EmptyString.

Definition digit_of (c : ascii) : option Z :=
  let n := nat_of_ascii c in
  if ((48 <=? n) && (n <=? 57))%nat then Some (Z.of_nat n - 48) else None.

Fixpoint all_digits (s : string) : bool :=
  match s with
  | EmptyString => true
  | String c rest => bool_decide (is_Some (digit_of c)) && all_digits rest
  end.

Definition ascii_isdigit (s : string) : bool :=
  negb (String.eqb s "") && all_digits s.

Fixpoint digits_value (s : string) (acc : Z) : option Z :=
  match s with
  | EmptyString => Some acc
  | String c rest =>
      match digit_of c with
      | Some d => digits_value rest (10 * acc + d)
      | None => None
      end
  end.

Definition ascii_int (s : string) : option Z :=
  match ascii_strip s with
  | EmptyString => None
  | String c rest =>
      if Ascii.eqb c "-"%char then
        if String.eqb rest "" then None else Z.opp <$> digits_value rest 0
      else if Ascii.eqb c "+"%char then
        if String.eqb rest "" then None else digits_value rest 0
      else digits_value (String c rest) 0
  end.

Definition ascii_repr (d : MoveData) : string :=
  "{'move': " ++ py_str (get_none (m_move d)) ++ "}".

Definition ascii_builtins : Builtins :=
  mkBuiltins ascii_lower ascii_strip ascii_isdigit ascii_int ascii_repr.

(** ** Combat session: move resolution and turn order *)

Module CombatSession.
Section Engine.
Context (B : Builtins).

(** [_label] of a moveset entry that is a dict:
    [m.get("skill") or m.get("move") or str(m)]. *)
Definition label_dict (d : MoveData) : PyVal :=
  py_or (py_or (get_none (m_skill d)) (get_none (m_move d))) (PStr (py_repr B d)).

(** [_label] of a moveset entry. *)
Definition _label (m : MoveEntry) : PyVal :=
  match m with
  | MDict d => label_dict d
  | MStr s => PStr s
  end.

(** [v.lower()]: only a string has the method. *)
Definition lower_of (v : PyVal) : option string :=
  match v with
  | PStr s => Some (py_lower B s)
  | _ => None
  end.

(** The dict built for a moveset entry that is a plain string. *)
Definition string_move (s : string) : MoveData :=
  mkMove None (Some (PStr s)) None (Some (PInt 40)) (Some (PInt 100)) None false.

(** The lookup loop of [resolve_move]: the first entry whose label
    equals the chosen name, ignoring case.  Outer [None]: the loop
    raised. *)
Fixpoint find_move (entries : list MoveEntry) (mv_name : string)
    : option (option MoveData) :=
  match entries with
  | [] => Some None
  | MDict d :: rest =>
      match lower_of (label_dict d) with
      | None => None
      | Some l =>
          if String.eqb l (py_lower B mv_name) then Some (Some d)
          else find_move rest mv_name
      end
  | MStr s :: rest =>
      if String.eqb (py_lower B s) (py_lower B mv_name)
      then Some (Some (string_move s))
      else find_move rest mv_name
  end.

(** [not mvdata] for a dict: it has no key at all. *)
Definition empty_dict (d : MoveData) : bool :=
  bool_decide (m_skill d = None) && bool_decide (m_move d = None)
  && bool_decide (m_type d = None) && bool_decide (m_power d = None)
  && bool_decide (m_acc d = None) && bool_decide (m_acc_dot d = None)
  && negb (m_other d).

(** [acc_raw = mvdata.get("acc") or mvdata.get("acc.") or 100]. *)
Definition acc_raw (d : MoveData) : PyVal :=
  py_or (py_or (get_none (m_acc d)) (get_none (m_acc_dot d))) (PInt 100).

(** [acc_val]: [int(str(acc_raw).replace("%", "").strip() or 100)], and
    100 when that raises.  The decimal text of an integer has no [%], no
    blank, is not empty and reads back as the integer. *)
Definition acc_val (d : MoveData) : Z :=
  match acc_raw d with
  | PInt z => z
  | PStr s =>
      let t := py_strip B (remove_percent s) in
      if String.eqb t "" then 100 else default 100 (py_int B t)
  | PNone => 100
  end.

(** [int(mvdata.get("power", 40))]; [None] for a support move (the
    conversion raised). *)
Definition power_of (d : MoveData) : option Z :=
  match m_power d with
  | None => Some 40
  | Some (PInt z) => Some z
  | Some (PStr s) => py_int B s
  | Some PNone => None
  end.

(** [mvdata.get("type", "Physical")]. *)
Definition type_of (d : MoveData) : PyVal := default (PStr "Physical") (m_type d).

(** What [resolve_move] reports (its log line). *)
Inductive Outcome : Type :=
  | Failed (mv_name : string)
  | Missed (mv_name : string)
  | Support (mv_name : string)
  | Hit (mv_name : string) (dmg : Z) (type : PyVal).

Definition damage (attacker defender : Entity) (power : Z) (type : PyVal) : Z :=
  if bool_decide (type = PStr "Magical") then
    Z.max 1 ((power + magic (stats attacker) / 2) - defense (stats defender) / 3)
  else
    Z.max 1 ((power + attack (stats attacker) / 2) - defense (stats defender) / 3).

(** [resolve_move].  [chosen_move] is a move name or a label; [roll] is
    the draw of [random.randint(1, 100)].  Returns the log line and the
    defender after the move; [None] when the lookup raised. *)
Definition resolve_move (attacker defender : Entity) (chosen_move : PyVal)
    (roll : Z) : option (Outcome * Entity) :=
  let mv_name := py_str chosen_move in
  match find_move (default [] (moveset attacker)) mv_name with
  | None => None
  | Some None => Some (Failed mv_name, defender)
  | Some (Some mvdata) =>
      if empty_dict mvdata then Some (Failed mv_name, defender)
      else if acc_val mvdata <? roll then Some (Missed mv_name, defender)
      else
        match power_of mvdata with
        | None => Some (Support mv_name, defender)
        | Some power =>
            let type := type_of mvdata in
            let dmg := damage attacker defender power type in
            Some (Hit mv_name dmg type,
                  with_current_hp defender (Z.max 0 (current_hp defender - dmg)))
        end
  end.

Inductive Side : Type := PlayerSide | EnemySide.

Record Battle : Type := mkBattle {
  player_hero : Entity;
  enemy : Entity
}.

(** The [order] list of [process_turn]; [coin] is the index drawn by
    [random.choice] among the two orders on a speed tie. *)
Definition turn_order (player_speed enemy_speed : Z) (move_name enemy_mv_label : PyVal)
    (coin : nat) : option (list (Side * PyVal)) :=
  let player_first := [(PlayerSide, move_name); (EnemySide, enemy_mv_label)] in
  let enemy_first := [(EnemySide, enemy_mv_label); (PlayerSide, move_name)] in
  if player_speed >? enemy_speed then Some player_first
  else if enemy_speed >? player_speed then Some enemy_first
  else [player_first; enemy_first] !! coin.

(** How the resolution pass ends. *)
Inductive TurnEnd : Type := EnemyDefeated | PlayerFallen | Ongoing.

(** One executed move, with the hit points both sides had when it
    started. *)
Record Action : Type := mkAction {
  act_side : Side;
  act_player_hp : Z;
  act_enemy_hp : Z;
  act_outcome : Outcome
}.


(** The [for side, mv in order] loop.  Each position of the order comes
    with the accuracy roll its move would draw. *)
Fixpoint execute (order : list (Side * PyVal * Z)) (b : Battle) (log : list Action)
    : option (Battle * list Action * TurnEnd) :=
  match order with
  | [] => Some (b, log, Ongoing)
  | (side, mv, roll) :: rest =>
      let p := player_hero b in
      let e := enemy b in
      let stepped :=
        match side with
        | PlayerSide =>
            if (0 <? current_hp p) && (0 <? current_hp e) then
              '(out, e') ← resolve_move p e mv roll;
              Some (mkBattle p e',
                    log ++ [mkAction PlayerSide (current_hp p) (current_hp e) out])
            else Some (b, log)
        | EnemySide =>
            if (0 <? current_hp e) && (0 <? current_hp p) then
              '(out, p') ← resolve_move e p mv roll;
              Some (mkBattle p' e,
                    log ++ [mkAction EnemySide (current_hp p) (current_hp e) out])
            else Some (b, log)
        end in
      match stepped with
      | None => None
      | Some (b', log') =>
          if current_hp (enemy b') <=? 0 then Some (b', log', EnemyDefeated)
          else if current_hp (player_hero b') <=? 0 then Some (b', log', PlayerFallen)
          else execute rest b' log'
      end
  end.

(** [process_turn] up to the point where it hands over to the reward
    settlement or to the swap menu.  [enemy_pick] is the index drawn by
    [random.choice] in the enemy moveset. *)
Definition process_turn (b : Battle) (move_name : string) (enemy_pick coin : nat)
    (roll1 roll2 : Z) : option (Battle * list Action * TurnEnd) :=
  let player_speed := speed (stats (player_hero b)) in
  let enemy_speed := speed (stats (enemy b)) in
  enemy_mv_choice ← default [MStr "Strike"] (moveset (enemy b)) !! enemy_pick;
  let enemy_mv_label := _label enemy_mv_choice in
  order ← turn_order player_speed enemy_speed (PStr move_name) enemy_mv_label coin;
  execute (zip order [roll1; roll2]) b [].

End Engine.
End CombatSession.
Export CombatSession.

(** ** Encounter generation *)

Module EncounterGenerator.

(** An entry of a template's skill list: the keys ["skill"], ["type"],
    ["power"], ["acc."] and ["lv."].  [None] is a missing key; the source
    indexes them directly and raises on a missing one. *)
Record Skill : Type := mkSkill {
  sk_skill : option PyVal;
  sk_type : option PyVal;
  sk_power : option PyVal;
  sk_acc : option PyVal;
  sk_lv : option PyVal
}.

(** A hero or monster template of the catalog.  [None] is a key the
    template does not have. *)
Record Template : Type := mkTemplate {
  t_id : Z;
  t_name : string;
  t_element : option string;
  t_rarity : option string;
  t_level : option Z;
  t_shiny : option bool;
  t_stats : Stats;
  t_skills : option (list Skill)
}.

(** [{**template, "rarity": r, "level": l, "shiny": s}]. *)
Definition override (t : Template) (r : string) (l : Z) (s : bool) : Template :=
  mkTemplate (t_id t) (t_name t) (t_element t) (Some r) (Some l) (Some s)
    (t_stats t) (t_skills t).

(** The draws one encounter can consume.  [rarity_draw] is the result of
    [random.choices] over the rarity weights, [level_draw] the truncated
    [random.triangular] for the rarity that was chosen, [shiny_u] the
    [random.random()] of the picker, [inst_shiny_u] the one of
    [build_instance_from_template], [d20] the [random.randint(1, 20)] of a
    chest hero, [summon_level] the [random.randint(50, 70)] of a summon. *)
Record Draws : Type := mkDraws {
  roll : float;
  key_roll : Z;
  rarity_draw : string;
  tmpl_idx : nat;
  shiny_u : float;
  level_draw : Z;
  iv_draws : Stats;
  inst_shiny_u : float;
  d20 : Z;
  summon_level : Z;
  uid : string
}.

(** The doubles nearest to 0.01 and 0.99. *)
Definition f0_01 : float := 0x1.47ae147ae147bp-7%float.
Definition f0_99 : float := 0x1.fae147ae147aep-1%float.

Section Generator.
Context (B : Builtins).

(** [int(v) if str(v).isdigit() else dflt]; [None] when [int] raises. *)
Definition int_if_digit (v : PyVal) (dflt : Z) : option Z :=
  if py_isdigit B (py_str v) then
    match v with
    | PInt z => Some z
    | PStr s => py_int B s
    | PNone => None
    end
  else Some dflt.

(** The moveset entry built from a skill (the same dict in
    [build_instance_from_template] and in [add_starter]). *)
Definition move_of_skill (s : Skill) : option MoveEntry :=
  skill ← sk_skill s;
  type ← sk_type s;
  power_raw ← sk_power s;
  power ← int_if_digit power_raw 0;
  acc_raw ← sk_acc s;
  acc ← int_if_digit acc_raw 100;
  Some (MDict (mkMove None (Some skill) (Some type)
                 (Some (PInt power)) (Some (PInt acc)) None false)).

(** [build_instance_from_template(template, level, is_hero)]. *)
Definition build_instance_from_template (d : Draws) (template : Template)
    (level : option Z) (is_hero : bool) : option Entity :=
  let from_template := default 10 (t_level template) in
  let level :=
    match level with
    | Some l => if l =? 0 then from_template else l
    | None => from_template
    end in
  let shiny := is_hero && PrimFloat.ltb (inst_shiny_u d) (true_div 1 5000) in
  let ivs := iv_draws d in
  let evs := zero_stats in
  let scaled_stats := derive_stats (t_stats template) ivs evs level in
  moves ← mapM move_of_skill (take 4 (default [] (t_skills template)));
  Some (mkEntity (t_id template) ("e" ++ uid d) (t_name template)
          (default "Neutral" (t_element template))
          (default "common" (t_rarity template))
          level shiny false (full_dict ivs) (full_dict evs) scaled_stats
          (hp scaled_stats) 0 (Some moves) None).

Definition of_rarity (r : string) (db : list Template) : list Template :=
  filter (fun t => t_rarity t = Some r) db.

Definition known_rarity (r : string) : bool :=
  bool_decide (r ∈ ["common"; "uncommon"; "rare"; "epic"; "legendary"]).

Definition fallback_hero : Template :=
  mkTemplate 1 "Aiden" (Some "Earth") (Some "uncommon") (Some 5) (Some false)
    (mkStats 80 70 65 30 45)
    (Some [mkSkill (Some (PStr "Slash")) None (Some (PStr "50")) (Some (PStr "100")) None]).

Definition fallback_monster : Template :=
  mkTemplate 1 "Slime" (Some "Water") (Some "common") (Some 5) (Some false)
    (mkStats 50 20 15 10 20)
    (Some [mkSkill (Some (PStr "Splash")) None (Some (PStr "30")) (Some (PStr "100")) None]).

(** [pick_random_hero_template]: the shiny flag of the template is
    rolled at 1/4096. *)
Definition pick_random_hero_template (heroes_db : list Template) (d : Draws)
    : option Template :=
  match heroes_db with
  | [] => Some fallback_hero
  | _ =>
      let chosen_rarity :=
        match of_rarity (rarity_draw d) heroes_db with
        | [] => "common"
        | _ => rarity_draw d
        end in
      template ← of_rarity chosen_rarity heroes_db !! tmpl_idx d;
      let shiny := PrimFloat.ltb (shiny_u d) (true_div 1 4096) in
      Some (override template chosen_rarity (level_draw d) shiny)
  end.

(** [pick_random_monster_template]: rolled at 1/8192. *)
Definition pick_random_monster_template (monsters_db : list Template) (d : Draws)
    : option Template :=
  match monsters_db with
  | [] => Some fallback_monster
  | _ =>
      let chosen_rarity :=
        match of_rarity (rarity_draw d) monsters_db with
        | [] => "common"
        | _ => rarity_draw d
        end in
      template ← of_rarity chosen_rarity monsters_db !! tmpl_idx d;
      let shiny := PrimFloat.ltb (shiny_u d) (true_div 1 8192) in
      Some (override template chosen_rarity (level_draw d) shiny)
  end.

(** [pick_random_hero_template_by_rarity(target_rarity)]. *)
Definition pick_random_hero_template_by_rarity (heroes_db : list Template)
    (target_rarity : string) (d : Draws) : option Template :=
  match heroes_db with
  | [] => pick_random_hero_template heroes_db d
  | _ =>
      let group :=
        if known_rarity (py_lower B target_rarity)
        then of_rarity (py_lower B target_rarity) heroes_db else [] in
      match group with
      | [] => pick_random_hero_template heroes_db d
      | _ =>
          template ← group !! tmpl_idx d;
          let shiny := PrimFloat.ltb (shiny_u d) (true_div 1 4096) in
          Some (override template target_rarity (level_draw d) shiny)
      end
  end.

(** What [/explore] produces. *)
Inductive Encounter : Type :=
  | ChestEncounter (key_type : string)
  | HeroEncounter (inst : Entity)
  | MonsterEncounter (inst : Entity).

(** [/explore] for a registered player: the encounter it stores and
    shows. *)
Definition explore (heroes_db monsters_db : list Template) (d : Draws)
    : option Encounter :=
  if PrimFloat.ltb (roll d) f0_01 then
    Some (ChestEncounter
            (if key_roll d <=? 50 then "Silver Key"
             else if key_roll d <=? 80 then "Golden Key" else "Ancient Key"))
  else if PrimFloat.ltb (roll d) f0_99 then
    template ← pick_random_hero_template heroes_db d;
    inst ← build_instance_from_template d template None false;
    Some (HeroEncounter (with_current_hp inst (hp (stats inst))))
  else
    template ← pick_random_monster_template monsters_db d;
    inst ← build_instance_from_template d template None false;
    Some (MonsterEncounter
            (with_shiny (with_current_hp inst (hp (stats inst))) false)).

(** [int(s["lv."])]. *)
Definition skill_level (s : Skill) : option Z :=
  match sk_lv s with
  | Some (PInt z) => Some z
  | Some (PStr t) => py_int B t
  | Some PNone | None => None
  end.

(** The starter built by [StarterSelectView.add_starter]: the skills
    unlocked at the starter's level. *)
Fixpoint unlocked (skills : list Skill) (level : Z) : option (list Skill) :=
  match skills with
  | [] => Some []
  | s :: rest =>
      lv ← skill_level s;
      tl ← unlocked rest level;
      Some (if lv <=? level then s :: tl else tl)
  end.

Definition add_starter (heroes_db : list Template) (hero_name : string) (d : Draws)
    : option Entity :=
  match filter (fun h => py_lower B (t_name h) = py_lower B hero_name) heroes_db with
  | [] => None
  | base_data :: _ =>
      let level := 10 in
      let ivs := iv_draws d in
      let evs := zero_stats in
      let stats := derive_stats (t_stats base_data) ivs evs level in
      usable ← unlocked (default [] (t_skills base_data)) level;
      moves ← mapM move_of_skill usable;
      let moveset :=
        match take 4 moves with
        | [] => [MDict (mkMove None (Some (PStr "Strike")) None
                          (Some (PInt 40)) (Some (PInt 100)) None false)]
        | ms => ms
        end in
      element ← t_element base_data;
      rarity ← t_rarity base_data;
      Some (mkEntity (t_id base_data) ("h" ++ uid d) (t_name base_data)
              element rarity
              level (PrimFloat.ltb (shiny_u d) (true_div 1 5000)) false
              (full_dict ivs) (full_dict evs) stats (hp stats) 0
              (Some moveset) None)
  end.

(** The epic hero that can come out of a silver or gold chest
    ([KeyEncounterView.unlock_button]). *)
Definition chest_hero (heroes_db : list Template) (d : Draws) : option Entity :=
  hero_template ← pick_random_hero_template_by_rarity heroes_db "epic" d;
  hero_inst ← build_instance_from_template d hero_template None true;
  Some (with_shiny hero_inst (bool_decide (d20 d = 1))).

(** The instance built by [/summon] from a filled relic. *)
Definition summon_instance (hero_data : Template) (d : Draws) : option Entity :=
  inst ← build_instance_from_template d hero_data None false;
  let inst := with_level inst (summon_level d) in
  let inst := with_rarity inst "legendary" in
  let inst := with_shiny inst true in
  Some (with_current_hp inst (hp (stats inst))).

End Generator.
End EncounterGenerator.
Export EncounterGenerator.

(** ** Player records *)

(** A Python dict with string keys, in insertion order (the order
    decides which key a case-insensitive search finds first). *)
Fixpoint dict_get {V : Type} (d : list (string * V)) (k : string) : option V :=
  match d with
  | [] => None
  | (k', v) :: rest => if String.eqb k' k then Some v else dict_get rest k
  end.

(** [d[k] = v]: in place for a key that exists, at the end for a new
    one. *)
Fixpoint dict_set {V : Type} (d : list (string * V)) (k : string) (v : V)
    : list (string * V) :=
  match d with
  | [] => [(k, v)]
  | (k', v') :: rest =>
      if String.eqb k' k then (k', v) :: rest else (k', v') :: dict_set rest k v
  end.

(** [del d[k]] (for a key that exists). *)
Fixpoint dict_del {V : Type} (d : list (string * V)) (k : string)
    : list (string * V) :=
  match d with
  | [] => []
  | (k', v') :: rest =>
      if String.eqb k' k then rest else (k', v') :: dict_del rest k
  end.

(** [d[k] = d.get(k, 0) + n]. *)
Definition dict_add (d : list (string * Z)) (k : string) (n : Z) : list (string * Z) :=
  dict_set d k (default 0 (dict_get d k) + n).

(** The record written by [/use]. *)
Record RelicCharge : Type := mkRelicCharge {
  rc_item : string;
  rc_hero : string;
  rc_kills : Z;
  rc_goal : Z
}.

(** The record read by the reward settlement under the key
    ["respawn_orb"]. *)
Record RespawnOrb : Type := mkRespawnOrb {
  orb_item : string;
  orb_name : option string;
  orb_kills : Z;
  orb_goal : Z
}.

Record BossBattle : Type := mkBossBattle {
  boss_type : string;
  boss_index : Z;
  boss_team : list Entity
}.

Record Player : Type := mkPlayer {
  username : string;
  coins : Z;
  account_xp : Z;
  account_level : Z;
  badges : list (string * bool);
  bag : list (string * Z);
  pc : list Entity;
  active_team : list string;
  relic_charge : option RelicCharge;
  respawn_orb : option RespawnOrb;
  boss_battle : option BossBattle
}.

Definition with_coins (p : Player) (c : Z) : Player :=
  mkPlayer (username p) c (account_xp p) (account_level p) (badges p) (bag p)
    (pc p) (active_team p) (relic_charge p) (respawn_orb p) (boss_battle p).

Definition with_account (p : Player) (x l : Z) : Player :=
  mkPlayer (username p) (coins p) x l (badges p) (bag p)
    (pc p) (active_team p) (relic_charge p) (respawn_orb p) (boss_battle p).

Definition with_badges (p : Player) (b : list (string * bool)) : Player :=
  mkPlayer (username p) (coins p) (account_xp p) (account_level p) b (bag p)
    (pc p) (active_team p) (relic_charge p) (respawn_orb p) (boss_battle p).

Definition with_bag (p : Player) (b : list (string * Z)) : Player :=
  mkPlayer (username p) (coins p) (account_xp p) (account_level p) (badges p) b
    (pc p) (active_team p) (relic_charge p) (respawn_orb p) (boss_battle p).

Definition with_pc (p : Player) (h : list Entity) : Player :=
  mkPlayer (username p) (coins p) (account_xp p) (account_level p) (badges p) (bag p)
    h (active_team p) (relic_charge p) (respawn_orb p) (boss_battle p).

Definition with_active_team (p : Player) (t : list string) : Player :=
  mkPlayer (username p) (coins p) (account_xp p) (account_level p) (badges p) (bag p)
    (pc p) t (relic_charge p) (respawn_orb p) (boss_battle p).

Definition with_relic_charge (p : Player) (r : option RelicCharge) : Player :=
  mkPlayer (username p) (coins p) (account_xp p) (account_level p) (badges p) (bag p)
    (pc p) (active_team p) r (respawn_orb p) (boss_battle p).

Definition with_respawn_orb (p : Player) (o : option RespawnOrb) : Player :=
  mkPlayer (username p) (coins p) (account_xp p) (account_level p) (badges p) (bag p)
    (pc p) (active_team p) (relic_charge p) o (boss_battle p).

Definition with_boss_battle (p : Player) (b : option BossBattle) : Player :=
  mkPlayer (username p) (coins p) (account_xp p) (account_level p) (badges p) (bag p)
    (pc p) (active_team p) (relic_charge p) (respawn_orb p) b.

(** The answer of a command: a refusal leaves with a message for the
    user. *)
Inductive Reply : Type :=
  | Rejected (why : string)
  | Accepted.

(** ** Roster commands *)

Module Roster.
Section Commands.
Context (B : Builtins).

(** [ConfirmClearView.confirm], the confirmation of [/barracksclear]. *)
Definition confirm_clear (user : Player) : Player :=
  let team_ids := active_team user in
  with_pc user (filter (fun h => unique_id h ∈ team_ids) (pc user)).

(** The hero an identifier names in [/partyremove]: a slot number of the
    team, or the beginning of a hero id.  Outer [None]: [int] raised. *)
Definition party_hero (p : Player) (identifier : string) : option (option Entity) :=
  let team := active_team p in
  if py_isdigit B identifier then
    slot ← py_int B identifier;
    if (1 <=? slot) && (slot <=? Z.of_nat (length team)) then
      Some (id ← team !! Z.to_nat (slot - 1);
            snd <$> list_find (fun h => unique_id h = id) (pc p))
    else Some None
  else
    Some (snd <$> list_find
            (fun h => String.prefix (py_lower B identifier) (py_lower B (unique_id h)) = true
                      ∧ unique_id h ∈ team)
            (pc p)).

(** [list.remove(x)]: the first occurrence. *)
Fixpoint list_remove_first (x : string) (l : list string) : list string :=
  match l with
  | [] => []
  | y :: rest => if String.eqb y x then rest else y :: list_remove_first x rest
  end.

(** [/partyremove] for a registered player. *)
Definition partyremove (p : Player) (identifier : string) : option (Player * Reply) :=
  match active_team p with
  | [] => Some (p, Rejected "You have no active heroes to remove.")
  | _ =>
      found ← party_hero p identifier;
      match found with
      | None => Some (p, Rejected "No hero found in your party.")
      | Some hero =>
          if locked hero then
            Some (p, Rejected "locked and cannot be removed from your party.")
          else
            Some (with_active_team p
                    (list_remove_first (unique_id hero) (active_team p)),
                  Accepted)
      end
  end.

(** [/elixir]: the number of elixirs the command sees, through the
    lower-cased copy of the bag (a later key wins). *)
Definition lowered_get (bag : list (string * Z)) (key : string) : Z :=
  default 0
    (foldl (fun acc kv => if String.eqb (py_lower B kv.1) key then Some kv.2 else acc)
       None bag).

(** The deduction loop of [/elixir]: the first key that lower-cases to
    ["elixir"]. *)
Definition deduct_elixirs (bag : list (string * Z)) (n : Z) : list (string * Z) :=
  match list_find (fun kv => py_lower B kv.1 = "elixir") bag with
  | Some (_, (key, v)) =>
      if v - n <=? 0 then dict_del bag key else dict_set bag key (v - n)
  | None => bag
  end.

Definition elixir_hero (p : Player) (identifier : string)
    : option (option (nat * Entity)) :=
  if py_isdigit B identifier then
    slot ← py_int B identifier;
    if (1 <=? slot) && (slot <=? Z.of_nat (length (active_team p))) then
      Some (id ← active_team p !! Z.to_nat (slot - 1);
            list_find (fun h => unique_id h = id) (pc p))
    else Some None
  else
    Some (list_find
            (fun h => String.prefix (py_lower B identifier) (py_lower B (unique_id h)) = true)
            (pc p)).

(** [/elixir] for a registered player.  The hero is an element of
    [p["pc"]] and is updated in place. *)
Definition elixir (p : Player) (identifier : string) (amount : Z)
    : option (Player * Reply) :=
  let elixirs := lowered_get (bag p) "elixir" in
  if elixirs <=? 0 then Some (p, Rejected "You have no Elixirs!")
  else
    found ← elixir_hero p identifier;
    match found with
    | None => Some (p, Rejected "No hero found.")
    | Some (i, hero) =>
        let current_level := level hero in
        if 100 <=? current_level then Some (p, Rejected "That hero is already Lv.100.")
        else
          let max_usable :=
            Z.min (Z.min (if amount =? 0 then 1 else amount) elixirs)
              (100 - current_level) in
          if max_usable <=? 0 then Some (p, Rejected "You can't use that many Elixirs!")
          else
            let bag' := deduct_elixirs (bag p) max_usable in
            let hero := with_level hero (level hero + max_usable) in
            let hero :=
              match base_stats_memo hero with
              | Some _ => hero
              | None => with_base_stats_memo hero (Some (stats hero))
              end in
            hero' ← recalc_stats_from_base hero (default zero_stats (base_stats_memo hero));
            Some (with_pc (with_bag p bag') (<[i := hero']> (pc p)), Accepted)
    end.

End Commands.
End Roster.
Export Roster.

(** ** Reward settlement and relic charging *)

Module RewardLedger.

(** [LEGENDARY_DROPS]: legendary hero and the relics that awaken it. *)
Definition LEGENDARY_DROPS : list (string * list string) :=
  [("Aurelia", ["Relic of Radiant Souls"]);
   ("Umbra", ["Relic of Abyssal Souls"]);
   ("Ignis", ["Relic of Infernal Souls"]);
   ("Frostbane", ["Relic of Frozen Souls"]);
   ("Zephyra", ["Relic of Skybound Souls"])].

(** The draws and catalog picks of one settlement: the boss purse, the
    coin roll, the hero and account experience rolls, the contract
    amounts of the account level-ups (one per level-up) and the names of
    the materials the drop loop picked. *)
Record KillDraws : Type := mkKillDraws {
  boss_coins_draw : Z;
  coin_reward : Z;
  hero_xp_roll : Z;
  hero_iv_draws : Stats;
  trainer_xp_gain : Z;
  contract_amts : list Z;
  drop_items : list string
}.

Section Settlement.
Context (B : Builtins).

(** [xp_required_for_level]: [int(200 * 1.059 ** (level - 1))] is
    computed on doubles; the settlement is parameterised by it. *)
Context (xp_required_for_level : Z -> Z).

(** The relic a [/use] argument names. *)
Definition find_relic (item : string) : option (string * string) :=
  head (concat (map (fun '(hero_name, drops) =>
                       map (fun d => (hero_name, d))
                         (filter (fun d => py_lower B d = py_lower B item) drops))
                  LEGENDARY_DROPS)).

(** [/use] followed by the confirmation button ([ConfirmUse.confirm]). *)
Definition use_confirm (p : Player) (item : string) : Player * Reply :=
  let item := py_strip B item in
  match find_relic item with
  | None => (p, Rejected "That item cannot be used or is not a valid relic.")
  | Some (hero_name, _) =>
      if default 0 (dict_get (bag p) item) <=? 0
      then (p, Rejected "You do not have any.")
      else (with_relic_charge p (Some (mkRelicCharge item hero_name 0 100)), Accepted)
  end.

(** The account level-up loop of [_handle_rewards]; it stops for want
    of draws only if [amts] is too short. *)
Fixpoint account_level_loop (amts : list Z) (p : Player) : Res Player :=
  if xp_required_for_level (account_level p) <=? account_xp p then
    match amts with
    | [] => OutOfFuel
    | amt :: amts' =>
        let p := with_account p (account_xp p - xp_required_for_level (account_level p))
                   (account_level p + 1) in
        let new_level := account_level p in
        let p := with_coins p (coins p + new_level * 200) in
        let p :=
          if new_level <? 10 then with_bag p (dict_add (bag p) "Contract" amt)
          else if new_level <? 20 then with_bag p (dict_add (bag p) "Great Contract" amt)
          else if new_level <? 50 then with_bag p (dict_add (bag p) "Ancient Contract" amt)
          else p in
        let p :=
          if bool_decide (new_level ∈ [10; 25; 50; 75; 100])
          then with_bag p (dict_add (bag p) "Soulbound Contract" 1)
          else p in
        account_level_loop amts' p
    end
  else Ok p.

(** The boss bookkeeping at the head of [_handle_rewards]: the player
    after it and the next foe of the domain, if any. *)
Definition boss_step (p : Player) (d : KillDraws) : option (Player * option Entity) :=
  match boss_battle p with
  | None => Some (p, None)
  | Some bdata =>
      let index := boss_index bdata + 1 in
      if Z.of_nat (length (boss_team bdata)) <=? index then
        let badge_already := default false (dict_get (badges p) (boss_type bdata)) in
        let p := with_coins p (coins p + boss_coins_draw d) in
        let p := if badge_already then p
                 else with_badges p (dict_set (badges p) (boss_type bdata) true) in
        Some (with_boss_battle p None, None)
      else
        next ← boss_team bdata !! Z.to_nat index;
        Some (with_boss_battle p (Some (mkBossBattle (boss_type bdata) index (boss_team bdata))),
              Some next)
  end.

(** The relic block that closes [_handle_rewards]. *)
Definition settle_respawn_orb (p : Player) : option Player :=
  match respawn_orb p with
  | None => Some p
  | Some orb =>
      let kills := orb_kills orb + 1 in
      let goal := orb_goal orb in
      if goal <=? kills then
        let filled_name := ("Filled " ++ orb_item orb)%string in
        let base_name := py_lower B (orb_item orb) in
        let bag1 :=
          match dict_get (bag p) base_name with
          | Some v =>
              if v - 1 <=? 0 then dict_del (bag p) base_name
              else dict_set (bag p) base_name (v - 1)
          | None => bag p
          end in
        let bag2 := dict_add bag1 (py_lower B filled_name) 1 in
        _ ← orb_name orb;
        Some (with_respawn_orb (with_bag p bag2) None)
      else
        Some (with_respawn_orb p
                (Some (mkRespawnOrb (orb_item orb) (orb_name orb) kills goal)))
  end.

(** [_handle_rewards] on the player record and the active hero, once the
    enemy is down.  The result also tells whether a next boss foe takes
    over (the function then returns before the relic block). *)
Definition _handle_rewards (p : Player) (hero enemy : Entity) (d : KillDraws)
    (base_stats_provider : Entity -> option Stats)
    : Res (Player * Entity * option Entity) :=
  if 0 <? current_hp enemy then Ok (p, hero, None)
  else
    match boss_step p d with
    | None => Raised
    | Some (p, next_enemy) =>
        let ko_coins := coin_reward d + level enemy / 2 in
        let p := with_coins p (coins p + ko_coins) in
        let hero_xp_gain := hero_xp_roll d + level enemy / 2 in
        let awarded :=
          if 100 <=? level hero then Ok (hero, [])
          else award_entity_xp (hero_iv_draws d) hero hero_xp_gain [] base_stats_provider in
        match awarded with
        | Raised => Raised
        | OutOfFuel => OutOfFuel
        | Ok (hero, _) =>
            let p := with_account p (account_xp p + trainer_xp_gain d) (account_level p) in
            match account_level_loop (contract_amts d) p with
            | Raised => Raised
            | OutOfFuel => OutOfFuel
            | Ok p =>
                let p := with_bag p (foldl (fun b item => dict_add b item 1) (bag p) (drop_items d)) in
                match next_enemy with
                | Some next => Ok (p, hero, Some next)
                | None =>
                    match settle_respawn_orb p with
                    | None => Raised
                    | Some p => Ok (p, hero, None)
                    end
                end
            end
        end
    end.

End Settlement.
End RewardLedger.
Export RewardLedger.

(** ** Economy: slots, auction listing, coinflips *)

Module Economy.

Record Auction : Type := mkAuction {
  au_seller : string;
  au_item : string;
  au_amount : Z;
  au_price : Z;
  au_end_time : Z
}.

Record Coinflip : Type := mkCoinflip {
  cf_creator : string;
  cf_amount : Z;
  cf_time : float
}.

(** The three module-level stores: [players], [auctions], [coinflips]. *)
Record World : Type := mkWorld {
  players : gmap string Player;
  auctions : gmap string Auction;
  coinflips : gmap string Coinflip
}.

Definition EXPIRY_SECONDS : Z := 1800.

Definition valid_duration (hours : Z) : bool :=
  bool_decide (hours ∈ [12; 24; 48; 72]).

(** The symbols of the slot machine. *)
Inductive Symbol : Type :=
  | Grapes | Cherries | Lemon | Star | Bell | Diamond | Gift.

#[global] Instance Symbol_eq_dec : EqDecision Symbol.
Proof. solve_decision. Defined.

Definition is_fruit (s : Symbol) : bool :=
  match s with
  | Grapes | Cherries | Lemon => true
  | _ => false
  end.

(** [int(amount * x)] for a float factor [x]. *)
Definition int_times (amount : Z) (x : float) : Z :=
  int_of_float (PrimFloat.mul (float_of_Z amount) x).

(** The payout of a spin from its middle row. *)
Definition payout_of (amount : Z) (middle : Symbol * Symbol * Symbol) : Z :=
  let '(a, b, c) := middle in
  if bool_decide (a = b) && bool_decide (b = c) then
    if is_fruit a then amount * 4
    else match a with
         | Star => amount * 15
         | Bell => amount * 10
         | Diamond => amount * 100
         | _ => 0
         end
  else if bool_decide (a = b) || bool_decide (a = c) || bool_decide (b = c) then
    let symbol := if bool_decide (a = b) || bool_decide (a = c) then a else b in
    if is_fruit symbol then int_times amount 0.5
    else match symbol with
         | Star => int_times amount 3.5
         | Bell => int_times amount 2.5
         | Diamond => amount * 15
         | _ => 0
         end
  else 0.

Definition has_gift (middle : Symbol * Symbol * Symbol) : bool :=
  let '(a, b, c) := middle in
  bool_decide (a = Gift) || bool_decide (b = Gift) || bool_decide (c = Gift).

(** The [while True] loop of [/slots]: one middle row per spin; the coin
    balance after the last spin.  The loop runs on while free spins
    remain, so it needs as many rows as spins happen. *)
Fixpoint spin_loop (spins : list (Symbol * Symbol * Symbol)) (amount coins free_spins : Z)
    : Res Z :=
  match spins with
  | [] => OutOfFuel
  | middle :: rest =>
      let payout := payout_of amount middle in
      let coins := coins + payout in
      let free_spins := if has_gift middle then free_spins + 3 else free_spins in
      if 0 <? free_spins then spin_loop rest amount coins (free_spins - 1)
      else Ok coins
  end.

(** [/slots]. *)
Definition slots (w : World) (user_id : string) (amount : Z)
    (spins : list (Symbol * Symbol * Symbol)) : Res (World * Reply) :=
  match players w !! user_id with
  | None => Ok (w, Rejected "Create a profile first.")
  | Some p =>
      if coins p <? amount then Ok (w, Rejected "You do not have enough coins to bet that amount.")
      else
        match spin_loop spins amount (coins p - amount) 0 with
        | Ok c => Ok (mkWorld (<[user_id := with_coins p c]> (players w))
                        (auctions w) (coinflips w), Accepted)
        | Raised => Raised
        | OutOfFuel => OutOfFuel
        end
  end.

Section Commands.
Context (B : Builtins).

(** [/ahsell].  [auc_id] is the id given by [new_auction_id], [now] the
    date and time in microseconds ([datetime] arithmetic is exact). *)
Definition ahsell (w : World) (user_id id : string) (amount price time : Z)
    (auc_id : string) (now : Z) : World * Reply :=
  match players w !! user_id with
  | None => (w, Rejected "Create a profile first.")
  | Some p =>
      if negb (valid_duration time)
      then (w, Rejected "Auction duration must be 12, 24, 48, or 72 hours.")
      else
        match list_find (fun kv => py_lower B kv.1 = py_lower B id) (bag p) with
        | None => (w, Rejected "You do not have any in your bag.")
        | Some (_, (matched_key, have)) =>
            if have <? amount then (w, Rejected "You do not have that many in your bag.")
            else
              let bag' :=
                if have - amount <=? 0 then dict_del (bag p) matched_key
                else dict_set (bag p) matched_key (have - amount) in
              let end_time := now + time * 3600000000 in
              (mkWorld (<[user_id := with_bag p bag']> (players w))
                 (<[auc_id := mkAuction user_id matched_key amount price end_time]> (auctions w))
                 (coinflips w),
               Accepted)
        end
  end.

End Commands.

(** [s[-6:]]. *)
Definition last6 (s : string) : string :=
  let n := String.length s in
  String.substring (n - 6) 6 s.

(** [str(int(time.time() * 1000))[-6:]] for the clock value [now]. *)
Definition coinflip_id (now : float) : string :=
  last6 (pretty (int_of_float (PrimFloat.mul now 1000))).

(** [/cfcreate].  [now_id] and [now_time] are the two readings of the
    clock. *)
Definition cfcreate (w : World) (user_id : string) (amount : Z)
    (now_id now_time : float) : World * Reply :=
  match players w !! user_id with
  | None => (w, Rejected "Create a profile first.")
  | Some p =>
      if amount <=? 0 then (w, Rejected "Bet must be greater than 0.")
      else if coins p <? amount then (w, Rejected "You do not have enough coins!")
      else
        let cf_id := coinflip_id now_id in
        (mkWorld (<[user_id := with_coins p (coins p - amount)]> (players w))
           (auctions w)
           (<[cf_id := mkCoinflip user_id amount now_time]> (coinflips w)),
         Accepted)
  end.

(** [/cftake].  [pick] is the index drawn by [random.choice] in
    [[creator_id, user_id]].  [None]: the winner has no player record
    (the source raises). *)
Definition cftake (w : World) (user_id id : string) (pick : nat)
    : option (World * Reply) :=
  match players w !! user_id with
  | None => Some (w, Rejected "Create a profile first.")
  | Some challenger =>
      match coinflips w !! id with
      | None => Some (w, Rejected "No active coinflip found with that ID.")
      | Some flip =>
          let creator_id := cf_creator flip in
          let amount := cf_amount flip in
          if String.eqb user_id creator_id
          then Some (w, Rejected "You cannot take your own coinflip.")
          else if coins challenger <? amount
          then Some (w, Rejected "You do not have enough coins to match this bet.")
          else
            let players1 :=
              <[user_id := with_coins challenger (coins challenger - amount)]> (players w) in
            winner ← [creator_id; user_id] !! pick;
            let prize := amount * 2 in
            wp ← players1 !! winner;
            Some (mkWorld (<[winner := with_coins wp (coins wp + prize)]> players1)
                    (auctions w)
                    (delete id (coinflips w)),
                  Accepted)
      end
  end.

(** One expired coinflip of [coinflip_cleanup]: the refund. *)
Definition refund (ps : gmap string Player) (kv : string * Coinflip) : gmap string Player :=
  match ps !! cf_creator kv.2 with
  | Some p => <[cf_creator kv.2 := with_coins p (coins p + cf_amount kv.2)]> ps
  | None => ps
  end.

(** [coinflip_cleanup] at the clock value [now]. *)
Definition coinflip_cleanup (w : World) (now : float) : World :=
  let expired :=
    filter (fun kv => PrimFloat.ltb (float_of_Z EXPIRY_SECONDS)
                        (PrimFloat.sub now (cf_time kv.2)) = true)
      (map_to_list (coinflips w)) in
  mkWorld (foldl refund (players w) expired)
    (auctions w)
    (foldl (fun m kv => delete kv.1 m) (coinflips w) expired).

(** All the coins of the coinflip game: the balances of the players and
    the stakes held by open coinflips. *)
Definition coin_sum {V : Type} (g : V -> Z) (m : gmap string V) : Z :=
  map_fold (fun _ v acc => g v + acc) 0 m.

Definition balances (ps : gmap string Player) : Z := coin_sum coins ps.

Definition escrow (cfs : gmap string Coinflip) : Z := coin_sum cf_amount cfs.

Definition total_coins (w : World) : Z :=
  balances (players w) + escrow (coinflips w).

(** The operations of the coinflip game. *)
Inductive CoinOp : Type :=
  | OpCreate (user_id : string) (amount : Z) (now_id now_time : float)
  | OpTake (user_id id : string) (pick : nat)
  | OpCleanup (now : float).

(** One operation; [None] when [/cftake] raised. *)
Definition coin_step (w : World) (op : CoinOp) : option World :=
  match op with
  | OpCreate user_id amount now_id now_time =>
      Some (cfcreate w user_id amount now_id now_time).1
  | OpTake user_id id pick => fst <$> cftake w user_id id pick
  | OpCleanup now => Some (coinflip_cleanup w now)
  end.

(** The id a [/cfcreate] is about to use is not the id of an open
    coinflip. *)
Definition fresh_id (w : World) (op : CoinOp) : Prop :=
  match op with
  | OpCreate _ _ now_id _ => coinflips w !! coinflip_id now_id = None
  | _ => True
  end.

(** A run of operations in which every new coinflip gets a fresh id. *)
Inductive fresh_run : World -> list CoinOp -> World -> Prop :=
  | fresh_run_nil (w : World) : fresh_run w [] w
  | fresh_run_cons (w w1 w2 : World) (op : CoinOp) (ops : list CoinOp) :
      fresh_id w op -> coin_step w op = Some w1 -> fresh_run w1 ops w2 ->
      fresh_run w (op :: ops) w2.

(** Every open coinflip was created by a registered player. *)
Definition creators_registered (w : World) : Prop :=
  forall k f, coinflips w !! k = Some f -> is_Some (players w !! cf_creator f).

End Economy.
Export Economy.

(** ** Further parts of the engine *)

(** The xp taken by the level-ups that lead from level [from] to level
    [to]: the thresholds of the levels [from + 1 .. to]. *)
Definition threshold_sum (from to : Z) : Z :=
  foldr Z.add 0 (entity_xp_required <$> seqZ (from + 1) (to - from)).

(** The label [BattleView.__init__] puts on the button of a moveset
    entry: [move.get("move") or move.get("skill")] for a dict, [str(move)]
    otherwise. *)
Definition button_label (m : MoveEntry) : PyVal :=
  match m with
  | MDict d => py_or (get_none (m_move d)) (get_none (m_skill d))
  | MStr s => PStr s
  end.

(** The move buttons of a battle view: one per entry with a truthy
    label. *)
Definition move_buttons (player_hero : Entity) : list PyVal :=
  filter (fun label => truthy label = true)
    (button_label <$> default [] (moveset player_hero)).


Definition with_locked (e : Entity) (b : bool) : Entity :=
  mkEntity (ent_id e) (unique_id e) (name e) (element e) (rarity e) (level e)
    (shiny e) b (ivs e) (evs e) (stats e) (current_hp e) (xp e)
    (moveset e) (base_stats_memo e).



(** [bag[key] -= 1], and [del bag[key]] when nothing is left (for a key
    the bag has). *)
Definition take_one (bag : list (string * Z)) (key : string) : list (string * Z) :=
  let left := default 0 (dict_get bag key) - 1 in
  if left <=? 0 then dict_del bag key else dict_set bag key left.

(** ** Party commands *)

Module PartyCommands.
Section Commands.
Context (B : Builtins).

(** The loop of [/heal] that spends the potion: the first key that
    lower-cases to ["potion"]. *)
Definition deduct_potion (bag : list (string * Z)) : list (string * Z) :=
  match list_find (fun kv => py_lower B kv.1 = "potion") bag with
  | Some (_, (key, v)) =>
      if v - 1 <=? 0 then dict_del bag key else dict_set bag key (v - 1)
  | None => bag
  end.

(** A hero of the barracks that [/heal] restores: in the party and
    below its maximum. *)
Definition needs_healing (team_ids : list string) (hero : Entity) : bool :=
  bool_decide (unique_id hero ∈ team_ids) && (current_hp hero <? hp (stats hero)).

(** [/heal] for a registered player. *)
Definition heal (p : Player) : Player * Reply :=
  match active_team p with
  | [] => (p, Rejected "You have no active heroes to heal!")
  | _ =>
      let potions := lowered_get B (bag p) "potion" in
      if potions <=? 0 then (p, Rejected "You have no Potions!")
      else
        let team_ids := active_team p in
        let healed := filter (fun h => needs_healing team_ids h = true) (pc p) in
        match healed with
        | [] => (p, Rejected "All your heroes are already at full HP!")
        | _ =>
            let pc' :=
              (fun h => if needs_healing team_ids h
                        then with_current_hp h (hp (stats h)) else h) <$> pc p in
            (with_pc (with_bag p (deduct_potion (bag p))) pc', Accepted)
        end
  end.

(** [/move]: swap two slots of the party.  [None]: a slot in range that
    the list does not have (it cannot happen). *)
Definition move (p : Player) (from_slot to_slot : Z) : option (Player * Reply) :=
  let team := active_team p in
  match team with
  | [] => Some (p, Rejected "You do not have an active team set.")
  | _ =>
      let max_slots := Z.of_nat (length team) in
      if (from_slot <? 1) || (max_slots <? from_slot)
         || (to_slot <? 1) || (max_slots <? to_slot)
      then Some (p, Rejected "Invalid slot numbers.")
      else
        hero_a_id ← team !! Z.to_nat (from_slot - 1);
        hero_b_id ← team !! Z.to_nat (to_slot - 1);
        if String.eqb hero_a_id "" || String.eqb hero_b_id ""
        then Some (p, Rejected "One of the selected slots is empty.")
        else
          let hero_a := snd <$> list_find (fun h => unique_id h = hero_a_id) (pc p) in
          let hero_b := snd <$> list_find (fun h => unique_id h = hero_b_id) (pc p) in
          if from_option locked false hero_a || from_option locked false hero_b
          then Some (p, Rejected "One or both of the selected heroes are locked.")
          else
            Some (with_active_team p
                    (<[Z.to_nat (to_slot - 1) := hero_a_id]>
                       (<[Z.to_nat (from_slot - 1) := hero_b_id]> team)),
                  Accepted)
  end.

(** [/partyadd] (and its copy [/teamadd]). *)
Definition partyadd (p : Player) (id : string) : Player * Reply :=
  match pc p with
  | [] => (p, Rejected "You do not have any heroes in your barracks.")
  | _ =>
      match list_find
              (fun h => String.prefix (py_lower B id) (py_lower B (unique_id h)) = true)
              (pc p) with
      | None => (p, Rejected "No hero found with that ID.")
      | Some (_, hero) =>
          if bool_decide (unique_id hero ∈ active_team p)
          then (p, Rejected "That hero is already in your party.")
          else if 6 <=? Z.of_nat (length (active_team p))
          then (p, Rejected "Your party is full (max 6 heroes).")
          else (with_active_team p (active_team p ++ [unique_id hero]), Accepted)
      end
  end.

(** [/lock].  The hero is an element of [p["pc"]] and is updated in
    place.  Outer [None]: [int] raised. *)
Definition lock (p : Player) (identifier : string) : option (Player * Reply) :=
  match pc p with
  | [] => Some (p, Rejected "You have no heroes.")
  | _ =>
      found ← elixir_hero B p identifier;
      match found with
      | None => Some (p, Rejected "No hero found.")
      | Some (i, hero) =>
          Some (with_pc p (<[i := with_locked hero true]> (pc p)), Accepted)
      end
  end.

(** [/unlock]. *)
Definition unlock (p : Player) (identifier : string) : option (Player * Reply) :=
  match pc p with
  | [] => Some (p, Rejected "You have no heroes.")
  | _ =>
      found ← elixir_hero B p identifier;
      match found with
      | None => Some (p, Rejected "No hero found.")
      | Some (i, hero) =>
          Some (with_pc p (<[i := with_locked hero false]> (pc p)), Accepted)
      end
  end.

End Commands.
End PartyCommands.
Export PartyCommands.

(** ** Shop, sales and the auction house *)

Module Market.

(** An entry of [CONSUMABLES] or [KEYS]: its name and its price. *)
Record ShopItem : Type := mkShopItem {
  item_name : string;
  item_price : Z
}.

(** An entry of [MATERIALS]; [None] is a material without a price. *)
Record Material : Type := mkMaterial {
  mat_name : string;
  mat_price : option Z
}.

Definition with_au_amount (a : Auction) (n : Z) : Auction :=
  mkAuction (au_seller a) (au_item a) n (au_price a) (au_end_time a).

Section Commands.
Context (B : Builtins).

(** The two shop tables, keyed by the lower-cased name. *)
Context (CONSUMABLES KEYS : gmap string ShopItem).

(** Every material of [MATERIALS], in the order [all_items] lists
    them. *)
Context (all_items : list Material).

(** [/purchase] for a registered player. *)
Definition purchase (p : Player) (name : string) (amount : Z) : Player * Reply :=
  let name_l := py_lower B name in
  let item :=
    match CONSUMABLES !! name_l with
    | Some i => Some i
    | None => KEYS !! name_l
    end in
  match item with
  | None => (p, Rejected "That item is not available for purchase.")
  | Some item =>
      let cost := item_price item * amount in
      if coins p <? cost then (p, Rejected "You need more coins.")
      else
        (with_bag (with_coins p (coins p - cost))
           (dict_add (bag p) (item_name item) amount),
         Accepted)
  end.

(** The price [/sellall] finds for a bag key: the first material whose
    name equals it, ignoring case; [None] when there is none or it has no
    price. *)
Definition sale_price (key : string) : option Z :=
  m ← snd <$> list_find (fun d => py_lower B (mat_name d) = py_lower B key) all_items;
  mat_price m.

(** [/sellall] for a registered player. *)
Definition sellall (p : Player) : Player * Reply :=
  match bag p with
  | [] => (p, Rejected "Your bag is empty!")
  | _ =>
      let total_earned :=
        foldl (fun total kv =>
                 match sale_price kv.1 with
                 | Some price => total + kv.2 * price
                 | None => total
                 end) 0 (bag p) in
      let bag' := filter (fun kv => sale_price kv.1 = None) (bag p) in
      let p := with_bag p bag' in
      (if 0 <? total_earned then with_coins p (coins p + total_earned) else p,
       Accepted)
  end.

(** [/ahbuy]. *)
Definition ahbuy (w : World) (user_id id : string) (amount : Z) : World * Reply :=
  match players w !! user_id with
  | None => (w, Rejected "Create a profile first.")
  | Some buyer =>
      match auctions w !! id with
      | None => (w, Rejected "Auction not found.")
      | Some auction =>
          if au_amount auction <? amount
          then (w, Rejected "Not that many items available in this auction.")
          else
            let total_cost := au_price auction * amount in
            if coins buyer <? total_cost
            then (w, Rejected "You do not have enough coins.")
            else
              let players1 :=
                <[user_id := with_coins buyer (coins buyer - total_cost)]> (players w) in
              let seller_id := au_seller auction in
              let players2 :=
                match players1 !! seller_id with
                | Some s => <[seller_id := with_coins s (coins s + total_cost)]> players1
                | None => players1
                end in
              let players3 :=
                match players2 !! user_id with
                | Some b =>
                    <[user_id := with_bag b (dict_add (bag b) (au_item auction) amount)]>
                      players2
                | None => players2
                end in
              let left := au_amount auction - amount in
              let auctions' :=
                if left <=? 0 then delete id (auctions w)
                else <[id := with_au_amount auction left]> (auctions w) in
              (mkWorld players3 auctions' (coinflips w), Accepted)
      end
  end.

(** [/ahcancel]. *)
Definition ahcancel (w : World) (user_id id : string) : World * Reply :=
  match auctions w !! id with
  | None => (w, Rejected "No auction found with that ID.")
  | Some auc =>
      if negb (String.eqb (au_seller auc) user_id)
      then (w, Rejected "You can only cancel your own auctions.")
      else
        match players w !! user_id with
        | None => (w, Rejected "Create a profile first.")
        | Some p =>
            (mkWorld
               (<[user_id := with_bag p (dict_add (bag p) (au_item auc) (au_amount auc))]>
                  (players w))
               (delete id (auctions w)) (coinflips w),
             Accepted)
        end
  end.

End Commands.
End Market.
Export Market.

(** ** Chests, recruitment and summoning *)

Module Recruitment.

(** The draws of [KeyEncounterView.unlock_button]. *)
Record ChestDraws : Type := mkChestDraws {
  reward_coins : Z;
  contracts : Z;
  potions : Z
}.

(** [unlock_button]: the key, the coins and the bag.  The hero that may
    come out of a silver or gold chest is [chest_hero]. *)
Definition unlock_button (p : Player) (key_type difficulty : string) (cd : ChestDraws)
    : Player * Reply :=
  let key_name := key_type in
  if default 0 (dict_get (bag p) key_name) <=? 0
  then (p, Rejected "You do not have a key to unlock this!")
  else
    let bag1 := take_one (bag p) key_name in
    if bool_decide (difficulty ∈ ["silver"; "gold"]) then
      let p1 := with_coins p (coins p + reward_coins cd) in
      let bag2 :=
        if String.eqb difficulty "silver"
        then dict_set bag1 "Great Contract" (default 0 (dict_get bag1 "Great Contract"))
        else dict_set bag1 "Ancient Contract"
               (default 0 (dict_get bag1 "Ancient Contract") + contracts cd) in
      let bag3 := dict_set bag2 "Potion" (default 0 (dict_get bag2 "Potion") + potions cd) in
      (with_bag p1 bag3, Accepted)
    else (with_bag p bag1, Accepted).



Section Recruit.
Context (B : Builtins).



(** The legendary hero a filled relic summons: the first entry of
    [LEGENDARY_DROPS] with a relic of that name. *)
Definition relic_hero (item : string) : option string :=
  fst <$> head (filter (fun kv =>
                          existsb (fun drop =>
                                     String.eqb (py_lower B ("filled " ++ drop)) item)
                            kv.2 = true)
                  LEGENDARY_DROPS).

(** [/summon] for a registered player: the player after the command and
    the instance handed to the recruit view.  [None]: building the
    instance raised. *)
Definition summon (heroes_db : list Template) (p : Player) (item : string) (d : Draws)
    : option (Player * Reply * option Entity) :=
  let item := py_lower B (py_strip B item) in
  if default 0 (dict_get (bag p) item) <=? 0
  then Some (p, Rejected "You do not have that.", None)
  else
    match relic_hero item with
    | None => Some (p, Rejected "That relic does not summon anyone.", None)
    | Some hero_name =>
        let p := with_bag p (take_one (bag p) item) in
        match list_find (fun h => py_lower B (t_name h) = py_lower B hero_name)
                heroes_db with
        | None => Some (p, Rejected "Hero data not found.", None)
        | Some (_, hero_data) =>
            inst ← summon_instance B hero_data d;
            Some (p, Accepted, Some inst)
        end
    end.

End Recruit.
End Recruitment.
Export Recruitment.

(** * Example data *)

(** Concrete fighters for the examples. *)
Definition no_stats : Stats := mkStats 0 0 0 0 0.

Definition fighter (who : string) (s : Stats) (cur : Z) (moves : list MoveEntry) : Entity :=
  mkEntity 1 who who "Fire" "common" 10 false false
    (full_dict no_stats) (full_dict no_stats) s cur 0 (Some moves) None.

Definition slash : MoveData :=
  mkMove None (Some (PStr "Slash")) (Some (PStr "Physical"))
    (Some (PInt 50)) (Some (PInt 100)) None false.

Definition knight : Entity := fighter "Knight" (mkStats 100 70 10 10 10) 100 [MDict slash].
Definition golem : Entity := fighter "Golem" (mkStats 100 10 40 10 5) 100 [MDict slash].

(** A move stored with the integer accuracy 0. *)
Definition growl : MoveData :=
  mkMove None (Some (PStr "Growl")) (Some (PStr "Physical"))
    (Some (PInt 40)) (Some (PInt 0)) None false.

Definition imp : Entity := fighter "Imp" (mkStats 100 30 10 10 10) 100 [MDict growl].

(** A hero one level below the cap, and the catalog entry it was built
    from. *)
Definition veteran : Entity :=
  mkEntity 7 "h0veteran" "Veteran" "Fire" "rare" 99 false false
    (full_dict (mkStats 31 31 31 31 31)) (full_dict no_stats)
    (derive_stats (mkStats 80 70 65 30 45) (mkStats 31 31 31 31 31) no_stats 99)
    100 0 (Some [MDict slash]) None.

Definition catalog_stats (e : Entity) : option Stats :=
  if ent_id e =? 7 then Some (mkStats 80 70 65 30 45) else None.

(** A level 10 hero at full health built from the catalog entry 7
    (base stats 80/70/65/30/45, all IVs and EVs 0), in the party of a
    player who owns two elixirs. *)
Definition squire : Entity :=
  mkEntity 7 "h0squire" "Squire" "Fire" "rare" 10 false false
    (full_dict no_stats) (full_dict no_stats)
    (derive_stats (mkStats 80 70 65 30 45) no_stats no_stats 10)
    (hp (derive_stats (mkStats 80 70 65 30 45) no_stats no_stats 10))
    0 (Some [MDict slash]) None.

Definition alchemist : Player :=
  mkPlayer "alchemist" 500 0 1 [] [("Elixir", 2)] [squire] ["h0squire"]
    None None None.

(** A collector with one hero in the party and a locked hero kept in
    the barracks. *)
Definition treasured : Entity :=
  mkEntity 7 "h1treasured" "Treasured" "Fire" "legendary" 50 true true
    (full_dict no_stats) (full_dict no_stats)
    (derive_stats (mkStats 80 70 65 30 45) no_stats no_stats 50)
    10 0 (Some [MDict slash]) None.

Definition collector : Player :=
  mkPlayer "collector" 500 0 1 [] [] [squire; treasured] ["h0squire"]
    None None None.

(** A player who holds a relic, a beaten foe and the draws of one
    settlement. *)
Definition pilgrim : Player :=
  mkPlayer "pilgrim" 500 0 1 [] [("Relic of Radiant Souls", 1)] [squire] ["h0squire"]
    None None None.

Definition beaten_slime : Entity :=
  fighter "Slime" (mkStats 50 20 15 10 20) 0 [MStr "Splash"].

Definition one_kill : KillDraws :=
  mkKillDraws 0 60 300 no_stats 25 [] ["Ember Shard"].

(** A one-hero catalog and the draws of an exploration in which every
    shiny roll comes out lowest (0.0). *)
Definition aiden : Template :=
  mkTemplate 1 "Aiden" (Some "Earth") (Some "common") None None
    (mkStats 80 70 65 30 45)
    (Some [mkSkill (Some (PStr "Slash")) (Some (PStr "Physical")) (Some (PStr "50"))
             (Some (PStr "100")) (Some (PInt 1))]).

Definition lucky_draws : Draws :=
  mkDraws 0.5 1 "common" 0 0 7 (mkStats 31 31 31 31 31) 0 1 60 "0a1b2c3d4".

(** Two registered players and an empty market. *)
Definition alice : Player :=
  mkPlayer "alice" 1000 0 1 [] [("Potion", 3)] [] [] None None None.

Definition bob : Player :=
  mkPlayer "bob" 1000 0 1 [] [] [] [] None None None.

Definition town : World :=
  mkWorld (<["alice" := alice]> (<["bob" := bob]> ∅)) ∅ ∅.


Definition hollow : Template :=
  mkTemplate 9 "Hollow" None (Some "common") (Some 5) None
    (mkStats 50 20 15 10 20) (Some []).

(** A party of two with a hero waiting in the barracks, and the owner of
    a potion whose only party member is hurt. *)
Definition page : Entity :=
  mkEntity 7 "h2page" "Page" "Fire" "common" 5 false false
    (full_dict no_stats) (full_dict no_stats) (mkStats 30 10 10 10 10)
    12 0 (Some [MDict slash]) None.

Definition captain : Player :=
  mkPlayer "captain" 500 0 1 [] [("Potion", 2)] [squire; treasured; page]
    ["h0squire"; "h2page"] None None None.

Definition medic : Player :=
  mkPlayer "medic" 500 0 1 [] [("Potion", 2)] [page; treasured] ["h2page"]
    None None None.

(** A shop, a list of materials, a bag to sell and a market with one
    open auction. *)
Definition general_store : gmap string ShopItem :=
  <["potion" := mkShopItem "Potion" 100]> ∅.

Definition key_store : gmap string ShopItem :=
  <["silver key" := mkShopItem "Silver Key" 2500]> ∅.

Definition ores : list Material :=
  [mkMaterial "Ember Shard" (Some 40); mkMaterial "Old Coin" None].

Definition miner : Player :=
  mkPlayer "miner" 100 0 1 [] [("Ember Shard", 3); ("Potion", 1); ("Old Coin", 2)]
    [squire] ["h0squire"] None None None.

Definition bazaar : World :=
  mkWorld (<["alice" := alice]> (<["bob" := bob]> ∅))
    (<["A1" := mkAuction "alice" "Potion" 5 30 1000]> ∅) ∅.

(** The holder of a silver key, a recruiter facing the golem with one
    contract, and the holder of a filled relic. *)
Definition keyholder : Player :=
  mkPlayer "keyholder" 100 0 1 [] [("Silver Key", 1); ("Great Contract", 2)]
    [squire] ["h0squire"] None None None.

Definition silver_draws : ChestDraws := mkChestDraws 9000 6 8.


Definition summoner : Player :=
  mkPlayer "summoner" 100 0 1 [] [("filled relic of radiant souls", 1)]
    [squire] ["h0squire"] None None None.



Definition guild : list Template :=
  [aiden;
   mkTemplate 2 "Mira" (Some "Water") (Some "rare") None None
     (mkStats 60 40 40 90 70) (Some [])].

(** * Properties *)

(** ** Move resolution *)

Section CombatProperties.
Context (B : Builtins).

Lemma damage_ge_1 (attacker defender : Entity) (power : Z) (type : PyVal) :
  1 <= damage attacker defender power type.
Proof. unfold damage. case_bool_decide; lia. Qed.

Lemma damage_formula (attacker defender : Entity) (power : Z) (type : PyVal) :
  damage attacker defender power type =
  if bool_decide (type = PStr "Magical")
  then Z.max 1 (power + magic (stats attacker) / 2 - defense (stats defender) / 3)
  else Z.max 1 (power + attack (stats attacker) / 2 - defense (stats defender) / 3).
Proof. reflexivity. Qed.

(** A move that is found, connects and has a numeric power is a hit. *)
Lemma resolve_move_hit (attacker defender : Entity) (chosen_move : PyVal)
    (roll : Z) (mvdata : MoveData) (power : Z) :
  find_move B (default [] (moveset attacker)) (py_str chosen_move) = Some (Some mvdata) ->
  empty_dict mvdata = false ->
  roll <= acc_val B mvdata ->
  power_of B mvdata = Some power ->
  resolve_move B attacker defender chosen_move roll =
  Some (Hit (py_str chosen_move) (damage attacker defender power (type_of mvdata))
          (type_of mvdata),
        with_current_hp defender
          (Z.max 0 (current_hp defender
                    - damage attacker defender power (type_of mvdata)))).
Proof.
  intros Hfind Hne Hacc Hpow. unfold resolve_move.
  rewrite Hfind, Hne.
  destruct (acc_val B mvdata <? roll) eqn:Hlt.
  - apply Z.ltb_lt in Hlt. lia.
  - now rewrite Hpow.
Qed.

(** C1. For every move that is found in the attacker's moveset, connects
    (the roll does not exceed its accuracy value) and has a numeric
    power, [resolve_move] deals
    [max(1, power + magic // 2 - defense // 3)] for a move of type
    "Magical" and [max(1, power + attack // 2 - defense // 3)] for any
    other move, and the defender's current hp becomes
    [max(0, current_hp - damage)]; the damage is at least 1; with
    attack 70, power 50, a non-magical move and defense 40 it is 72. *)
Theorem resolve_move_damage (attacker defender : Entity) (chosen_move : PyVal)
    (roll : Z) (mvdata : MoveData) (power : Z) :
  find_move B (default [] (moveset attacker)) (py_str chosen_move) = Some (Some mvdata) ->
  empty_dict mvdata = false ->
  roll <= acc_val B mvdata ->
  power_of B mvdata = Some power ->
  exists dmg : Z,
    dmg = (if bool_decide (type_of mvdata = PStr "Magical")
           then Z.max 1 (power + magic (stats attacker) / 2 - defense (stats defender) / 3)
           else Z.max 1 (power + attack (stats attacker) / 2 - defense (stats defender) / 3))
    /\ resolve_move B attacker defender chosen_move roll =
       Some (Hit (py_str chosen_move) dmg (type_of mvdata),
             with_current_hp defender (Z.max 0 (current_hp defender - dmg)))
    /\ 1 <= dmg
    /\ (type_of mvdata <> PStr "Magical" -> power = 50 ->
        attack (stats attacker) = 70 -> defense (stats defender) = 40 -> dmg = 72).
Proof.
  intros Hfind Hne Hacc Hpow.
  exists (damage attacker defender power (type_of mvdata)).
  split; [apply damage_formula |].
  split; [now apply resolve_move_hit |].
  split; [apply damage_ge_1 |].
  intros Hty -> Ha Hd. unfold damage.
  rewrite bool_decide_eq_false_2 by assumption.
  rewrite Ha, Hd. reflexivity.
Qed.

End CombatProperties.

Lemma resolve_move_damage_witness :
  exists dmg : Z,
    dmg = 72
    /\ resolve_move ascii_builtins knight golem (PStr "slash") 37 =
       Some (Hit "slash" dmg (PStr "Physical"), with_current_hp golem 28).
Proof.
  destruct (resolve_move_damage ascii_builtins knight golem (PStr "slash") 37 slash 50)
    as (dmg & Hd & Hr & _ & _).
  - reflexivity.
  - reflexivity.
  - vm_compute. discriminate.
  - reflexivity.
  - assert (dmg = 72) as -> by (rewrite Hd; reflexivity).
    exists 72. split; [reflexivity | exact Hr].
Defined.

Section AccuracyProperties.
Context (B : Builtins).

(** X6. A move whose accuracy value is 100 connects on every roll of
    [1..100]. *)
Lemma accuracy_100_never_misses (attacker defender : Entity) (chosen_move : PyVal)
    (roll : Z) (mvdata : MoveData) :
  find_move B (default [] (moveset attacker)) (py_str chosen_move) = Some (Some mvdata) ->
  acc_val B mvdata = 100 ->
  roll <= 100 ->
  forall d', resolve_move B attacker defender chosen_move roll
             <> Some (Missed (py_str chosen_move), d').
Proof.
  intros Hfind Hacc Hroll d'. unfold resolve_move. rewrite Hfind, Hacc.
  destruct (empty_dict mvdata); [discriminate |].
  destruct (100 <? roll) eqn:Hlt; [apply Z.ltb_lt in Hlt; lia |].
  destruct (power_of B mvdata); discriminate.
Qed.

(** A move whose parsed accuracy value is 0 misses on every roll of
    [1..100]. *)
Lemma accuracy_value_0_always_misses (attacker defender : Entity) (chosen_move : PyVal)
    (roll : Z) (mvdata : MoveData) :
  find_move B (default [] (moveset attacker)) (py_str chosen_move) = Some (Some mvdata) ->
  empty_dict mvdata = false ->
  acc_val B mvdata = 0 ->
  1 <= roll ->
  resolve_move B attacker defender chosen_move roll
  = Some (Missed (py_str chosen_move), defender).
Proof.
  intros Hfind Hne Hacc Hroll. unfold resolve_move. rewrite Hfind, Hne, Hacc.
  destruct (0 <? roll) eqn:Hlt; [reflexivity | apply Z.ltb_ge in Hlt; lia].
Qed.

(** The accuracy stored as the text "0" is parsed to 0 (by any [int]
    that reads "0" as 0 and any [strip] that leaves "0" alone). *)
Lemma acc_val_text_zero (mvdata : MoveData) :
  m_acc mvdata = Some (PStr "0") ->
  py_strip B "0" = "0" -> py_int B "0" = Some 0 ->
  acc_val B mvdata = 0.
Proof.
  intros Hacc Hstrip Hint. unfold acc_val, acc_raw. rewrite Hacc. simpl.
  rewrite Hstrip. simpl. now rewrite Hint.
Qed.

(** The accuracy stored as the integer 0 is falsy in
    [mvdata.get("acc") or mvdata.get("acc.") or 100]: without an "acc."
    key the accuracy value is 100. *)
Lemma acc_val_int_zero (mvdata : MoveData) :
  m_acc mvdata = Some (PInt 0) -> m_acc_dot mvdata = None ->
  acc_val B mvdata = 100.
Proof.
  intros Hacc Hdot. unfold acc_val, acc_raw. now rewrite Hacc, Hdot.
Qed.

(** C4 (the code at the failing input). A move stored with the integer
    accuracy 0, as [build_instance_from_template] stores it, never
    misses: on every roll of [1..100] it is resolved as a hit. *)
Theorem accuracy_int_zero_never_misses (attacker defender : Entity)
    (chosen_move : PyVal) (roll : Z) (mvdata : MoveData) (power : Z) :
  find_move B (default [] (moveset attacker)) (py_str chosen_move) = Some (Some mvdata) ->
  m_acc mvdata = Some (PInt 0) -> m_acc_dot mvdata = None ->
  power_of B mvdata = Some power ->
  1 <= roll <= 100 ->
  resolve_move B attacker defender chosen_move roll =
  Some (Hit (py_str chosen_move) (damage attacker defender power (type_of mvdata))
          (type_of mvdata),
        with_current_hp defender
          (Z.max 0 (current_hp defender
                    - damage attacker defender power (type_of mvdata)))).
Proof.
  intros Hfind Hacc Hdot Hpow Hroll.
  apply (resolve_move_hit B attacker defender chosen_move roll mvdata power);
    try assumption.
  - unfold empty_dict. rewrite Hacc. simpl.
    rewrite !andb_false_r. reflexivity.
  - rewrite (acc_val_int_zero mvdata Hacc Hdot). lia.
Qed.

End AccuracyProperties.

Lemma accuracy_int_zero_never_misses_witness :
  resolve_move ascii_builtins imp golem (PStr "Growl") 100 =
  Some (Hit "Growl" 42 (PStr "Physical"), with_current_hp golem 58).
Proof.
  apply (accuracy_int_zero_never_misses ascii_builtins imp golem (PStr "Growl")
           100 growl 40); try reflexivity.
  lia.
Defined.

(** ** Turn order *)

Section TurnProperties.
Context (B : Builtins).






End TurnProperties.


(** ** Entity experience *)

Section ProgressionProperties.

(** On the levels of the game the double computation of the threshold is
    the integer part of [0.015 L^3 + 10 L^2]. *)
Lemma entity_xp_required_exact (L : Z) :
  0 <= L <= 101 ->
  entity_xp_required L = (15 * L ^ 3 + 10000 * L ^ 2) / 1000.
Proof.
  intros HL.
  assert (Hall : forallb (fun l => entity_xp_required l
                                   =? (15 * l ^ 3 + 10000 * l ^ 2) / 1000)
                   (seqZ 0 102) = true) by (vm_compute; reflexivity).
  rewrite forallb_forall in Hall.
  apply Z.eqb_eq, Hall, list_elem_of_In, elem_of_seqZ. lia.
Qed.

(** The threshold grows strictly with the level. *)
Lemma entity_xp_required_increasing (L : Z) :
  0 <= L <= 100 -> entity_xp_required L < entity_xp_required (L + 1).
Proof.
  intros HL.
  assert (Hall : forallb (fun l => entity_xp_required l <? entity_xp_required (l + 1))
                   (seqZ 0 101) = true) by (vm_compute; reflexivity).
  rewrite forallb_forall in Hall.
  apply Z.ltb_lt, Hall, list_elem_of_In, elem_of_seqZ. lia.
Qed.

Lemma recalc_keeps (e e' : Entity) (base : Stats) :
  recalc_stats_from_base e base = Some e' ->
  level e' = level e /\ xp e' = xp e /\ name e' = name e
  /\ ivs e' = ivs e /\ evs e' = evs e /\ ent_id e' = ent_id e
  /\ base_stats_memo e' = base_stats_memo e.
Proof.
  unfold recalc_stats_from_base.
  destruct (read_dict (ivs e)), (read_dict (evs e)); intros H; inversion H; subst;
    repeat split.
Qed.

(** The fuel [100 - level] is enough: the loop never stops for want of
    fuel. *)
Lemma level_up_loop_fuel (provider : Entity -> option Stats) (fuel : nat) :
  forall (e : Entity) (log : list XpEvent),
    100 - level e <= Z.of_nat fuel ->
    level_up_loop fuel provider e log <> OutOfFuel.
Proof.
  induction fuel as [| fuel IH]; intros e log Hfuel; simpl.
  - destruct (entity_xp_required (level e + 1) <=? xp e); simpl; [| discriminate].
    destruct (level e <? 100) eqn:Hl; [apply Z.ltb_lt in Hl; lia | discriminate].
  - destruct ((entity_xp_required (level e + 1) <=? xp e) && (level e <? 100));
      [| discriminate].
    destruct (provider _) as [base |]; [| discriminate].
    destruct (recalc_stats_from_base _ base) as [e3 |] eqn:Hr; [| discriminate].
    apply IH. apply recalc_keeps in Hr as (Hl & _). rewrite Hl. simpl. lia.
Qed.

(** What the loop guarantees when it returns: the level only grows and
    stays within 100, and the loop condition is false. *)
Lemma level_up_loop_ok (provider : Entity -> option Stats) (fuel : nat) :
  forall (e : Entity) (log : list XpEvent) e' log',
    level_up_loop fuel provider e log = Ok (e', log') ->
    level e <= level e'
    /\ level e' <= Z.max (level e) 100
    /\ (xp e' < entity_xp_required (level e' + 1) \/ 100 <= level e').
Proof.
  induction fuel as [| fuel IH]; intros e log e' log' H; simpl in H.
  - destruct ((entity_xp_required (level e + 1) <=? xp e) && (level e <? 100)) eqn:Hc;
      [discriminate |].
    inversion H; subst. apply andb_false_iff in Hc.
    repeat split; lia.
  - destruct ((entity_xp_required (level e + 1) <=? xp e) && (level e <? 100)) eqn:Hc.
    + apply andb_true_iff in Hc as [_ Hl]. apply Z.ltb_lt in Hl.
      destruct (provider _) as [base |]; [| discriminate].
      destruct (recalc_stats_from_base _ base) as [e3 |] eqn:Hr; [| discriminate].
      apply IH in H as (H1 & H2 & H3).
      apply recalc_keeps in Hr as (Hl3 & _). rewrite Hl3 in H1, H2. simpl in H1, H2.
      repeat split; lia.
    + inversion H; subst. apply andb_false_iff in Hc.
      repeat split; lia.
Qed.

(** [award_entity_xp] always comes back: with a result, or with the
    exception of a missing template. *)
Lemma award_entity_xp_fuel (iv_draws : Stats) (e : Entity) (xp_gain : Z)
    (log : list XpEvent) (provider : Entity -> option Stats) :
  award_entity_xp iv_draws e xp_gain log provider <> OutOfFuel.
Proof.
  unfold award_entity_xp.
  destruct (100 <=? level (ensure_full_ivs_evs iv_draws e)); [discriminate |].
  apply level_up_loop_fuel. simpl. lia.
Qed.

(** The level after an award is never above 100. *)
Lemma award_entity_xp_level_cap (iv_draws : Stats) (e : Entity) (xp_gain : Z)
    (log : list XpEvent) (provider : Entity -> option Stats) e' log' :
  award_entity_xp iv_draws e xp_gain log provider = Ok (e', log') ->
  level e' <= 100.
Proof.
  unfold award_entity_xp.
  destruct (100 <=? level (ensure_full_ivs_evs iv_draws e)) eqn:Hl.
  - intros H. inversion H; subst. simpl. lia.
  - apply Z.leb_gt in Hl. intros H.
    apply level_up_loop_ok in H as (_ & H & _). simpl in *. lia.
Qed.

(** An entity already at level 100 (or above): the level is 100, the xp
    is 0, one "maxed" line is logged, and the only other change is the
    filling of missing IVs and EVs. *)
Lemma award_entity_xp_maxed (iv_draws : Stats) (e : Entity) (xp_gain : Z)
    (log : list XpEvent) (provider : Entity -> option Stats) :
  100 <= level e ->
  award_entity_xp iv_draws e xp_gain log provider =
  Ok (with_xp (with_level (ensure_full_ivs_evs iv_draws e) 100) 0,
      log ++ [Maxed (name e)]).
Proof.
  intros Hl. unfold award_entity_xp.
  replace (100 <=? level (ensure_full_ivs_evs iv_draws e)) with true
    by (symmetry; apply Z.leb_le; exact Hl).
  reflexivity.
Qed.

(** Below level 100 the gain is added and the loop takes over. *)
Lemma award_entity_xp_below (iv_draws : Stats) (e : Entity) (xp_gain : Z)
    (log : list XpEvent) (provider : Entity -> option Stats) :
  level e < 100 ->
  award_entity_xp iv_draws e xp_gain log provider =
  level_up_loop (Z.to_nat (100 - level e)) provider
    (with_xp (ensure_full_ivs_evs iv_draws e) (xp e + xp_gain)) log.
Proof.
  intros Hl. unfold award_entity_xp.
  replace (100 <=? level (ensure_full_ivs_evs iv_draws e)) with false
    by (symmetry; apply Z.leb_gt; exact Hl).
  reflexivity.
Qed.

(** One turn of the loop: the threshold of the next level is taken off,
    the level grows by one, the stats are recomputed and a level-up line
    is logged. *)
Lemma level_up_loop_step (provider : Entity -> option Stats) (fuel : nat)
    (e e3 : Entity) (log : list XpEvent) (base : Stats) :
  entity_xp_required (level e + 1) <= xp e -> level e < 100 ->
  provider (with_level (with_xp e (xp e - entity_xp_required (level e + 1)))
              (level e + 1)) = Some base ->
  recalc_stats_from_base
    (with_level (with_xp e (xp e - entity_xp_required (level e + 1))) (level e + 1))
    base = Some e3 ->
  level_up_loop (S fuel) provider e log =
  level_up_loop fuel provider e3 (log ++ [LevelUp (name e3) (level e3)]).
Proof.
  intros Hx Hl Hp Hr. simpl.
  replace (entity_xp_required (level e + 1) <=? xp e) with true
    by (symmetry; apply Z.leb_le; exact Hx).
  replace (level e <? 100) with true by (symmetry; apply Z.ltb_lt; exact Hl).
  simpl in *. rewrite Hp, Hr. reflexivity.
Qed.


End ProgressionProperties.


(** ** Stat recomputation on a level change *)

Section RecalcProperties.

(** The rescaled current hp is at least 1. *)
Lemma recalc_hp_positive (e e' : Entity) (base : Stats) :
  recalc_stats_from_base e base = Some e' -> 1 <= current_hp e'.
Proof.
  unfold recalc_stats_from_base.
  destruct (read_dict (ivs e)) as [i |], (read_dict (evs e)) as [v |];
    intros H; inversion H; subst; clear H.
  unfold with_current_hp, with_stats; cbn [current_hp]. lia.
Qed.

(** The spec's value stays between 1 and a positive new maximum. *)
Lemma spec_rescaled_hp_bounds (new_max old_cur old_max : Z) :
  old_max <> 0 -> 1 <= new_max ->
  1 <= spec_rescaled_hp new_max old_cur old_max <= new_max.
Proof.
  intros Hm Hn. unfold spec_rescaled_hp.
  set (den := Z.abs old_max).
  set (c := Z.max 0 (Z.min den (Z.sgn old_max * old_cur))).
  assert (Hden : 0 < den) by (subst den; lia).
  assert (Hc : 0 <= c <= den) by (subst c; lia).
  split; [lia |].
  apply Z.max_lub; [lia |].
  apply Z.div_le_upper_bound; [lia |]. nia.
Qed.

(** At full health and at 0 hp the double computation gives the spec's
    value; in between the double product can fall just below an integer
    the exact product reaches: 7/10 of 90 is 62 in the code, 63 in the
    spec's formula. *)
Lemma rescaled_hp_rounding :
  Z.max 1 (int_of_float (PrimFloat.mul (float_of_Z 90)
                           (float_max 0 (float_min 1 (true_div 7 10))))) = 62
  /\ spec_rescaled_hp 90 7 10 = 63
  /\ Z.max 1 (int_of_float (PrimFloat.mul (float_of_Z 90)
                              (float_max 0 (float_min 1 (true_div 10 10))))) = 90
  /\ spec_rescaled_hp 90 10 10 = 90.
Proof. repeat split; vm_compute; reflexivity. Qed.

(** Recomputation takes the derived stats from the base it is given and
    the entity's own IVs and EVs at its current level. *)
Lemma recalc_stats_value (e e' : Entity) (base : Stats) :
  recalc_stats_from_base e base = Some e' ->
  exists i v, read_dict (ivs e) = Some i /\ read_dict (evs e) = Some v
              /\ stats e' = derive_stats base i v (level e).
Proof.
  unfold recalc_stats_from_base.
  destruct (read_dict (ivs e)) as [i |], (read_dict (evs e)) as [v |];
    intros H; inversion H; subst. now exists i, v.
Qed.

End RecalcProperties.

Section ElixirProperties.
Context (B : Builtins).

(** C6 (the code at the failing input). [/elixir] on a hero that has
    no ["_base_stats"] yet takes the hero's current derived stats as the
    base: after the level gain the derived stats are
    [derive_stats (stats hero) ivs evs new_level], computed from the
    derived stats of the old level and not from the template's base
    stats, and that copy is kept as the base for later elixirs. *)
Theorem elixir_recomputes_from_derived_stats (p p' : Player) (identifier : string)
    (amount : Z) (i : nat) (hero : Entity) :
  elixir_hero B p identifier = Some (Some (i, hero)) ->
  base_stats_memo hero = None ->
  elixir B p identifier amount = Some (p', Accepted) ->
  exists hero' iv ev,
    pc p' = <[i := hero']> (pc p)
    /\ level hero < level hero' <= 100
    /\ read_dict (ivs hero) = Some iv /\ read_dict (evs hero) = Some ev
    /\ stats hero' = derive_stats (stats hero) iv ev (level hero')
    /\ base_stats_memo hero' = Some (stats hero).
Proof.
  intros Hfind Hmemo H. unfold elixir in H. rewrite Hfind in H.
  destruct (lowered_get B (bag p) "elixir" <=? 0); [inversion H |].
  simpl in H.
  destruct (100 <=? level hero) eqn:Hcap; [inversion H |].
  apply Z.leb_gt in Hcap.
  set (n := Z.min (Z.min (if amount =? 0 then 1 else amount)
                     (lowered_get B (bag p) "elixir")) (100 - level hero)) in *.
  destruct (n <=? 0) eqn:Hn; [inversion H |].
  apply Z.leb_gt in Hn.
  rewrite Hmemo in H. simpl in H.
  destruct (recalc_stats_from_base _ (stats hero)) as [hero' |] eqn:Hr;
    simpl in H; [| discriminate].
  inversion H; subst; clear H.
  pose proof (recalc_keeps _ _ _ Hr) as (Hl & _ & _ & _ & _ & _ & Hm).
  apply recalc_stats_value in Hr as (iv & ev & Hi & He & Hs).
  simpl in Hl, Hi, He, Hs, Hm.
  exists hero', iv, ev. simpl.
  repeat split; try assumption.
  - lia.
  - subst n. lia.
  - rewrite Hs, Hl. reflexivity.
Qed.

End ElixirProperties.

Lemma elixir_recomputes_from_derived_stats_witness :
  hp (stats squire) = 36
  /\ hp (derive_stats (mkStats 80 70 65 30 45) no_stats no_stats 11) = 38
  /\ exists p' hero',
       elixir ascii_builtins alchemist "1" 1 = Some (p', Accepted)
       /\ pc p' = [hero'] /\ level hero' = 11 /\ hp (stats hero') = 28.
Proof.
  split; [reflexivity |]. split; [reflexivity |].
  destruct (elixir ascii_builtins alchemist "1" 1) as [[p' r] |] eqn:He;
    [| vm_compute in He; discriminate].
  assert (Hr : r = Accepted) by (vm_compute in He; congruence).
  subst r.
  destruct (elixir_recomputes_from_derived_stats ascii_builtins alchemist p' "1" 1
              0%nat squire eq_refl eq_refl He)
    as (hero' & iv & ev & Hpc & Hlv & Hi & Hv & Hs & _).
  exists p', hero'. split; [reflexivity |].
  vm_compute in He. inversion He; subst p'. clear He.
  simpl in Hpc. inversion Hpc; subst hero'.
  repeat split.
Defined.

(** ** Locked heroes *)

Section RosterProperties.
Context (B : Builtins).

Lemma list_remove_first_other (x y : string) (l : list string) :
  y <> x -> y ∈ l -> y ∈ list_remove_first x l.
Proof.
  intros Hne. induction l as [| z l IH]; intros Hin; simpl.
  - exact Hin.
  - destruct (String.eqb z x) eqn:Hz.
    + apply String.eqb_eq in Hz. subst z.
      apply elem_of_cons in Hin as [-> | Hin]; [congruence | exact Hin].
    + apply elem_of_cons in Hin as [-> | Hin]; [left | right; auto].
Qed.

Lemma party_hero_in_pc (p : Player) (identifier : string) (hero : Entity) :
  party_hero B p identifier = Some (Some hero) -> hero ∈ pc p.
Proof.
  unfold party_hero. intros H.
  destruct (py_isdigit B identifier).
  - destruct (py_int B identifier) as [slot |]; simpl in H; [| discriminate].
    destruct ((1 <=? slot) && (slot <=? Z.of_nat (length (active_team p))));
      [| discriminate].
    inversion H as [H']; clear H.
    destruct (active_team p !! Z.to_nat (slot - 1)) as [id |]; simpl in H';
      [| discriminate].
    destruct (list_find _ (pc p)) as [[i h] |] eqn:Hf; simpl in H'; [| discriminate].
    inversion H'; subst. apply list_find_Some in Hf as (Hl & _).
    eapply list_elem_of_lookup_2; exact Hl.
  - inversion H as [H']; clear H.
    destruct (list_find _ (pc p)) as [[i h] |] eqn:Hf; simpl in H'; [| discriminate].
    inversion H'; subst. apply list_find_Some in Hf as (Hl & _).
    eapply list_elem_of_lookup_2; exact Hl.
Qed.

(** [/partyremove] never takes a locked hero out of the party, and never
    touches the roster (for a roster whose hero ids are distinct). *)
Lemma partyremove_keeps_locked (p p' : Player) (identifier : string) (r : Reply) :
  NoDup (map unique_id (pc p)) ->
  partyremove B p identifier = Some (p', r) ->
  pc p' = pc p
  /\ forall h, h ∈ pc p -> locked h = true ->
               unique_id h ∈ active_team p -> unique_id h ∈ active_team p'.
Proof.
  intros Hnd H. unfold partyremove in H.
  destruct (active_team p) as [| t0 team] eqn:Hteam.
  { inversion H; subst. rewrite Hteam. auto. }
  rewrite <- Hteam in *. clear Hteam t0 team.
  destruct (party_hero B p identifier) as [[hero |] |] eqn:Hh; simpl in H;
    [| inversion H; subst; auto | discriminate].
  destruct (locked hero) eqn:Hlock; inversion H; subst; clear H; [auto |].
  split; [reflexivity |]. simpl.
  intros h Hin Hl Hteam. apply list_remove_first_other; [| exact Hteam].
  intros Heq. apply party_hero_in_pc in Hh.
  assert (h = hero); [| congruence].
  apply list_elem_of_lookup in Hin as [i Hi].
  apply list_elem_of_lookup in Hh as [j Hj].
  assert (i = j); [| congruence].
  apply (NoDup_lookup (map unique_id (pc p)) i j (unique_id h) Hnd).
  - change (map unique_id (pc p)) with (unique_id <$> pc p).
    rewrite list_lookup_fmap, Hi. reflexivity.
  - change (map unique_id (pc p)) with (unique_id <$> pc p).
    rewrite list_lookup_fmap, Hj. simpl. now rewrite Heq.
Qed.

(** The barracks clear keeps exactly the heroes of the active party. *)
Lemma confirm_clear_keeps_party (user : Player) (h : Entity) :
  h ∈ pc (confirm_clear user) <-> h ∈ pc user /\ unique_id h ∈ active_team user.
Proof.
  unfold confirm_clear. simpl. rewrite list_elem_of_filter. tauto.
Qed.

(** C7 (the code at the failing input). The barracks clear does not
    look at the locked flag: a locked hero of the roster that is not in
    the active party is removed by it. *)
Theorem confirm_clear_removes_locked (user : Player) (h : Entity) :
  h ∈ pc user -> locked h = true -> unique_id h ∉ active_team user ->
  (h ∉ pc (confirm_clear user))
  /\ active_team (confirm_clear user) = active_team user.
Proof.
  intros Hin Hl Hteam. split; [| reflexivity].
  rewrite confirm_clear_keeps_party. tauto.
Qed.

End RosterProperties.

Lemma confirm_clear_removes_locked_witness :
  locked treasured = true
  /\ treasured ∈ pc collector
  /\ pc (confirm_clear collector) = [squire]
  /\ treasured ∉ pc (confirm_clear collector).
Proof.
  split; [reflexivity |].
  split; [right; left |].
  split; [vm_compute; reflexivity |].
  apply (confirm_clear_removes_locked collector treasured).
  - right; left.
  - reflexivity.
  - intros Hin. apply list_elem_of_singleton in Hin. discriminate.
Defined.

(** ** Relic charging *)

Section RelicProperties.
Context (B : Builtins).
Context (xp_required_for_level : Z -> Z).

Lemma account_level_loop_relic (amts : list Z) :
  forall (p p' : Player),
    account_level_loop xp_required_for_level amts p = Ok p' ->
    relic_charge p' = relic_charge p /\ respawn_orb p' = respawn_orb p.
Proof.
  induction amts as [| amt amts IH]; intros p p' H; simpl in H.
  - destruct (xp_required_for_level (account_level p) <=? account_xp p);
      [discriminate | inversion H; auto].
  - destruct (xp_required_for_level (account_level p) <=? account_xp p);
      [| inversion H; auto].
    apply IH in H as [H1 H2]. rewrite H1, H2.
    repeat (case_match; simpl); auto.
Qed.

Lemma boss_step_relic (p p' : Player) (d : KillDraws) (next : option Entity) :
  boss_step p d = Some (p', next) ->
  relic_charge p' = relic_charge p /\ respawn_orb p' = respawn_orb p.
Proof.
  unfold boss_step. intros H.
  destruct (boss_battle p) as [bdata |]; [| inversion H; auto].
  destruct (Z.of_nat (length (boss_team bdata)) <=? boss_index bdata + 1).
  - inversion H; subst; clear H.
    destruct (default false (dict_get (badges p) (boss_type bdata))); auto.
  - destruct (boss_team bdata !! Z.to_nat (boss_index bdata + 1)); simpl in H;
      inversion H; auto.
Qed.

Lemma settle_respawn_orb_relic (p p' : Player) :
  settle_respawn_orb B p = Some p' -> relic_charge p' = relic_charge p.
Proof.
  unfold settle_respawn_orb. intros H.
  destruct (respawn_orb p) as [orb |]; [| inversion H; auto].
  destruct (orb_goal orb <=? orb_kills orb + 1).
  - destruct (orb_name orb); simpl in H; inversion H; auto.
  - inversion H; auto.
Qed.

(** Without a ["respawn_orb"] record the relic block does nothing. *)
Lemma settle_respawn_orb_absent (p : Player) :
  respawn_orb p = None -> settle_respawn_orb B p = Some p.
Proof. unfold settle_respawn_orb. now intros ->. Qed.

(** The settlement never writes the ["relic_charge"] record. *)
Lemma handle_rewards_relic (p p' : Player) (hero hero' enemy : Entity)
    (d : KillDraws) (provider : Entity -> option Stats) (next : option Entity) :
  _handle_rewards B xp_required_for_level p hero enemy d provider = Ok (p', hero', next) ->
  relic_charge p' = relic_charge p.
Proof.
  unfold _handle_rewards. intros H.
  destruct (0 <? current_hp enemy); [inversion H; auto |].
  destruct (boss_step p d) as [[p1 next1] |] eqn:Hb; [| discriminate].
  apply boss_step_relic in Hb as [Hb _].
  destruct (if 100 <=? level hero then _ else _) as [[h1 l1] | |]; try discriminate.
  destruct (account_level_loop _ _ _) as [p2 | |] eqn:Ha; try discriminate.
  apply account_level_loop_relic in Ha as [Ha _]. simpl in Ha.
  destruct next1 as [n |].
  - inversion H; subst. simpl. congruence.
  - destruct (settle_respawn_orb B _) as [p3 |] eqn:Hs; [| discriminate].
    apply settle_respawn_orb_relic in Hs. simpl in Hs.
    inversion H; subst. congruence.
Qed.

(** C5 (the code at the failing input). A relic activated through
    [/use] is recorded under ["relic_charge"] with 0 kills and the goal
    100, and the reward settlement, which only advances a record stored
    under ["respawn_orb"], leaves it as it is: after a settled kill the
    activated relic still counts 0 kills. *)
Theorem relic_charge_never_advances (p p1 p2 : Player) (item : string)
    (hero hero2 enemy : Entity) (d : KillDraws)
    (provider : Entity -> option Stats) (next : option Entity) :
  use_confirm B p item = (p1, Accepted) ->
  _handle_rewards B xp_required_for_level p1 hero enemy d provider = Ok (p2, hero2, next) ->
  exists rc, relic_charge p2 = Some rc /\ rc_kills rc = 0 /\ rc_goal rc = 100.
Proof.
  intros Huse Hkill. apply handle_rewards_relic in Hkill. rewrite Hkill.
  unfold use_confirm in Huse.
  destruct (find_relic B (py_strip B item)) as [[hero_name dname] |]; [| inversion Huse].
  destruct (default 0 (dict_get (bag p) (py_strip B item)) <=? 0); inversion Huse; subst.
  simpl. eexists. repeat split.
Qed.

End RelicProperties.

Lemma relic_charge_never_advances_witness :
  exists p1 p2 hero2,
    use_confirm ascii_builtins pilgrim "Relic of Radiant Souls" = (p1, Accepted)
    /\ _handle_rewards ascii_builtins (fun _ => 200) p1 squire beaten_slime one_kill
         catalog_stats = Ok (p2, hero2, None)
    /\ coins p2 = 565
    /\ relic_charge p2 = Some (mkRelicCharge "Relic of Radiant Souls" "Aurelia" 0 100).
Proof.
  eexists; eexists; eexists.
  split; [vm_compute; reflexivity |].
  split; [vm_compute; reflexivity |].
  split; [reflexivity |].
  destruct (relic_charge_never_advances ascii_builtins (fun _ => 200) pilgrim _ _
              "Relic of Radiant Souls" squire _ beaten_slime one_kill catalog_stats None
              eq_refl eq_refl) as (rc & Hrc & _).
  reflexivity.
Defined.

(** ** Shiny rolls *)

Section ShinyProperties.
Context (B : Builtins).

(** The instance gets its shiny flag from [is_hero] and the 1/5000 roll
    alone; the template's own flag is not read. *)
Lemma build_instance_shiny (d : Draws) (template : Template) (level : option Z)
    (is_hero : bool) (inst : Entity) :
  build_instance_from_template B d template level is_hero = Some inst ->
  shiny inst = is_hero && PrimFloat.ltb (inst_shiny_u d) (true_div 1 5000).
Proof.
  unfold build_instance_from_template. intros H.
  destruct (mapM _ _) as [moves |]; simpl in H; inversion H. reflexivity.
Qed.

(** The picker does roll the template's flag at 1/4096. *)
Lemma pick_random_hero_template_shiny (heroes_db : list Template) (d : Draws)
    (template : Template) :
  heroes_db <> [] ->
  pick_random_hero_template heroes_db d = Some template ->
  t_shiny template = Some (PrimFloat.ltb (shiny_u d) (true_div 1 4096)).
Proof.
  intros Hne H. unfold pick_random_hero_template in H.
  destruct heroes_db as [| h0 db]; [congruence |].
  destruct (_ !! tmpl_idx d) as [t |]; simpl in H; inversion H. reflexivity.
Qed.

(** Wild monsters are never shiny. *)
Lemma wild_monster_never_shiny (heroes_db monsters_db : list Template) (d : Draws)
    (inst : Entity) :
  explore B heroes_db monsters_db d = Some (MonsterEncounter inst) ->
  shiny inst = false.
Proof.
  unfold explore. intros H.
  destruct (PrimFloat.ltb (roll d) f0_01); [discriminate |].
  destruct (PrimFloat.ltb (roll d) f0_99).
  - destruct (pick_random_hero_template heroes_db d) as [t |]; simpl in H; [| discriminate].
    destruct (build_instance_from_template B d t None false); simpl in H; discriminate.
  - destruct (pick_random_monster_template monsters_db d) as [t |]; simpl in H;
      [| discriminate].
    destruct (build_instance_from_template B d t None false); simpl in H;
      inversion H. reflexivity.
Qed.

(** Starters are shiny exactly when the roll is below 1/5000. *)
Lemma starter_shiny (heroes_db : list Template) (hero_name : string) (d : Draws)
    (starter : Entity) :
  add_starter B heroes_db hero_name d = Some starter ->
  shiny starter = PrimFloat.ltb (shiny_u d) (true_div 1 5000).
Proof.
  unfold add_starter. intros H.
  destruct (filter _ heroes_db) as [| base_data rest]; [discriminate |].
  destruct (unlocked B _ 10) as [usable |]; simpl in H; [| discriminate].
  destruct (mapM _ usable) as [moves |]; simpl in H; [| discriminate].
  destruct (t_element base_data); simpl in H; [| discriminate].
  destruct (t_rarity base_data); simpl in H; inversion H. reflexivity.
Qed.

(** A chest hero is shiny exactly when the twenty-sided roll is 1. *)
Lemma chest_hero_shiny (heroes_db : list Template) (d : Draws) (inst : Entity) :
  chest_hero B heroes_db d = Some inst ->
  shiny inst = bool_decide (d20 d = 1).
Proof.
  unfold chest_hero. intros H.
  destruct (pick_random_hero_template_by_rarity B heroes_db "epic" d) as [t |];
    simpl in H; [| discriminate].
  destruct (build_instance_from_template B d t None true); simpl in H;
    inversion H. reflexivity.
Qed.

(** A summoned hero is always shiny. *)
Lemma summon_always_shiny (hero_data : Template) (d : Draws) (inst : Entity) :
  summon_instance B hero_data d = Some inst -> shiny inst = true.
Proof.
  unfold summon_instance. intros H.
  destruct (build_instance_from_template B d hero_data None false); simpl in H;
    inversion H. reflexivity.
Qed.

(** C8 (the code at the failing input). The hero encounter of
    [/explore] is built by [build_instance_from_template(template)] with
    [is_hero] left at its default [False], so its shiny flag is false for
    every outcome of the random source, whatever the 1/4096 roll of the
    picker gave. *)
Theorem wild_hero_never_shiny (heroes_db monsters_db : list Template) (d : Draws)
    (inst : Entity) :
  explore B heroes_db monsters_db d = Some (HeroEncounter inst) ->
  shiny inst = false.
Proof.
  unfold explore. intros H.
  destruct (PrimFloat.ltb (roll d) f0_01); [discriminate |].
  destruct (PrimFloat.ltb (roll d) f0_99).
  - destruct (pick_random_hero_template heroes_db d) as [t |]; simpl in H; [| discriminate].
    destruct (build_instance_from_template B d t None false) as [i |] eqn:Hb;
      simpl in H; [| discriminate].
    apply build_instance_shiny in Hb. inversion H; subst. simpl. exact Hb.
  - destruct (pick_random_monster_template monsters_db d) as [t |]; simpl in H;
      [| discriminate].
    destruct (build_instance_from_template B d t None false); simpl in H; discriminate.
Qed.

End ShinyProperties.

Lemma wild_hero_never_shiny_witness :
  exists template inst,
    pick_random_hero_template [aiden] lucky_draws = Some template
    /\ t_shiny template = Some true
    /\ explore ascii_builtins [aiden] [] lucky_draws = Some (HeroEncounter inst)
    /\ shiny inst = false.
Proof.
  eexists; eexists.
  split; [vm_compute; reflexivity |].
  split; [reflexivity |].
  split; [vm_compute; reflexivity |].
  apply (wild_hero_never_shiny ascii_builtins [aiden] [] lucky_draws).
  vm_compute. reflexivity.
Defined.

(** ** Economy *)

Section SumProperties.
Context {V : Type} (g : V -> Z).

Lemma coin_sum_comm (j1 j2 : string) (z1 z2 : V) (y : Z) :
  g z1 + (g z2 + y) = g z2 + (g z1 + y).
Proof. lia. Qed.

Lemma coin_sum_empty : coin_sum g ∅ = 0.
Proof. unfold coin_sum. apply map_fold_empty. Qed.

Lemma coin_sum_insert_fresh (m : gmap string V) (k : string) (x : V) :
  m !! k = None -> coin_sum g (<[k := x]> m) = g x + coin_sum g m.
Proof.
  intros H. unfold coin_sum.
  apply (map_fold_insert_L (fun _ v acc => g v + acc)); [| exact H].
  intros. apply coin_sum_comm; assumption.
Qed.

Lemma coin_sum_delete (m : gmap string V) (k : string) (x : V) :
  m !! k = Some x -> coin_sum g (delete k m) = coin_sum g m - g x.
Proof.
  intros H. unfold coin_sum.
  rewrite (map_fold_delete_L (fun _ v acc => g v + acc) 0 k x m); [lia | | exact H].
  intros. apply coin_sum_comm; assumption.
Qed.

Lemma coin_sum_insert_over (m : gmap string V) (k : string) (x y : V) :
  m !! k = Some y -> coin_sum g (<[k := x]> m) = coin_sum g m - g y + g x.
Proof.
  intros H. rewrite <- insert_delete_eq.
  rewrite coin_sum_insert_fresh by apply lookup_delete_eq.
  rewrite (coin_sum_delete m k y H). lia.
Qed.

End SumProperties.

Section EconomyProperties.
Context (B : Builtins).

(** [/cfcreate] refuses a bet that is not positive and changes
    nothing. *)
Lemma cfcreate_rejects_nonpositive (w : World) (user_id : string) (amount : Z)
    (now_id now_time : float) :
  amount <= 0 ->
  exists why, cfcreate w user_id amount now_id now_time = (w, Rejected why).
Proof.
  intros Ha. unfold cfcreate.
  destruct (players w !! user_id); [| eauto].
  replace (amount <=? 0) with true by (symmetry; apply Z.leb_le; exact Ha). eauto.
Qed.

(** [/ahsell] refuses a duration other than 12, 24, 48 or 72 hours and
    changes nothing. *)
Lemma ahsell_rejects_duration (w : World) (user_id id : string)
    (amount price time : Z) (auc_id : string) (now : Z) :
  valid_duration time = false ->
  exists why, ahsell B w user_id id amount price time auc_id now = (w, Rejected why).
Proof.
  intros Hd. unfold ahsell.
  destruct (players w !! user_id); [| eauto]. rewrite Hd. simpl. eauto.
Qed.

(** C9 (the code at the failing input). [/slots] and [/ahsell] do not
    test the sign of the amount.  A negative bet is accepted by [/slots]
    and credited to the player before the first spin (a spin that pays
    nothing leaves the balance raised by the bet's absolute value); a
    negative amount is accepted by [/ahsell], which adds it to the bag
    entry and opens an auction of a negative amount. *)
Theorem negative_amount_accepted (w : World) (user_id : string) (p : Player)
    (amount : Z) :
  players w !! user_id = Some p ->
  amount < 0 -> amount <= coins p ->
  slots w user_id amount [(Grapes, Cherries, Lemon)] =
    Ok (mkWorld (<[user_id := with_coins p (coins p - amount)]> (players w))
          (auctions w) (coinflips w), Accepted)
  /\ forall (id key auc_id : string) (i : nat) (have price now : Z),
       list_find (fun kv => py_lower B kv.1 = py_lower B id) (bag p)
         = Some (i, (key, have)) ->
       0 < have ->
       ahsell B w user_id id amount price 24 auc_id now =
         (mkWorld (<[user_id := with_bag p (dict_set (bag p) key (have - amount))]> (players w))
            (<[auc_id := mkAuction user_id key amount price (now + 24 * 3600000000)]>
               (auctions w))
            (coinflips w), Accepted).
Proof.
  intros Hp Hneg Hle. split.
  - unfold slots. rewrite Hp.
    replace (coins p <? amount) with false by (symmetry; apply Z.ltb_ge; lia).
    simpl. rewrite Z.add_0_r. reflexivity.
  - intros id key auc_id i have price now Hfind Hhave.
    unfold ahsell. rewrite Hp. simpl. rewrite Hfind.
    replace (have <? amount) with false by (symmetry; apply Z.ltb_ge; lia).
    replace (have - amount <=? 0) with false by (symmetry; apply Z.leb_gt; lia).
    reflexivity.
Qed.

(** What [/cfcreate] does to the total: nothing when the id is new; the
    stake of the coinflip it overwrites is lost when the id is taken. *)
Lemma cfcreate_total (w w' : World) (user_id : string) (amount : Z)
    (now_id now_time : float) :
  cfcreate w user_id amount now_id now_time = (w', Accepted) ->
  total_coins w' =
  total_coins w - match coinflips w !! coinflip_id now_id with
                  | Some old => cf_amount old
                  | None => 0
                  end.
Proof.
  unfold cfcreate. intros H.
  destruct (players w !! user_id) as [p |] eqn:Hp; [| inversion H].
  destruct (amount <=? 0); [inversion H |].
  destruct (coins p <? amount); inversion H; subst; clear H.
  unfold total_coins, balances, escrow. simpl.
  rewrite (coin_sum_insert_over coins _ _ _ _ Hp). simpl.
  destruct (coinflips w !! coinflip_id now_id) as [old |] eqn:Hc.
  - rewrite (coin_sum_insert_over cf_amount _ _ _ _ Hc). simpl. lia.
  - rewrite (coin_sum_insert_fresh cf_amount _ _ _ Hc). simpl. lia.
Qed.

(** [/cftake] keeps the total: the challenger's stake and the escrowed
    stake make the prize. *)
Lemma cftake_total (w w' : World) (user_id id : string) (pick : nat) (r : Reply) :
  cftake w user_id id pick = Some (w', r) -> total_coins w' = total_coins w.
Proof.
  unfold cftake. intros H.
  destruct (players w !! user_id) as [ch |] eqn:Hch; [| inversion H; auto].
  destruct (coinflips w !! id) as [flip |] eqn:Hf; [| inversion H; auto].
  destruct (String.eqb user_id (cf_creator flip)) eqn:Heq; [inversion H; auto |].
  destruct (coins ch <? cf_amount flip); [inversion H; auto |].
  apply String.eqb_neq in Heq.
  destruct pick as [| [| pick]]; simpl in H; [| | discriminate].
  - rewrite lookup_insert_ne in H by exact Heq.
    destruct (players w !! cf_creator flip) as [wp |] eqn:Hwp; simpl in H; [| discriminate].
    inversion H; subst; clear H. unfold total_coins, balances, escrow. simpl.
    rewrite (coin_sum_insert_over coins _ _ _ wp)
      by (rewrite lookup_insert_ne by exact Heq; exact Hwp).
    rewrite (coin_sum_insert_over coins _ _ _ _ Hch).
    rewrite (coin_sum_delete cf_amount _ _ _ Hf). simpl. lia.
  - rewrite lookup_insert_eq in H. simpl in H.
    inversion H; subst; clear H. unfold total_coins, balances, escrow. simpl.
    rewrite (coin_sum_insert_over coins _ _ _ _ (lookup_insert_eq _ _ _)).
    rewrite (coin_sum_insert_over coins _ _ _ _ Hch).
    rewrite (coin_sum_delete cf_amount _ _ _ Hf). simpl. lia.
Qed.

(** Refunding and deleting a list of open coinflips with distinct ids
    and registered creators keeps the total. *)
Lemma refund_all_total (l : list (string * Coinflip)) :
  forall (ps : gmap string Player) (cfs : gmap string Coinflip),
    NoDup (l.*1) ->
    (forall k f, (k, f) ∈ l -> cfs !! k = Some f) ->
    (forall k f, (k, f) ∈ l -> is_Some (ps !! cf_creator f)) ->
    balances (foldl refund ps l)
    + escrow (foldl (fun m kv => delete kv.1 m) cfs l)
    = balances ps + escrow cfs.
Proof.
  induction l as [| [k f] l IH]; intros ps cfs Hnd Hin Hreg; [reflexivity |].
  simpl. apply NoDup_cons in Hnd as [Hk Hnd].
  destruct (Hreg k f) as [p Hp]; [left |].
  rewrite IH.
  - unfold refund. simpl. rewrite Hp. unfold balances, escrow.
    rewrite (coin_sum_insert_over coins _ _ _ _ Hp).
    rewrite (coin_sum_delete cf_amount cfs k f) by (apply Hin; left). simpl. lia.
  - exact Hnd.
  - intros k' f' Hin'. rewrite lookup_delete_ne.
    + apply Hin. now right.
    + intros ->. apply Hk. apply list_elem_of_fmap. exists (k', f'). auto.
  - intros k' f' Hin'. unfold refund. simpl. rewrite Hp.
    destruct (decide (cf_creator f = cf_creator f')) as [-> | Hne].
    + rewrite lookup_insert_eq. eauto.
    + rewrite lookup_insert_ne by exact Hne. apply (Hreg k' f'). now right.
Qed.

(** [coinflip_cleanup] keeps the total when the creators of the open
    coinflips are registered. *)
Lemma coinflip_cleanup_total (w : World) (now : float) :
  (forall k f, coinflips w !! k = Some f -> is_Some (players w !! cf_creator f)) ->
  total_coins (coinflip_cleanup w now) = total_coins w.
Proof.
  intros Hreg. unfold total_coins, coinflip_cleanup. simpl.
  apply refund_all_total.
  - apply NoDup_fmap_fst.
    + intros k f1 f2 H1 H2.
      apply list_elem_of_filter in H1 as [_ H1]. apply list_elem_of_filter in H2 as [_ H2].
      apply elem_of_map_to_list in H1, H2. congruence.
    + apply NoDup_filter, NoDup_map_to_list.
  - intros k f Hin. apply list_elem_of_filter in Hin as [_ Hin].
    now apply elem_of_map_to_list in Hin.
  - intros k f Hin. apply list_elem_of_filter in Hin as [_ Hin].
    apply elem_of_map_to_list in Hin. eapply Hreg; exact Hin.
Qed.

Lemma refund_all_registered (l : list (string * Coinflip)) :
  forall (ps : gmap string Player) (u : string),
    is_Some (ps !! u) -> is_Some (foldl refund ps l !! u).
Proof.
  induction l as [| kv l IH]; intros ps u Hu; [exact Hu |].
  simpl. apply IH. unfold refund.
  destruct (ps !! cf_creator kv.2) as [p |]; [| exact Hu].
  destruct (decide (cf_creator kv.2 = u)) as [-> | Hne].
  - rewrite lookup_insert_eq. eauto.
  - rewrite lookup_insert_ne by exact Hne. exact Hu.
Qed.

Lemma delete_all_lookup (l : list (string * Coinflip)) :
  forall (cfs : gmap string Coinflip) (k : string) (f : Coinflip),
    foldl (fun m kv => delete kv.1 m) cfs l !! k = Some f -> cfs !! k = Some f.
Proof.
  induction l as [| kv l IH]; intros cfs k f H; [exact H |].
  simpl in H. apply IH in H.
  destruct (decide (kv.1 = k)) as [<- | Hne].
  - rewrite lookup_delete_eq in H. discriminate.
  - rewrite lookup_delete_ne in H by exact Hne. exact H.
Qed.

(** The operations keep the creators of open coinflips registered. *)
Lemma coin_step_registered (w w' : World) (op : CoinOp) :
  creators_registered w -> coin_step w op = Some w' -> creators_registered w'.
Proof.
  intros Hreg Hstep. destruct op as [u a t t' | u id pick | now]; simpl in Hstep.
  - inversion Hstep; subst; clear Hstep. unfold cfcreate.
    destruct (players w !! u) as [p |] eqn:Hp; [| exact Hreg].
    destruct (a <=? 0); [exact Hreg |].
    destruct (coins p <? a); [exact Hreg |].
    intros k f Hk. simpl in *.
    destruct (decide (coinflip_id t = k)) as [<- | Hne].
    + rewrite lookup_insert_eq in Hk. inversion Hk; subst. simpl.
      rewrite lookup_insert_eq. eauto.
    + rewrite lookup_insert_ne in Hk by exact Hne.
      destruct (decide (u = cf_creator f)) as [<- | Hne'].
      * rewrite lookup_insert_eq. eauto.
      * rewrite lookup_insert_ne by exact Hne'. eapply Hreg; exact Hk.
  - unfold cftake in Hstep.
    destruct (players w !! u) as [ch |] eqn:Hch; [| inversion Hstep; subst; exact Hreg].
    destruct (coinflips w !! id) as [flip |] eqn:Hf; [| inversion Hstep; subst; exact Hreg].
    destruct (String.eqb u (cf_creator flip)); [inversion Hstep; subst; exact Hreg |].
    destruct (coins ch <? cf_amount flip); [inversion Hstep; subst; exact Hreg |].
    simpl in Hstep.
    destruct ([cf_creator flip; u] !! pick) as [winner |]; simpl in Hstep; [| discriminate].
    destruct (_ !! winner) as [wp |]; simpl in Hstep; [| discriminate].
    inversion Hstep; subst; clear Hstep.
    intros k f Hk. simpl in *.
    assert (Hk' : coinflips w !! k = Some f).
    { destruct (decide (id = k)) as [<- | Hne].
      - rewrite lookup_delete_eq in Hk. discriminate.
      - rewrite lookup_delete_ne in Hk by exact Hne. exact Hk. }
    apply Hreg in Hk'.
    destruct (decide (winner = cf_creator f)) as [<- | Hne1];
      [rewrite lookup_insert_eq; eauto | rewrite lookup_insert_ne by exact Hne1].
    destruct (decide (u = cf_creator f)) as [<- | Hne2];
      [rewrite lookup_insert_eq; eauto | rewrite lookup_insert_ne by exact Hne2].
    exact Hk'.
  - inversion Hstep; subst; clear Hstep.
    intros k f Hk. unfold coinflip_cleanup in *. simpl in *.
    apply refund_all_registered. apply delete_all_lookup in Hk. eapply Hreg; exact Hk.
Qed.

(** One operation with a fresh id keeps the total. *)
Lemma coin_step_total (w w' : World) (op : CoinOp) :
  creators_registered w -> fresh_id w op -> coin_step w op = Some w' ->
  total_coins w' = total_coins w.
Proof.
  intros Hreg Hfresh Hstep. destruct op as [u a t t' | u id pick | now]; simpl in *.
  - inversion Hstep; subst; clear Hstep.
    destruct (cfcreate w u a t t') as [w1 r] eqn:Hc. simpl.
    destruct r as [why |].
    + unfold cfcreate in Hc.
      destruct (players w !! u) as [p |]; [| inversion Hc; auto].
      destruct (a <=? 0); [inversion Hc; auto |].
      destruct (coins p <? a); inversion Hc; auto.
    + apply cfcreate_total in Hc. rewrite Hfresh in Hc. lia.
  - destruct (cftake w u id pick) as [[w1 r] |] eqn:Hc; simpl in Hstep; [| discriminate].
    inversion Hstep; subst. eapply cftake_total; exact Hc.
  - inversion Hstep; subst. apply coinflip_cleanup_total. exact Hreg.
Qed.

(** X27. As long as no new coinflip takes the id of an open one, every
    run of [/cfcreate], [/cftake] and [coinflip_cleanup] keeps the total
    of the balances and the escrow. *)
Lemma fresh_run_total (w w' : World) (ops : list CoinOp) :
  creators_registered w -> fresh_run w ops w' -> total_coins w' = total_coins w.
Proof.
  intros Hreg Hrun. induction Hrun as [w | w w1 w2 op ops Hfresh Hstep Hrun IH].
  - reflexivity.
  - rewrite IH by (eapply coin_step_registered; eassumption).
    eapply coin_step_total; eassumption.
Qed.

(** C10 (the code at the failing input). The id of a coinflip is the
    last six digits of the clock in milliseconds; a coinflip created
    while another one with the same id is open overwrites it, and the
    stake of the first one leaves the game: the total of the balances and
    the escrow drops by that stake. *)
Theorem cfcreate_id_collision (w w1 w2 : World) (user1 user2 : string)
    (amount1 amount2 : Z) (t1 t1' t2 t2' : float) :
  coinflips w !! coinflip_id t1 = None ->
  cfcreate w user1 amount1 t1 t1' = (w1, Accepted) ->
  coinflip_id t2 = coinflip_id t1 ->
  cfcreate w1 user2 amount2 t2 t2' = (w2, Accepted) ->
  total_coins w1 = total_coins w
  /\ total_coins w2 = total_coins w - amount1
  /\ 0 < amount1.
Proof.
  intros Hfresh H1 Hid H2.
  pose proof (cfcreate_total _ _ _ _ _ _ H1) as Ht1. rewrite Hfresh in Ht1.
  pose proof (cfcreate_total _ _ _ _ _ _ H2) as Ht2. rewrite Hid in Ht2.
  unfold cfcreate in H1.
  destruct (players w !! user1) as [p |]; [| inversion H1].
  destruct (amount1 <=? 0) eqn:Hpos; [inversion H1 |].
  destruct (coins p <? amount1); inversion H1; subst w1; clear H1.
  simpl in Ht2. rewrite lookup_insert_eq in Ht2. simpl in Ht2.
  apply Z.leb_gt in Hpos. repeat split; lia.
Qed.

End EconomyProperties.

Lemma negative_amount_accepted_witness :
  (exists w', slots town "alice" (-5) [(Grapes, Cherries, Lemon)] = Ok (w', Accepted)
              /\ coins <$> players w' !! "alice" = Some 1005)
  /\ (exists w', ahsell ascii_builtins town "alice" "potion" (-1) 10 24 "A0000001" 0
                 = (w', Accepted)
                 /\ bag <$> players w' !! "alice" = Some [("Potion", 4)]
                 /\ au_amount <$> auctions w' !! "A0000001" = Some (-1)).
Proof.
  destruct (negative_amount_accepted ascii_builtins town "alice" alice (-5) eq_refl)
    as [Hs _]; [lia | simpl; lia |].
  destruct (negative_amount_accepted ascii_builtins town "alice" alice (-1) eq_refl)
    as [_ Ha]; [lia | simpl; lia |].
  specialize (Ha "potion" "Potion" "A0000001" 0%nat 3 10 0 eq_refl ltac:(lia)).
  split.
  - eexists. split; [exact Hs |]. simpl. rewrite lookup_insert_eq. reflexivity.
  - eexists. split; [exact Ha |]. simpl. rewrite !lookup_insert_eq. split; reflexivity.
Defined.

Lemma cfcreate_id_collision_witness :
  exists w1 w2,
    cfcreate town "alice" 100 1700000000 1700000000 = (w1, Accepted)
    /\ cfcreate w1 "bob" 50 1700001000 1700001000 = (w2, Accepted)
    /\ total_coins town = 2000 /\ total_coins w1 = 2000 /\ total_coins w2 = 1900
    /\ cf_creator <$> coinflips w2 !! "000000" = Some "bob".
Proof.
  eexists; eexists.
  split; [vm_compute; reflexivity |].
  split; [vm_compute; reflexivity |].
  destruct (cfcreate_id_collision town _ _ "alice" "bob" 100 50
              1700000000 1700000000 1700001000 1700001000
              eq_refl eq_refl eq_refl eq_refl) as (H1 & H2 & _).
  split; [vm_compute; reflexivity |].
  split; [vm_compute; reflexivity |].
  split; [vm_compute; reflexivity |].
  vm_compute. reflexivity.
Defined.

(** * Further properties *)

(** ** Derived stats *)

(** X1. With a non-negative growth sum [2*base + iv + ev//4], [calc_hp]
    and [calc_stat] do not decrease when the IV, the EV or the level
    grows (levels from 0 up), and they are at least [level + 10] and 5. *)
Theorem calc_stats_monotone (base iv iv' ev ev' level level' : Z) :
  0 <= 2 * base + iv + ev / 4 ->
  iv <= iv' -> ev <= ev' -> 0 <= level <= level' ->
  calc_hp base iv ev level <= calc_hp base iv' ev' level'
  /\ calc_stat base iv ev level <= calc_stat base iv' ev' level'
  /\ level + 10 <= calc_hp base iv ev level
  /\ 5 <= calc_stat base iv ev level.
Proof.
  intros Hs Hiv Hev Hl. unfold calc_hp, calc_stat.
  assert (He4 : ev / 4 <= ev' / 4) by (apply Z.div_le_mono; lia).
  assert (Hq : (2 * base + iv + ev / 4) * level / 100
               <= (2 * base + iv' + ev' / 4) * level' / 100)
    by (apply Z.div_le_mono; [lia | nia]).
  assert (H0 : 0 <= (2 * base + iv + ev / 4) * level / 100)
    by (apply Z.div_pos; [nia | lia]).
  lia.
Qed.

Lemma calc_stats_monotone_witness :
  calc_hp 80 0 0 10 <= calc_hp 80 31 252 11
  /\ calc_hp 80 0 0 10 = 36 /\ calc_hp 80 31 252 11 = 48.
Proof.
  split; [| split; reflexivity].
  exact (proj1 (calc_stats_monotone 80 0 31 0 252 10 11
                  ltac:(vm_compute; discriminate) ltac:(lia) ltac:(lia) ltac:(lia))).
Defined.

(** ** Entity experience, continued *)

Lemma threshold_sum_same (a : Z) : threshold_sum a a = 0.
Proof. unfold threshold_sum. now rewrite seqZ_nil by lia. Qed.

Lemma threshold_sum_step (a b : Z) :
  a < b -> threshold_sum a b = entity_xp_required (a + 1) + threshold_sum (a + 1) b.
Proof.
  intros H. unfold threshold_sum. rewrite (seqZ_cons (a + 1)) by lia. simpl.
  replace (Z.succ (a + 1)) with (a + 1 + 1) by lia.
  replace (Z.pred (b - a)) with (b - (a + 1)) by lia. reflexivity.
Qed.

Lemma level_up_loop_accounting (provider : Entity -> option Stats) (fuel : nat) :
  forall (e : Entity) (log : list XpEvent) e' log',
    level_up_loop fuel provider e log = Ok (e', log') ->
    level e <= level e'
    /\ xp e = xp e' + threshold_sum (level e) (level e')
    /\ log' = log ++ (LevelUp (name e) <$> seqZ (level e + 1) (level e' - level e))
    /\ name e' = name e /\ ent_id e' = ent_id e
    /\ ivs e' = ivs e /\ evs e' = evs e.
Proof.
  induction fuel as [| fuel IH]; intros e log e' log' H; simpl in H.
  - destruct ((entity_xp_required (level e + 1) <=? xp e) && (level e <? 100));
      [discriminate |].
    inversion H; subst. rewrite threshold_sum_same, Z.sub_diag. simpl.
    rewrite app_nil_r. repeat split; lia.
  - destruct ((entity_xp_required (level e + 1) <=? xp e) && (level e <? 100)).
    + destruct (provider _) as [base |]; [| discriminate].
      destruct (recalc_stats_from_base _ base) as [e3 |] eqn:Hr; [| discriminate].
      apply IH in H as (Hl & Hx & Hlog & Hn & Hid & Hi & Hv).
      apply recalc_keeps in Hr as (Hl3 & Hx3 & Hn3 & Hi3 & Hv3 & Hid3 & _).
      simpl in Hl3, Hx3, Hn3, Hi3, Hv3, Hid3.
      rewrite Hl3 in Hl, Hx, Hlog. rewrite Hx3 in Hx. rewrite Hn3 in Hlog, Hn.
      split; [lia |].
      split; [rewrite (threshold_sum_step (level e) (level e')) by lia; lia |].
      split.
      { rewrite Hlog, <- app_assoc. f_equal.
        rewrite (seqZ_cons (level e + 1) (level e' - level e)) by lia.
        simpl. f_equal. f_equal. f_equal; lia. }
      repeat split; congruence.
    + inversion H; subst. rewrite threshold_sum_same, Z.sub_diag. simpl.
      rewrite app_nil_r. repeat split; lia.
Qed.

(** X2. [award_entity_xp] always comes back (with a result or with the
    exception of a missing template), never with a level above 100, and
    an entity it leaves below level 100 holds less xp than its next level
    needs. *)
Theorem award_entity_xp_settles (iv_draws : Stats) (e : Entity) (xp_gain : Z)
    (log : list XpEvent) (provider : Entity -> option Stats) :
  award_entity_xp iv_draws e xp_gain log provider <> OutOfFuel
  /\ forall e' log',
       award_entity_xp iv_draws e xp_gain log provider = Ok (e', log') ->
       level e' <= 100
       /\ (level e' < 100 -> xp e' < entity_xp_required (level e' + 1)).
Proof.
  split.
  - unfold award_entity_xp.
    destruct (100 <=? level (ensure_full_ivs_evs iv_draws e)); [discriminate |].
    apply level_up_loop_fuel. simpl. lia.
  - intros e' log' H. unfold award_entity_xp in H.
    destruct (100 <=? level (ensure_full_ivs_evs iv_draws e)) eqn:Hl.
    + inversion H; subst. simpl. lia.
    + apply Z.leb_gt in Hl. apply level_up_loop_ok in H as (_ & H2 & H3).
      simpl in *. lia.
Qed.

(** X3. Below level 100 an award neither loses nor creates xp: the xp
    held before plus the gain is the xp left plus the thresholds of the
    levels gained, one level-up line is logged per level gained, in
    order, and the name, the template id, and the IVs and EVs (once
    filled) stay as they are. *)
Theorem award_entity_xp_accounting (iv_draws : Stats) (e : Entity) (xp_gain : Z)
    (log : list XpEvent) (provider : Entity -> option Stats) e' log' :
  level e < 100 ->
  award_entity_xp iv_draws e xp_gain log provider = Ok (e', log') ->
  level e <= level e'
  /\ xp e + xp_gain = xp e' + threshold_sum (level e) (level e')
  /\ log' = log ++ (LevelUp (name e) <$> seqZ (level e + 1) (level e' - level e))
  /\ name e' = name e /\ ent_id e' = ent_id e
  /\ ivs e' = setdefaults (ivs e) iv_draws
  /\ evs e' = setdefaults (evs e) zero_stats.
Proof.
  intros Hl H. rewrite award_entity_xp_below in H by exact Hl.
  apply level_up_loop_accounting in H. simpl in H. exact H.
Qed.

Lemma award_entity_xp_accounting_witness :
  exists e' log',
    award_entity_xp no_stats squire 3000 [] catalog_stats = Ok (e', log')
    /\ xp squire + 3000 = xp e' + threshold_sum (level squire) (level e')
    /\ level e' = 12 /\ xp e' = 306 /\ threshold_sum 10 12 = 2694
    /\ log' = [LevelUp "Squire" 11; LevelUp "Squire" 12].
Proof.
  destruct (award_entity_xp no_stats squire 3000 [] catalog_stats)
    as [[e' log'] | |] eqn:He; try (vm_compute in He; discriminate).
  exists e', log'. split; [reflexivity |].
  destruct (award_entity_xp_accounting no_stats squire 3000 [] catalog_stats e' log')
    as (_ & Hx & _); [simpl; lia | exact He |].
  split; [exact Hx |].
  vm_compute in He. inversion He; subst e' log'.
  repeat split; vm_compute; reflexivity.
Defined.

(** X4. On the levels of the game (0 to 100) the threshold computed on
    doubles is the integer part of [0.015 L^3 + 10 L^2], and it grows
    strictly with the level. *)
Theorem entity_xp_required_levels (L : Z) :
  0 <= L <= 100 ->
  entity_xp_required L = (15 * L ^ 3 + 10000 * L ^ 2) / 1000
  /\ entity_xp_required L < entity_xp_required (L + 1).
Proof.
  intros HL.
  assert (Hall : forallb (fun l =>
                   (entity_xp_required l =? (15 * l ^ 3 + 10000 * l ^ 2) / 1000)
                   && (entity_xp_required l <? entity_xp_required (l + 1)))
                   (seqZ 0 101) = true) by (vm_compute; reflexivity).
  rewrite forallb_forall in Hall.
  specialize (Hall L). rewrite andb_true_iff, Z.eqb_eq, Z.ltb_lt in Hall.
  apply Hall, list_elem_of_In, elem_of_seqZ. lia.
Qed.

Lemma entity_xp_required_levels_witness :
  entity_xp_required 99 = 112564 /\ entity_xp_required 99 < entity_xp_required 100.
Proof.
  destruct (entity_xp_required_levels 99) as [H1 H2]; [lia |].
  split; [rewrite H1; reflexivity | exact H2].
Defined.


(** ** Battles, continued *)

Section BattleProperties.
Context (B : Builtins).

Lemma with_current_hp_same (e : Entity) : with_current_hp e (current_hp e) = e.
Proof. now destruct e. Qed.

(** What a resolved move does to the defender. *)
Lemma resolve_move_shape (attacker defender : Entity) (chosen_move : PyVal)
    (roll : Z) (out : Outcome) (d' : Entity) :
  resolve_move B attacker defender chosen_move roll = Some (out, d') ->
  ((forall n dmg ty, out <> Hit n dmg ty) /\ d' = defender)
  \/ exists dmg ty,
       out = Hit (py_str chosen_move) dmg ty /\ 1 <= dmg
       /\ d' = with_current_hp defender (Z.max 0 (current_hp defender - dmg)).
Proof.
  unfold resolve_move. intros H.
  destruct (find_move B _ _) as [[md |] |]; [| | discriminate].
  - destruct (empty_dict md).
    { inversion H; subst. left. split; [discriminate | reflexivity]. }
    destruct (acc_val B md <? roll).
    { inversion H; subst. left. split; [discriminate | reflexivity]. }
    destruct (power_of B md) as [power |].
    + inversion H; subst. right. eexists _, _.
      split; [reflexivity |]. split; [apply damage_ge_1 | reflexivity].
    + inversion H; subst. left. split; [discriminate | reflexivity].
  - inversion H; subst. left. split; [discriminate | reflexivity].
Qed.

(** X5. A resolved move changes nothing of the defender but its current
    hp, which it never raises and never takes below 0; a move that is
    not a hit leaves the defender as it was, and a hit takes at least 1
    hp from a defender that stands. *)
Theorem resolve_move_defender (attacker defender : Entity) (chosen_move : PyVal)
    (roll : Z) (out : Outcome) (d' : Entity) :
  0 <= current_hp defender ->
  resolve_move B attacker defender chosen_move roll = Some (out, d') ->
  d' = with_current_hp defender (current_hp d')
  /\ 0 <= current_hp d' <= current_hp defender
  /\ ((forall n dmg ty, out <> Hit n dmg ty) -> d' = defender)
  /\ (forall n dmg ty, out = Hit n dmg ty ->
      1 <= dmg /\ current_hp d' = Z.max 0 (current_hp defender - dmg)
      /\ (0 < current_hp defender -> current_hp d' < current_hp defender)).
Proof.
  intros Hhp H.
  apply resolve_move_shape in H as [[Hno ->] | (dmg & ty & -> & Hd & ->)].
  - split; [now rewrite with_current_hp_same |].
    split; [lia |]. split; [reflexivity |].
    intros n dmg ty Hout. now destruct (Hno n dmg ty).
  - simpl. split; [reflexivity |]. split; [lia |].
    split; [intros Hno; now destruct (Hno (py_str chosen_move) dmg ty) |].
    intros n dmg' ty' Hout. inversion Hout; subst. repeat split; lia.
Qed.






End BattleProperties.


Lemma resolve_move_defender_witness :
  0 <= current_hp (with_current_hp golem 28) <= current_hp golem.
Proof.
  exact (proj1 (proj2 (resolve_move_defender ascii_builtins knight golem (PStr "slash") 37
                         (Hit "slash" 72 (PStr "Physical")) (with_current_hp golem 28)
                         ltac:(vm_compute; discriminate) eq_refl))).
Defined.

Lemma accuracy_100_never_misses_witness :
  resolve_move ascii_builtins knight golem (PStr "slash") 100
  <> Some (Missed "slash", golem).
Proof.
  apply (accuracy_100_never_misses ascii_builtins knight golem (PStr "slash") 100 slash);
    [reflexivity | reflexivity | lia].
Defined.



(** ** Built instances in battle *)

Section InstanceBattleProperties.
Context (B : Builtins).

(** The moveset entries [build_instance_from_template] makes. *)
Lemma move_of_skill_shape (s : Skill) (m : MoveEntry) :
  move_of_skill B s = Some m ->
  exists skill type power acc,
    sk_skill s = Some skill
    /\ m = MDict (mkMove None (Some skill) (Some type)
                    (Some (PInt power)) (Some (PInt acc)) None false).
Proof.
  unfold move_of_skill. intros H.
  destruct (sk_skill s) as [skill |]; simpl in H; [| discriminate].
  destruct (sk_type s) as [type |]; simpl in H; [| discriminate].
  destruct (sk_power s) as [pr |]; simpl in H; [| discriminate].
  destruct (int_if_digit B pr 0) as [power |]; simpl in H; [| discriminate].
  destruct (sk_acc s) as [ar |]; simpl in H; [| discriminate].
  destruct (int_if_digit B ar 100) as [acc |]; simpl in H; [| discriminate].
  inversion H. eauto 10.
Qed.

Lemma mapM_move_of_skill_named (skills : list Skill) :
  forall moves,
    mapM (move_of_skill B) skills = Some moves ->
    Forall (fun s => exists n, sk_skill s = Some (PStr n)) skills ->
    Forall (fun m => exists d n, m = MDict d /\ m_skill d = None
                                 /\ m_move d = Some (PStr n)) moves.
Proof.
  induction skills as [| s rest IH]; intros moves H Hn.
  - inversion H. constructor.
  - apply Forall_cons in Hn as [[n Hs] Hrest].
    rewrite mapM_Some in H. inversion H as [| ? m ? ms Hm Hms]; subst.
    constructor.
    + apply move_of_skill_shape in Hm as (skill & ty & pw & ac & Hsk & ->).
      rewrite Hs in Hsk. inversion Hsk; subst. eauto.
    + apply IH; [apply mapM_Some; exact Hms | exact Hrest].
Qed.

(** The moveset lookup finds every button label of a moveset whose
    dict entries carry their name as a string under ["move"] only. *)
Lemma find_move_button (ms : list MoveEntry) :
  Forall (fun m => exists d n, m = MDict d /\ m_skill d = None
                               /\ m_move d = Some (PStr n)) ms ->
  forall label,
    label ∈ filter (fun l => truthy l = true) (button_label <$> ms) ->
    exists d, find_move B ms (py_str label) = Some (Some d)
              /\ empty_dict d = false.
Proof.
  induction 1 as [| m rest (d & n & -> & Hsk & Hmv) Hrest IH]; intros label Hin.
  - simpl in Hin. inversion Hin.
  - assert (Hd : empty_dict d = false).
    { unfold empty_dict. rewrite Hmv. simpl. rewrite andb_false_r. reflexivity. }
    assert (Hbl : button_label (MDict d)
                  = if String.eqb n "" then PNone else PStr n).
    { unfold button_label, py_or. rewrite Hsk, Hmv. simpl.
      now destruct (String.eqb n ""). }
    assert (Hll : label_dict B d
                  = PStr (if String.eqb n "" then py_repr B d else n)).
    { unfold label_dict, py_or. rewrite Hsk, Hmv. simpl.
      now destruct (String.eqb n ""). }
    rewrite fmap_cons, Hbl in Hin. cbn [find_move]. rewrite Hll. cbn [lower_of].
    destruct (String.eqb n "") eqn:Hn.
    + destruct (String.eqb (py_lower B (py_repr B d)) (py_lower B (py_str label)));
        [eauto |].
      rewrite filter_cons_False in Hin by (simpl; discriminate).
      apply IH, Hin.
    + rewrite filter_cons_True in Hin by (simpl; now rewrite Hn).
      apply elem_of_cons in Hin as [-> | Hin].
      * simpl. rewrite String.eqb_refl. eauto.
      * destruct (String.eqb (py_lower B n) (py_lower B (py_str label))); [eauto |].
        apply IH, Hin.
Qed.

(** X9. For an instance built from a template whose skill names are
    strings, pressing any of its move buttons resolves a move of its
    moveset: the lookup does not raise and the move never "fails". *)
Theorem built_instance_buttons_resolve (d : Draws) (template : Template)
    (level : option Z) (is_hero : bool) (inst defender : Entity)
    (label : PyVal) (roll : Z) :
  build_instance_from_template B d template level is_hero = Some inst ->
  Forall (fun s => exists n, sk_skill s = Some (PStr n))
    (take 4 (default [] (t_skills template))) ->
  label ∈ move_buttons inst ->
  exists out d',
    resolve_move B inst defender label roll = Some (out, d')
    /\ forall n, out <> Failed n.
Proof.
  intros Hb Hn Hin. unfold build_instance_from_template in Hb.
  destruct (mapM _ _) as [moves |] eqn:Hm; simpl in Hb; [| discriminate].
  inversion Hb; subst inst; clear Hb.
  unfold move_buttons in Hin. simpl in Hin.
  apply (find_move_button moves (mapM_move_of_skill_named _ _ Hm Hn)) in Hin
    as (md & Hf & He).
  unfold resolve_move. simpl. rewrite Hf, He.
  destruct (acc_val B md <? roll); [eexists _, _; split; [reflexivity | discriminate] |].
  destruct (power_of B md);
    eexists _, _; (split; [reflexivity | discriminate]).
Qed.

(** X10. An enemy built from a template without skills has the empty
    moveset, from which [random.choice] cannot pick: every turn against
    it raises. *)
Theorem skillless_enemy_turn_raises (d : Draws) (template : Template)
    (level : option Z) (is_hero : bool) (foe hero : Entity)
    (move_name : string) (enemy_pick coin : nat) (roll1 roll2 : Z) :
  default [] (t_skills template) = [] ->
  build_instance_from_template B d template level is_hero = Some foe ->
  moveset foe = Some []
  /\ move_buttons foe = []
  /\ process_turn B (mkBattle hero foe) move_name enemy_pick coin roll1 roll2 = None.
Proof.
  intros Hs Hb. unfold build_instance_from_template in Hb. rewrite Hs in Hb.
  simpl in Hb. inversion Hb; subst foe.
  split; [reflexivity |]. split; [reflexivity |].
  unfold process_turn. simpl. reflexivity.
Qed.

End InstanceBattleProperties.

Lemma built_instance_buttons_resolve_witness :
  exists inst out d',
    build_instance_from_template ascii_builtins lucky_draws aiden None false = Some inst
    /\ move_buttons inst = [PStr "Slash"]
    /\ resolve_move ascii_builtins inst golem (PStr "Slash") 50 = Some (out, d')
    /\ forall n, out <> Failed n.
Proof.
  destruct (build_instance_from_template ascii_builtins lucky_draws aiden None false)
    as [inst |] eqn:Hb; [| vm_compute in Hb; discriminate].
  destruct (built_instance_buttons_resolve ascii_builtins lucky_draws aiden None false
              inst golem (PStr "Slash") 50 Hb) as (out & d' & Hr & Hno).
  - repeat constructor. simpl. eauto.
  - vm_compute in Hb. inversion Hb. vm_compute. apply list_elem_of_singleton. reflexivity.
  - exists inst, out, d'. split; [reflexivity |].
    split; [vm_compute in Hb; inversion Hb; reflexivity |].
    split; assumption.
Defined.

Lemma skillless_enemy_turn_raises_witness :
  exists foe,
    build_instance_from_template ascii_builtins lucky_draws hollow None false = Some foe
    /\ process_turn ascii_builtins (mkBattle knight foe) "Slash" 0 0 50 50 = None.
Proof.
  eexists. split; [reflexivity |].
  apply (skillless_enemy_turn_raises ascii_builtins lucky_draws hollow None false
           _ knight "Slash" 0 0 50 50 eq_refl eq_refl).
Defined.


(** ** Bags *)

Section DictProperties.
Context {V : Type}.
Implicit Types d : list (string * V).

Lemma dict_get_set_eq d (k : string) (v : V) : dict_get (dict_set d k v) k = Some v.
Proof.
  induction d as [| [k' v'] d IH]; simpl.
  - now rewrite String.eqb_refl.
  - destruct (String.eqb k' k) eqn:E; simpl; rewrite E; [reflexivity | exact IH].
Qed.

Lemma dict_get_set_ne d (k k' : string) (v : V) :
  k <> k' -> dict_get (dict_set d k v) k' = dict_get d k'.
Proof.
  intros Hne. induction d as [| [k0 v0] d IH]; simpl.
  - destruct (String.eqb k k') eqn:E; [apply String.eqb_eq in E; contradiction |].
    reflexivity.
  - destruct (String.eqb k0 k) eqn:E; simpl.
    + apply String.eqb_eq in E. subst k0.
      destruct (String.eqb k k') eqn:E2; [apply String.eqb_eq in E2; contradiction |].
      reflexivity.
    + destruct (String.eqb k0 k'); [reflexivity | exact IH].
Qed.

Lemma dict_get_del_ne d (k k' : string) :
  k <> k' -> dict_get (dict_del d k) k' = dict_get d k'.
Proof.
  intros Hne. induction d as [| [k0 v0] d IH]; simpl; [reflexivity |].
  destruct (String.eqb k0 k) eqn:E; simpl.
  - apply String.eqb_eq in E. subst k0.
    destruct (String.eqb k k') eqn:E2; [apply String.eqb_eq in E2; contradiction |].
    reflexivity.
  - destruct (String.eqb k0 k'); [reflexivity | exact IH].
Qed.

Lemma dict_get_absent d (k : string) : k ∉ d.*1 -> dict_get d k = None.
Proof.
  induction d as [| [k0 v0] d IH]; simpl; intros Hk; [reflexivity |].
  apply not_elem_of_cons in Hk as [Hne Hk].
  destruct (String.eqb k0 k) eqn:E; [apply String.eqb_eq in E; congruence |].
  apply IH, Hk.
Qed.

(** The keys of a Python dict are distinct. *)
Lemma dict_get_del_eq d (k : string) : NoDup d.*1 -> dict_get (dict_del d k) k = None.
Proof.
  induction d as [| [k0 v0] d IH]; simpl; intros Hnd; [reflexivity |].
  apply NoDup_cons in Hnd as [Hk0 Hnd].
  destruct (String.eqb k0 k) eqn:E; simpl.
  - apply String.eqb_eq in E. subst k0. apply dict_get_absent, Hk0.
  - rewrite E. apply IH, Hnd.
Qed.

Lemma dict_get_lookup d (i : nat) (k : string) (v : V) :
  NoDup d.*1 -> d !! i = Some (k, v) -> dict_get d k = Some v.
Proof.
  revert i. induction d as [| [k0 v0] d IH]; intros i Hnd Hi; [inversion Hi |].
  apply NoDup_cons in Hnd as [Hk0 Hnd]. simpl.
  destruct i as [| i]; simpl in Hi.
  - inversion Hi; subst. now rewrite String.eqb_refl.
  - destruct (String.eqb k0 k) eqn:E.
    + apply String.eqb_eq in E. subst k0. exfalso. apply Hk0.
      apply list_elem_of_fmap. exists (k, v). split; [reflexivity |].
      eapply list_elem_of_lookup_2; exact Hi.
    + eapply IH; eassumption.
Qed.

End DictProperties.

(** ** The party *)

Section PartyProperties.
Context (B : Builtins).

Lemma with_active_team_same (p : Player) : with_active_team p (active_team p) = p.
Proof. now destruct p. Qed.

(** X11. An accepted [/move] exchanges the two slots and leaves every
    other slot, the length of the party and the barracks as they were;
    the same command again is accepted too and restores the record. *)
Theorem move_swaps_slots (p p' : Player) (from_slot to_slot : Z) :
  move p from_slot to_slot = Some (p', Accepted) ->
  let i := Z.to_nat (from_slot - 1) in
  let j := Z.to_nat (to_slot - 1) in
  1 <= from_slot <= Z.of_nat (length (active_team p))
  /\ 1 <= to_slot <= Z.of_nat (length (active_team p))
  /\ length (active_team p') = length (active_team p)
  /\ active_team p' !! i = active_team p !! j
  /\ active_team p' !! j = active_team p !! i
  /\ (forall k, k <> i -> k <> j -> active_team p' !! k = active_team p !! k)
  /\ pc p' = pc p
  /\ move p' from_slot to_slot = Some (p, Accepted).
Proof.
  intros H i j. unfold move in H.
  destruct (active_team p) as [| t0 ts] eqn:Ht; [inversion H |].
  rewrite <- Ht in *.
  destruct ((from_slot <? 1) || (Z.of_nat (length (active_team p)) <? from_slot)
            || (to_slot <? 1) || (Z.of_nat (length (active_team p)) <? to_slot)) eqn:Hr;
    [inversion H |].
  fold i j in H.
  destruct (active_team p !! i) as [a |] eqn:Ha; simpl in H; [| discriminate].
  destruct (active_team p !! j) as [b |] eqn:Hb; simpl in H; [| discriminate].
  destruct (String.eqb a "" || String.eqb b "") eqn:He; [inversion H |].
  destruct (from_option locked false
              (snd <$> list_find (fun h => unique_id h = a) (pc p))
            || from_option locked false
                 (snd <$> list_find (fun h => unique_id h = b) (pc p))) eqn:Hl;
    [inversion H |].
  inversion H; subst p'; clear H.
  assert (Hi : (i < length (active_team p))%nat) by (eapply lookup_lt_Some; exact Ha).
  assert (Hj : (j < length (active_team p))%nat) by (eapply lookup_lt_Some; exact Hb).
  assert (Hij : active_team (with_active_team p (<[j := a]> (<[i := b]> (active_team p))))
                = <[j := a]> (<[i := b]> (active_team p))) by reflexivity.
  split; [lia |]. split; [lia |].
  split; [rewrite Hij, !length_insert; reflexivity |].
  split.
  { rewrite Hij. destruct (decide (i = j)) as [Heq | Hne].
    - rewrite <- Heq. rewrite list_lookup_insert_eq by (rewrite length_insert; exact Hi).
      rewrite Heq in Ha. congruence.
    - rewrite list_lookup_insert_ne by congruence.
      rewrite list_lookup_insert_eq by exact Hi. congruence. }
  split.
  { rewrite Hij. rewrite list_lookup_insert_eq by (rewrite length_insert; exact Hj).
    congruence. }
  split.
  { intros k Hki Hkj. rewrite Hij. rewrite !list_lookup_insert_ne by congruence.
    reflexivity. }
  split; [reflexivity |].
  assert (Hlen : length (<[j := a]> (<[i := b]> (active_team p)))
                 = length (active_team p)) by (rewrite !length_insert; reflexivity).
  assert (Hi' : <[j := a]> (<[i := b]> (active_team p)) !! i = Some b).
  { destruct (decide (i = j)) as [Heq | Hne].
    - rewrite <- Heq. rewrite list_lookup_insert_eq by (rewrite length_insert; exact Hi).
      rewrite Heq in Ha. congruence.
    - rewrite list_lookup_insert_ne by congruence.
      rewrite list_lookup_insert_eq by exact Hi. reflexivity. }
  assert (Hj' : <[j := a]> (<[i := b]> (active_team p)) !! j = Some a).
  { rewrite list_lookup_insert_eq by (rewrite length_insert; exact Hj). reflexivity. }
  assert (Hback : <[j := b]> (<[i := a]> (<[j := a]> (<[i := b]> (active_team p))))
                  = active_team p).
  { apply list_eq. intros k.
    destruct (decide (k = j)) as [-> | Hkj].
    - rewrite list_lookup_insert_eq by (rewrite !length_insert; exact Hj). congruence.
    - rewrite list_lookup_insert_ne by congruence.
      destruct (decide (k = i)) as [-> | Hki].
      + rewrite list_lookup_insert_eq by (rewrite !length_insert; exact Hi). congruence.
      + rewrite !list_lookup_insert_ne by congruence. reflexivity. }
  unfold move. rewrite Hij. cbn [pc with_active_team].
  remember (<[j := a]> (<[i := b]> (active_team p))) as team' eqn:Hteam'.
  destruct team' as [| t1 ts1] eqn:Ht'.
  { rewrite Ht in Hlen. simpl in Hlen. lia. }
  rewrite <- Ht'. rewrite <- Ht' in Hlen, Hi', Hj', Hback.
  rewrite Hlen, Hr. fold i j. rewrite Hi', Hj'. simpl.
  rewrite (orb_comm (String.eqb b "")), He.
  rewrite (orb_comm (from_option locked false
                       (snd <$> list_find (fun h => unique_id h = b) (pc p)))), Hl.
  rewrite Hback. f_equal. f_equal. destruct p; reflexivity.
Qed.

(** X12. [/partyadd] keeps the party within six heroes, without
    repeated ids and made of heroes of the barracks, and never touches
    the barracks; when it accepts, the party gains the id of one hero of
    the barracks at its end. *)
Theorem partyadd_keeps_party_sound (p p' : Player) (id : string) (r : Reply) :
  partyadd B p id = (p', r) ->
  ((length (active_team p) <= 6)%nat -> (length (active_team p') <= 6)%nat)
  /\ (NoDup (active_team p) -> NoDup (active_team p'))
  /\ ((forall u, u ∈ active_team p -> exists h, h ∈ pc p /\ unique_id h = u) ->
      forall u, u ∈ active_team p' -> exists h, h ∈ pc p' /\ unique_id h = u)
  /\ pc p' = pc p
  /\ (r = Accepted ->
      exists h, h ∈ pc p /\ (unique_id h ∉ active_team p)
                /\ active_team p' = active_team p ++ [unique_id h])
  /\ (r <> Accepted -> p' = p).
Proof.
  intros H. unfold partyadd in H.
  assert (Hsame : forall why, (p, Rejected why) = (p', r) ->
    ((length (active_team p) <= 6)%nat -> (length (active_team p') <= 6)%nat)
    /\ (NoDup (active_team p) -> NoDup (active_team p'))
    /\ ((forall u, u ∈ active_team p -> exists h, h ∈ pc p /\ unique_id h = u) ->
        forall u, u ∈ active_team p' -> exists h, h ∈ pc p' /\ unique_id h = u)
    /\ pc p' = pc p
    /\ (r = Accepted ->
        exists h, h ∈ pc p /\ (unique_id h ∉ active_team p)
                  /\ active_team p' = active_team p ++ [unique_id h])
    /\ (r <> Accepted -> p' = p)).
  { intros why Heq. inversion Heq; subst. repeat split; auto. discriminate. }
  destruct (pc p) as [| h0 hs] eqn:Hpc; [eapply Hsame; exact H |].
  rewrite <- Hpc in *.
  destruct (list_find _ (pc p)) as [[i hero] |] eqn:Hf; [| eapply Hsame; exact H].
  destruct (bool_decide (unique_id hero ∈ active_team p)) eqn:Hin;
    [eapply Hsame; exact H |].
  destruct (6 <=? Z.of_nat (length (active_team p))) eqn:Hfull;
    [eapply Hsame; exact H |].
  inversion H; subst p' r; clear H Hsame.
  apply bool_decide_eq_false in Hin. apply Z.leb_gt in Hfull.
  apply list_find_Some in Hf as (Hi & _ & _).
  assert (Hhero : hero ∈ pc p) by (eapply list_elem_of_lookup_2; exact Hi).
  cbn [active_team pc with_active_team].
  split; [intros _; rewrite length_app; simpl; lia |].
  split.
  { intros Hnd. apply NoDup_app. split; [exact Hnd |].
    split; [| apply NoDup_singleton].
    intros x Hx Hx'. apply list_elem_of_singleton in Hx'. subst x. contradiction. }
  split.
  { intros Hall u Hu. apply elem_of_app in Hu as [Hu | Hu]; [apply Hall, Hu |].
    apply list_elem_of_singleton in Hu. subst u. eauto. }
  split; [reflexivity |].
  split; [intros _; eauto |].
  intros Hr. now destruct Hr.
Qed.

(** X13. An accepted [/heal] brings every hero of the party that was
    below its maximum hp to the maximum, fainted ones included, and
    changes no other hero, nor the party, nor the coins; a refused one
    changes nothing. *)
Theorem heal_restores_party (p p' : Player) (r : Reply) :
  heal B p = (p', r) ->
  (r <> Accepted -> p' = p)
  /\ (r = Accepted ->
      active_team p' = active_team p /\ coins p' = coins p
      /\ length (pc p') = length (pc p)
      /\ (exists h, h ∈ pc p /\ unique_id h ∈ active_team p
                    /\ current_hp h < hp (stats h))
      /\ forall i h, pc p !! i = Some h ->
           pc p' !! i =
           Some (if bool_decide (unique_id h ∈ active_team p)
                 then with_current_hp h (Z.max (current_hp h) (hp (stats h)))
                 else h)).
Proof.
  intros H. unfold heal in H.
  destruct (active_team p) as [| t0 ts] eqn:Ht.
  { inversion H; subst. split; [reflexivity | discriminate]. }
  rewrite <- Ht in *.
  destruct (lowered_get B (bag p) "potion" <=? 0).
  { inversion H; subst. split; [reflexivity | discriminate]. }
  destruct (filter _ (pc p)) as [| h0 hs] eqn:Hf.
  { inversion H; subst. split; [reflexivity | discriminate]. }
  inversion H; subst p' r; clear H.
  split; [intros Hr; now destruct Hr |]. intros _.
  cbn [active_team coins pc with_pc with_bag].
  split; [reflexivity |]. split; [reflexivity |].
  split; [apply length_fmap |].
  split.
  { assert (Hin : h0 ∈ filter (fun h => needs_healing (active_team p) h = true) (pc p))
      by (rewrite Hf; left).
    apply list_elem_of_filter in Hin as [Hn Hin]. exists h0.
    unfold needs_healing in Hn. apply andb_true_iff in Hn as [Hteam Hhp].
    apply bool_decide_eq_true in Hteam. apply Z.ltb_lt in Hhp. auto. }
  intros i h Hi. rewrite list_lookup_fmap, Hi. simpl. f_equal.
  unfold needs_healing. destruct (bool_decide (unique_id h ∈ active_team p)); simpl;
    [| reflexivity].
  destruct (current_hp h <? hp (stats h)) eqn:Hlt.
  - apply Z.ltb_lt in Hlt. now rewrite Z.max_r by lia.
  - apply Z.ltb_ge in Hlt. rewrite Z.max_l by lia. now rewrite with_current_hp_same.
Qed.

End PartyProperties.

Lemma move_swaps_slots_witness :
  exists p',
    move captain 1 2 = Some (p', Accepted)
    /\ active_team p' = ["h2page"; "h0squire"]
    /\ move p' 1 2 = Some (captain, Accepted).
Proof.
  eexists. split; [reflexivity |]. split; [reflexivity |].
  apply (move_swaps_slots captain _ 1 2 eq_refl).
Defined.

Lemma partyadd_keeps_party_sound_witness :
  exists p',
    partyadd ascii_builtins captain "H1" = (p', Accepted)
    /\ active_team p' = ["h0squire"; "h2page"; "h1treasured"]
    /\ (length (active_team p') <= 6)%nat.
Proof.
  eexists. split; [reflexivity |]. split; [reflexivity |].
  apply (proj1 (partyadd_keeps_party_sound ascii_builtins captain _ "H1" Accepted eq_refl)).
  simpl. lia.
Defined.

Lemma heal_restores_party_witness :
  exists p',
    heal ascii_builtins medic = (p', Accepted)
    /\ pc p' !! 0%nat = Some (with_current_hp page 30)
    /\ pc p' !! 1%nat = Some treasured.
Proof.
  eexists. split; [reflexivity |].
  destruct (proj2 (heal_restores_party ascii_builtins medic _ Accepted eq_refl) eq_refl)
    as (_ & _ & _ & _ & Hpc).
  split; [exact (Hpc 0%nat page eq_refl) | exact (Hpc 1%nat treasured eq_refl)].
Defined.


(** ** Locked heroes in the party *)

Section LockProperties.
Context (B : Builtins).

Lemma elixir_hero_lookup (p : Player) (identifier : string) (i : nat) (h : Entity) :
  elixir_hero B p identifier = Some (Some (i, h)) -> pc p !! i = Some h.
Proof.
  unfold elixir_hero. intros H.
  destruct (py_isdigit B identifier).
  - destruct (py_int B identifier) as [slot |]; simpl in H; [| discriminate].
    destruct ((1 <=? slot) && (slot <=? Z.of_nat (length (active_team p))));
      [| discriminate].
    inversion H as [H']; clear H.
    destruct (active_team p !! Z.to_nat (slot - 1)) as [id |]; simpl in H';
      [| discriminate].
    apply list_find_Some in H' as (Hl & _). exact Hl.
  - inversion H as [H']; clear H.
    apply list_find_Some in H' as (Hl & _). exact Hl.
Qed.

Lemma same_id_same_hero (l : list Entity) (x y : Entity) :
  NoDup (map unique_id l) -> x ∈ l -> y ∈ l -> unique_id x = unique_id y -> x = y.
Proof.
  intros Hnd Hx Hy Heq.
  apply list_elem_of_lookup in Hx as [i Hi].
  apply list_elem_of_lookup in Hy as [j Hj].
  assert (i = j); [| congruence].
  apply (NoDup_lookup (map unique_id l) i j (unique_id x) Hnd).
  - change (map unique_id l) with (unique_id <$> l).
    now rewrite list_lookup_fmap, Hi.
  - change (map unique_id l) with (unique_id <$> l).
    rewrite list_lookup_fmap, Hj. simpl. congruence.
Qed.

Lemma find_by_id_locked (l : list Entity) (h : Entity) :
  NoDup (map unique_id l) -> h ∈ l -> locked h = true ->
  from_option locked false
    (snd <$> list_find (fun x => unique_id x = unique_id h) l) = true.
Proof.
  intros Hnd Hin Hl.
  destruct (list_find_elem_of (fun x => unique_id x = unique_id h) l h Hin eq_refl)
    as [[j x] Hf].
  rewrite Hf. simpl. apply list_find_Some in Hf as (Hj & Hid & _).
  assert (x = h); [| congruence].
  eapply same_id_same_hero; [exact Hnd | | exact Hin | exact Hid].
  eapply list_elem_of_lookup_2; exact Hj.
Qed.

(** X14. After an accepted [/lock] (on a barracks with distinct hero
    ids) the hero it named carries the flag, nothing else of the record
    changed, no [/partyremove] takes that hero out of the party, and
    every [/move] that names its slot is refused without effect. *)
Theorem lock_keeps_hero_in_party (p p1 : Player) (identifier : string) :
  NoDup (map unique_id (pc p)) ->
  lock B p identifier = Some (p1, Accepted) ->
  exists i h,
    pc p !! i = Some h
    /\ pc p1 !! i = Some (with_locked h true)
    /\ (forall j, j <> i -> pc p1 !! j = pc p !! j)
    /\ active_team p1 = active_team p /\ bag p1 = bag p /\ coins p1 = coins p
    /\ (forall ident2 p2 r,
          partyremove B p1 ident2 = Some (p2, r) ->
          unique_id h ∈ active_team p1 -> unique_id h ∈ active_team p2)
    /\ (forall from_slot to_slot p2 r,
          move p1 from_slot to_slot = Some (p2, r) ->
          active_team p1 !! Z.to_nat (from_slot - 1) = Some (unique_id h)
          \/ active_team p1 !! Z.to_nat (to_slot - 1) = Some (unique_id h) ->
          r <> Accepted /\ p2 = p1).
Proof.
  intros Hnd H. unfold lock in H.
  destruct (pc p) as [| h0 hs] eqn:Hpc; [inversion H |].
  rewrite <- Hpc in *.
  destruct (elixir_hero B p identifier) as [[[i h] |] |] eqn:He; simpl in H;
    [| inversion H | discriminate].
  inversion H; subst p1; clear H.
  apply elixir_hero_lookup in He.
  assert (Hi : (i < length (pc p))%nat) by (eapply lookup_lt_Some; exact He).
  assert (Hpc1 : pc (with_pc p (<[i := with_locked h true]> (pc p)))
                 = <[i := with_locked h true]> (pc p)) by reflexivity.
  assert (Hnd1 : NoDup (map unique_id (<[i := with_locked h true]> (pc p)))).
  { change (map unique_id (<[i := with_locked h true]> (pc p)))
      with (unique_id <$> <[i := with_locked h true]> (pc p)).
    rewrite list_fmap_insert. simpl. rewrite list_insert_id; [exact Hnd |].
    now rewrite list_lookup_fmap, He. }
  assert (Hin : with_locked h true ∈ <[i := with_locked h true]> (pc p)).
  { eapply list_elem_of_lookup_2. apply list_lookup_insert_eq. exact Hi. }
  exists i, h. rewrite Hpc1.
  split; [exact He |].
  split; [apply list_lookup_insert_eq; exact Hi |].
  split; [intros j Hj; apply list_lookup_insert_ne; congruence |].
  split; [reflexivity |]. split; [reflexivity |]. split; [reflexivity |].
  split.
  - intros ident2 p2 r Hrem Hteam.
    destruct (partyremove_keeps_locked B
                (with_pc p (<[i := with_locked h true]> (pc p))) p2 ident2 r
                Hnd1 Hrem) as [_ Hkeep].
    apply (Hkeep (with_locked h true)); [exact Hin | reflexivity | exact Hteam].
  - intros from_slot to_slot p2 r Hmove Hslot.
    pose proof (find_by_id_locked _ _ Hnd1 Hin eq_refl) as Hfound.
    change (unique_id (with_locked h true)) with (unique_id h) in Hfound.
    unfold move in Hmove. rewrite Hpc1 in Hmove.
    cbn [active_team with_pc] in Hmove, Hslot.
    destruct (active_team p) as [| t0 ts] eqn:Ht;
      [inversion Hmove; split; [discriminate | reflexivity] |].
    rewrite <- Ht in *.
    destruct ((from_slot <? 1) || _ || _ || _);
      [inversion Hmove; split; [discriminate | reflexivity] |].
    destruct (active_team p !! Z.to_nat (from_slot - 1)) as [a |] eqn:Ha;
      simpl in Hmove; [| discriminate].
    destruct (active_team p !! Z.to_nat (to_slot - 1)) as [b |] eqn:Hb;
      simpl in Hmove; [| discriminate].
    destruct (String.eqb a "" || String.eqb b "");
      [inversion Hmove; split; [discriminate | reflexivity] |].
    destruct (from_option locked false _ || from_option locked false _) eqn:Hl;
      [inversion Hmove; split; [discriminate | reflexivity] |].
    exfalso. apply orb_false_iff in Hl as [Hla Hlb].
    destruct Hslot as [Hs | Hs]; inversion Hs; subst; congruence.
Qed.

End LockProperties.

Lemma lock_keeps_hero_in_party_witness :
  exists p1,
    lock ascii_builtins captain "2" = Some (p1, Accepted)
    /\ (exists i h, pc captain !! i = Some h /\ pc p1 !! i = Some (with_locked h true))
    /\ partyremove ascii_builtins p1 "2"
       = Some (p1, Rejected "locked and cannot be removed from your party.").
Proof.
  eexists. split; [reflexivity |].
  destruct (lock_keeps_hero_in_party ascii_builtins captain
              (with_pc captain (<[2%nat := with_locked page true]> (pc captain))) "2")
    as (i & h & Hh & Hh1 & _).
  - apply (bool_decide_unpack _). vm_compute. exact I.
  - reflexivity.
  - split; [exists i, h; split; [exact Hh | exact Hh1] | reflexivity].
Defined.


(** ** Shop and sales *)

Section ShopProperties.
Context (B : Builtins).
Context (CONSUMABLES KEYS : gmap string ShopItem).
Context (all_items : list Material).

(** X15. An accepted [/purchase] takes exactly price times amount from
    the coins, never leaves a negative balance, adds the amount to the
    bag under the item's catalog name and changes no other count and no
    hero. *)
Theorem purchase_accounting (p p' : Player) (name : string) (amount : Z) :
  purchase B CONSUMABLES KEYS p name amount = (p', Accepted) ->
  exists item,
    (CONSUMABLES !! py_lower B name = Some item
     \/ (CONSUMABLES !! py_lower B name = None /\ KEYS !! py_lower B name = Some item))
    /\ coins p' = coins p - item_price item * amount
    /\ 0 <= coins p'
    /\ dict_get (bag p') (item_name item)
       = Some (default 0 (dict_get (bag p) (item_name item)) + amount)
    /\ (forall k, k <> item_name item -> dict_get (bag p') k = dict_get (bag p) k)
    /\ pc p' = pc p /\ active_team p' = active_team p.
Proof.
  unfold purchase. intros H.
  assert (Hgen : forall item,
    (if coins p <? item_price item * amount
     then (p, Rejected "You need more coins.")
     else (with_bag (with_coins p (coins p - item_price item * amount))
             (dict_add (bag p) (item_name item) amount), Accepted)) = (p', Accepted) ->
    coins p' = coins p - item_price item * amount
    /\ 0 <= coins p'
    /\ dict_get (bag p') (item_name item)
       = Some (default 0 (dict_get (bag p) (item_name item)) + amount)
    /\ (forall k, k <> item_name item -> dict_get (bag p') k = dict_get (bag p) k)
    /\ pc p' = pc p /\ active_team p' = active_team p).
  { intros item Hi.
    destruct (coins p <? item_price item * amount) eqn:Hc; [inversion Hi |].
    apply Z.ltb_ge in Hc. inversion Hi; subst p'; clear Hi. simpl.
    split; [reflexivity |]. split; [lia |].
    split; [apply dict_get_set_eq |].
    split; [intros k Hk; apply dict_get_set_ne; congruence |].
    split; reflexivity. }
  destruct (CONSUMABLES !! py_lower B name) as [item |] eqn:Hc.
  - exists item. split; [now left | apply Hgen, H].
  - destruct (KEYS !! py_lower B name) as [item |] eqn:Hk; [| inversion H].
    exists item. split; [right; auto | apply Hgen, H].
Qed.

Lemma sale_fold_unsellable (l : list (string * Z)) (acc : Z) :
  Forall (fun kv => sale_price B all_items kv.1 = None) l ->
  foldl (fun total kv =>
           match sale_price B all_items kv.1 with
           | Some price => total + kv.2 * price
           | None => total
           end) acc l = acc.
Proof.
  revert acc. induction l as [| kv l IH]; intros acc Hall; [reflexivity |].
  apply Forall_cons in Hall as [Hkv Hall]. simpl. rewrite Hkv. apply IH, Hall.
Qed.

Lemma with_bag_same (p : Player) : with_bag p (bag p) = p.
Proof. now destruct p. Qed.

(** X16. [/sellall] leaves in the bag exactly the entries that have no
    price, in their order, never lowers the coins and never touches the
    heroes; run a second time it changes nothing. *)
Theorem sellall_sells_once (p p' : Player) (r : Reply) :
  sellall B all_items p = (p', r) ->
  bag p' = filter (fun kv => sale_price B all_items kv.1 = None) (bag p)
  /\ coins p <= coins p'
  /\ pc p' = pc p /\ active_team p' = active_team p
  /\ (sellall B all_items p').1 = p'.
Proof.
  unfold sellall at 1. intros H.
  destruct (bag p) as [| kv0 rest] eqn:Hbag.
  { inversion H; subst p' r. rewrite Hbag. repeat split; try reflexivity; try lia.
    unfold sellall. now rewrite Hbag. }
  rewrite <- Hbag in *.
  set (total := foldl _ 0 (bag p)) in H.
  set (bag' := filter (fun kv => sale_price B all_items kv.1 = None) (bag p)) in *.
  assert (Hbag' : bag p' = bag')
    by (destruct (0 <? total); inversion H; reflexivity).
  split; [exact Hbag' |].
  split; [destruct (0 <? total) eqn:Ht; inversion H; simpl;
          [apply Z.ltb_lt in Ht; lia | lia] |].
  split; [destruct (0 <? total); inversion H; reflexivity |].
  split; [destruct (0 <? total); inversion H; reflexivity |].
  assert (Hall : Forall (fun kv => sale_price B all_items kv.1 = None) (bag p')).
  { rewrite Hbag'. apply Forall_forall. intros kv Hin.
    apply list_elem_of_filter in Hin as [Hn _]. exact Hn. }
  assert (Hf : filter (fun kv => sale_price B all_items kv.1 = None) (bag p') = bag p').
  { clear -Hall. induction Hall as [| kv l Hkv Hall IH]; [reflexivity |].
    rewrite filter_cons_True by exact Hkv. now rewrite IH. }
  clear H Hbag'. unfold sellall.
  destruct (bag p') as [| kv1 rest1] eqn:Hb'; [reflexivity |].
  rewrite <- Hb' in Hall, Hf. rewrite <- Hb'.
  rewrite (sale_fold_unsellable (bag p') 0 Hall). simpl.
  rewrite Hf. apply with_bag_same.
Qed.

End ShopProperties.

Lemma purchase_accounting_witness :
  exists p',
    purchase ascii_builtins general_store key_store miner "POTION" 1 = (p', Accepted)
    /\ coins p' = 0 /\ dict_get (bag p') "Potion" = Some 2.
Proof.
  eexists. split; [reflexivity |].
  destruct (purchase_accounting ascii_builtins general_store key_store miner _
              "POTION" 1 eq_refl) as (item & _ & Hc & _).
  split; reflexivity.
Defined.

Lemma sellall_sells_once_witness :
  exists p',
    sellall ascii_builtins ores miner = (p', Accepted)
    /\ bag p' = [("Potion", 1); ("Old Coin", 2)] /\ coins p' = 220
    /\ (sellall ascii_builtins ores p').1 = p'.
Proof.
  eexists. split; [reflexivity |]. split; [reflexivity |]. split; [reflexivity |].
  apply (sellall_sells_once ascii_builtins ores miner _ Accepted eq_refl).
Defined.


(** ** The auction house *)

Section AuctionProperties.
Context (B : Builtins).

(** X17. In an accepted [/ahbuy] from a registered seller the coins the
    buyer pays are the coins the seller receives: the sum of all
    balances is unchanged (also when a player buys from their own
    auction).  The buyer's bag gains the amount bought, the auction
    loses it and is closed when nothing is left; the other auctions and
    the coinflips are not touched. *)
Theorem ahbuy_settles (w w' : World) (user_id id : string) (amount : Z)
    (a : Auction) (buyer seller : Player) :
  players w !! user_id = Some buyer ->
  auctions w !! id = Some a ->
  players w !! au_seller a = Some seller ->
  ahbuy w user_id id amount = (w', Accepted) ->
  balances (players w') = balances (players w)
  /\ amount <= au_amount a /\ au_price a * amount <= coins buyer
  /\ (exists b',
        players w' !! user_id = Some b'
        /\ dict_get (bag b') (au_item a)
           = Some (default 0 (dict_get (bag buyer) (au_item a)) + amount)
        /\ coins b' = (if String.eqb user_id (au_seller a) then coins buyer
                       else coins buyer - au_price a * amount))
  /\ (user_id <> au_seller a ->
      players w' !! au_seller a
      = Some (with_coins seller (coins seller + au_price a * amount)))
  /\ auctions w' !! id
     = (if au_amount a - amount <=? 0 then None
        else Some (with_au_amount a (au_amount a - amount)))
  /\ (forall id', id' <> id -> auctions w' !! id' = auctions w !! id')
  /\ coinflips w' = coinflips w.
Proof.
  intros Hb Ha Hs H. unfold ahbuy in H. rewrite Hb, Ha in H.
  destruct (au_amount a <? amount) eqn:Hamt; [inversion H |].
  destruct (coins buyer <? au_price a * amount) eqn:Hcost; [inversion H |].
  apply Z.ltb_ge in Hamt, Hcost.
  assert (Hauc : forall m : gmap string Auction,
    m = (if au_amount a - amount <=? 0 then delete id (auctions w)
         else <[id := with_au_amount a (au_amount a - amount)]> (auctions w)) ->
    m !! id = (if au_amount a - amount <=? 0 then None
               else Some (with_au_amount a (au_amount a - amount)))
    /\ (forall id', id' <> id -> m !! id' = auctions w !! id')).
  { intros m ->. destruct (au_amount a - amount <=? 0).
    - split; [apply lookup_delete_eq |].
      intros id' Hne. apply lookup_delete_ne. congruence.
    - split; [apply lookup_insert_eq |].
      intros id' Hne. apply lookup_insert_ne. congruence. }
  destruct (decide (user_id = au_seller a)) as [Heq | Hne].
  - rewrite <- Heq in *. rewrite lookup_insert_eq in H.
    rewrite insert_insert_eq in H. rewrite lookup_insert_eq in H.
    rewrite insert_insert_eq in H.
    inversion H; subst w'; clear H. simpl.
    split.
    { unfold balances. rewrite (coin_sum_insert_over coins _ _ _ _ Hb). simpl. lia. }
    split; [lia |]. split; [lia |].
    split.
    { eexists. rewrite lookup_insert_eq. split; [reflexivity |]. simpl.
      split; [apply dict_get_set_eq |].
      rewrite String.eqb_refl. lia. }
    split; [intros Hc; now destruct Hc |].
    destruct (Hauc _ eq_refl) as [H1 H2]. auto.
  - rewrite lookup_insert_ne in H by exact Hne. rewrite Hs in H.
    rewrite lookup_insert_ne in H by congruence.
    rewrite lookup_insert_eq in H.
    inversion H; subst w'; clear H. simpl.
    split.
    { unfold balances.
      rewrite (coin_sum_insert_over coins _ _ _
                 (with_coins buyer (coins buyer - au_price a * amount)))
        by (rewrite lookup_insert_ne by congruence; apply lookup_insert_eq).
      rewrite (coin_sum_insert_over coins _ _ _ seller)
        by (rewrite lookup_insert_ne by exact Hne; exact Hs).
      rewrite (coin_sum_insert_over coins _ _ _ _ Hb). simpl. lia. }
    split; [lia |]. split; [lia |].
    split.
    { eexists. rewrite lookup_insert_eq. split; [reflexivity |]. simpl.
      split; [apply dict_get_set_eq |].
      apply String.eqb_neq in Hne. now rewrite Hne. }
    split.
    { intros _. rewrite lookup_insert_ne by exact Hne. apply lookup_insert_eq. }
    destruct (Hauc _ eq_refl) as [H1 H2]. auto.
Qed.

(** X18. Listing items with [/ahsell] and cancelling the auction with
    [/ahcancel] gives every count of the bag back (only the position of
    the key may change), closes the auction and changes nothing else of
    the seller. *)
Theorem ahsell_ahcancel_round_trip (w w1 : World) (user_id id : string)
    (amount price time : Z) (auc_id : string) (now : Z) (p : Player) :
  players w !! user_id = Some p ->
  NoDup (bag p).*1 ->
  ahsell B w user_id id amount price time auc_id now = (w1, Accepted) ->
  exists w2 p2,
    ahcancel w1 user_id auc_id = (w2, Accepted)
    /\ players w2 = <[user_id := p2]> (players w)
    /\ auctions w2 = delete auc_id (auctions w)
    /\ coinflips w2 = coinflips w
    /\ (forall k, dict_get (bag p2) k = dict_get (bag p) k)
    /\ coins p2 = coins p /\ pc p2 = pc p /\ active_team p2 = active_team p.
Proof.
  intros Hp Hnd H. unfold ahsell in H. rewrite Hp in H.
  destruct (negb (valid_duration time)); [inversion H |].
  destruct (list_find _ (bag p)) as [[i [mk have]] |] eqn:Hf; [| inversion H].
  destruct (have <? amount) eqn:Hlt; [inversion H |].
  apply Z.ltb_ge in Hlt.
  inversion H; subst w1; clear H.
  apply list_find_Some in Hf as (Hi & _ & _).
  pose proof (dict_get_lookup _ _ _ _ Hnd Hi) as Hget.
  unfold ahcancel. simpl. rewrite lookup_insert_eq. simpl.
  rewrite String.eqb_refl. simpl. rewrite lookup_insert_eq.
  eexists _, _. split; [reflexivity |]. simpl.
  split; [apply insert_insert_eq |].
  split; [apply delete_insert_eq |].
  split; [reflexivity |].
  split; [| repeat split].
  intros k. unfold dict_add. cbn [bag with_bag].
  destruct (decide (k = mk)) as [-> | Hne].
  - rewrite dict_get_set_eq, Hget. f_equal.
    destruct (have - amount <=? 0) eqn:Hz.
    + apply Z.leb_le in Hz. rewrite dict_get_del_eq by exact Hnd. simpl. lia.
    + rewrite dict_get_set_eq. simpl. lia.
  - rewrite dict_get_set_ne by congruence.
    destruct (have - amount <=? 0).
    + apply dict_get_del_ne. congruence.
    + apply dict_get_set_ne. congruence.
Qed.

End AuctionProperties.

Lemma ahbuy_settles_witness :
  exists w',
    ahbuy bazaar "bob" "A1" 2 = (w', Accepted)
    /\ balances (players w') = balances (players bazaar)
    /\ coins <$> players w' !! "bob" = Some 940
    /\ coins <$> players w' !! "alice" = Some 1060.
Proof.
  eexists. split; [reflexivity |].
  split; [| split; reflexivity].
  apply (ahbuy_settles bazaar _ "bob" "A1" 2
           (mkAuction "alice" "Potion" 5 30 1000) bob alice
           eq_refl eq_refl eq_refl eq_refl).
Defined.

Lemma ahsell_ahcancel_round_trip_witness :
  exists w1 w2 p2,
    ahsell ascii_builtins town "alice" "potion" 3 10 24 "A7" 0 = (w1, Accepted)
    /\ ahcancel w1 "alice" "A7" = (w2, Accepted)
    /\ players w2 !! "alice" = Some p2
    /\ dict_get (bag p2) "Potion" = Some 3.
Proof.
  destruct (ahsell_ahcancel_round_trip ascii_builtins town
              (ahsell ascii_builtins town "alice" "potion" 3 10 24 "A7" 0).1
              "alice" "potion" 3 10 24 "A7" 0 alice)
    as (w2 & p2 & Hc & Hp & _ & _ & Hb & _).
  - reflexivity.
  - apply (bool_decide_unpack _). vm_compute. exact I.
  - reflexivity.
  - eexists _, w2, p2. split; [reflexivity |]. split; [exact Hc |].
    split; [rewrite Hp; apply lookup_insert_eq |].
    rewrite Hb. reflexivity.
Defined.


(** ** Chests, recruitment and summoning *)

Section RecruitmentProperties.
Context (B : Builtins).

Lemma take_one_count (bag : list (string * Z)) (key : string) :
  NoDup bag.*1 -> 0 < default 0 (dict_get bag key) ->
  default 0 (dict_get (take_one bag key) key) = default 0 (dict_get bag key) - 1.
Proof.
  intros Hnd Hpos. unfold take_one.
  destruct (default 0 (dict_get bag key) - 1 <=? 0) eqn:Hz.
  - apply Z.leb_le in Hz. rewrite dict_get_del_eq by exact Hnd. simpl. lia.
  - now rewrite dict_get_set_eq.
Qed.

Lemma take_one_other (bag : list (string * Z)) (key k : string) :
  k <> key -> dict_get (take_one bag key) k = dict_get bag k.
Proof.
  intros Hne. unfold take_one.
  destruct (default 0 (dict_get bag key) - 1 <=? 0).
  - apply dict_get_del_ne. congruence.
  - apply dict_get_set_ne. congruence.
Qed.

(** X19. Opening a silver or gold chest takes one key and adds the coins
    and the potions that were drawn; a gold chest adds the drawn number
    of Ancient Contracts, but a silver chest adds no Great Contract: it
    writes the count it found back (creating the key with 0). *)
Theorem chest_rewards (p p' : Player) (key_type difficulty : string) (cd : ChestDraws) :
  NoDup (bag p).*1 ->
  key_type ∉ ["Great Contract"; "Ancient Contract"; "Potion"] ->
  difficulty ∈ ["silver"; "gold"] ->
  unlock_button p key_type difficulty cd = (p', Accepted) ->
  let count (q : Player) (k : string) := default 0 (dict_get (bag q) k) in
  count p' key_type = count p key_type - 1
  /\ coins p' = coins p + reward_coins cd
  /\ count p' "Potion" = count p "Potion" + potions cd
  /\ count p' "Great Contract" = count p "Great Contract"
  /\ count p' "Ancient Contract"
     = count p "Ancient Contract" + (if String.eqb difficulty "silver" then 0
                                     else contracts cd)
  /\ (difficulty = "silver" -> is_Some (dict_get (bag p') "Great Contract"))
  /\ pc p' = pc p /\ active_team p' = active_team p.
Proof.
  intros Hnd Hkey Hdiff H count. unfold unlock_button in H.
  destruct (default 0 (dict_get (bag p) key_type) <=? 0) eqn:Hk; [inversion H |].
  apply Z.leb_gt in Hk.
  rewrite bool_decide_eq_true_2 in H by exact Hdiff.
  inversion H; subst p'; clear H. unfold count. cbn [bag coins pc active_team with_bag with_coins].
  assert (Hk1 : key_type <> "Great Contract") by (intros ->; apply Hkey; left).
  assert (Hk2 : key_type <> "Ancient Contract")
    by (intros ->; apply Hkey; right; left).
  assert (Hk3 : key_type <> "Potion")
    by (intros ->; apply Hkey; right; right; left).
  pose proof (take_one_count (bag p) key_type Hnd Hk) as Hone.
  apply elem_of_cons in Hdiff as [-> | Hdiff];
    [| apply list_elem_of_singleton in Hdiff as ->]; simpl;
    repeat first [ rewrite dict_get_set_eq
                 | rewrite dict_get_set_ne by congruence ];
    rewrite ?(take_one_other _ _ "Potion"), ?(take_one_other _ _ "Great Contract"),
      ?(take_one_other _ _ "Ancient Contract") by congruence;
    simpl; repeat split; try lia; try exact Hone; try discriminate; eauto.
Qed.


(** X21. [/summon] spends the filled relic before it looks the hero up:
    when the catalog has no hero of that name the command ends with
    "hero data not found" and the relic is gone. *)
Theorem summon_spends_relic_first (heroes_db : list Template) (p : Player)
    (item hero_name : string) (d : Draws) :
  let key := py_lower B (py_strip B item) in
  NoDup (bag p).*1 ->
  0 < default 0 (dict_get (bag p) key) ->
  relic_hero B key = Some hero_name ->
  Forall (fun h => py_lower B (t_name h) <> py_lower B hero_name) heroes_db ->
  exists p',
    summon B heroes_db p item d = Some (p', Rejected "Hero data not found.", None)
    /\ default 0 (dict_get (bag p') key) = default 0 (dict_get (bag p) key) - 1
    /\ pc p' = pc p /\ coins p' = coins p.
Proof.
  intros key Hnd Hpos Hrel Hdb. unfold summon. fold key.
  rewrite (proj2 (Z.leb_gt _ _) Hpos), Hrel.
  assert (Hf : list_find (fun h => py_lower B (t_name h) = py_lower B hero_name)
                 heroes_db = None).
  { apply list_find_None. exact Hdb. }
  rewrite Hf. eexists. split; [reflexivity |]. simpl.
  split; [apply take_one_count; assumption |]. split; reflexivity.
Qed.

(** X22. A summoned instance gets its level (50 to 70) written after it
    was built: its stats and hp are those of the template's own level
    (10 when the template has none), not of the level it shows; it is
    legendary, shiny and at full hp. *)
Theorem summon_instance_keeps_template_stats (hero_data : Template) (d : Draws)
    (inst : Entity) :
  summon_instance B hero_data d = Some inst ->
  level inst = summon_level d
  /\ stats inst = derive_stats (t_stats hero_data) (iv_draws d) zero_stats
                    (default 10 (t_level hero_data))
  /\ current_hp inst = hp (stats inst)
  /\ rarity inst = "legendary" /\ shiny inst = true /\ xp inst = 0
  /\ name inst = t_name hero_data.
Proof.
  unfold summon_instance, build_instance_from_template. intros H.
  destruct (mapM _ _) as [moves |]; simpl in H; inversion H. repeat split.
Qed.

End RecruitmentProperties.

Lemma chest_rewards_witness :
  exists p',
    unlock_button keyholder "Silver Key" "silver" silver_draws = (p', Accepted)
    /\ default 0 (dict_get (bag p') "Great Contract") = 2
    /\ coins p' = 9100.
Proof.
  exists (unlock_button keyholder "Silver Key" "silver" silver_draws).1.
  split; [reflexivity |].
  destruct (chest_rewards keyholder
              (unlock_button keyholder "Silver Key" "silver" silver_draws).1
              "Silver Key" "silver" silver_draws)
    as (_ & Hc & _ & Hg & _); [| | | reflexivity |].
  - apply (bool_decide_unpack _). vm_compute. exact I.
  - apply (bool_decide_unpack _). vm_compute. exact I.
  - apply (bool_decide_unpack _). vm_compute. exact I.
  - split; [rewrite Hg; reflexivity | rewrite Hc; reflexivity].
Defined.


Lemma summon_spends_relic_first_witness :
  exists p',
    summon ascii_builtins [aiden] summoner " Filled Relic of Radiant Souls" lucky_draws
    = Some (p', Rejected "Hero data not found.", None)
    /\ bag p' = [].
Proof.
  destruct (summon_spends_relic_first ascii_builtins [aiden] summoner
              " Filled Relic of Radiant Souls" "Aurelia" lucky_draws)
    as (p' & Hs & _).
  - apply (bool_decide_unpack _). vm_compute. exact I.
  - vm_compute. reflexivity.
  - vm_compute. reflexivity.
  - repeat constructor. vm_compute. discriminate.
  - exists p'. split; [exact Hs |].
    vm_compute in Hs. inversion Hs. reflexivity.
Defined.

Lemma summon_instance_keeps_template_stats_witness :
  exists inst,
    summon_instance ascii_builtins aiden lucky_draws = Some inst
    /\ level inst = 60
    /\ stats inst = derive_stats (mkStats 80 70 65 30 45) (mkStats 31 31 31 31 31)
                      zero_stats 10.
Proof.
  eexists. split; [reflexivity |].
  destruct (summon_instance_keeps_template_stats ascii_builtins aiden lucky_draws _ eq_refl)
    as (Hl & Hs & _).
  split; [exact Hl | exact Hs].
Defined.


(** ** Exploring *)

Section ExploreProperties.
Context (B : Builtins).

(** X23. With an empty hero catalog every exploration that meets a hero
    raises, and with an empty monster catalog every one that meets a
    monster does: the built-in fall-back templates have skills without a
    ["type"] key, which [build_instance_from_template] indexes. *)
Theorem explore_empty_catalog_raises (heroes_db monsters_db : list Template) (d : Draws) :
  PrimFloat.ltb (roll d) f0_01 = false ->
  (PrimFloat.ltb (roll d) f0_99 = true -> explore B [] monsters_db d = None)
  /\ (PrimFloat.ltb (roll d) f0_99 = false -> explore B heroes_db [] d = None).
Proof.
  intros Hchest. unfold explore. rewrite Hchest.
  split; intros Hr; rewrite Hr; reflexivity.
Qed.

(** X24. On a non-empty catalog the hero picker returns a template of
    the catalog with its level and shiny flag drawn anew, of the rarity
    that was drawn or, when the catalog has none of that rarity, of
    rarity "common"; when the catalog has no common hero either, it
    raises. *)
Theorem pick_random_hero_template_from_catalog (heroes_db : list Template) (d : Draws) :
  heroes_db <> [] ->
  (forall t, pick_random_hero_template heroes_db d = Some t ->
     exists t0 r,
       t0 ∈ heroes_db /\ t_rarity t0 = Some r
       /\ t = override t0 r (level_draw d) (PrimFloat.ltb (shiny_u d) (true_div 1 4096))
       /\ (r = rarity_draw d
           \/ (r = "common" /\ of_rarity (rarity_draw d) heroes_db = [])))
  /\ (of_rarity (rarity_draw d) heroes_db = [] -> of_rarity "common" heroes_db = [] ->
      pick_random_hero_template heroes_db d = None).
Proof.
  intros Hne. unfold pick_random_hero_template.
  destruct heroes_db as [| h0 db]; [congruence |].
  set (hdb := h0 :: db) in *. split.
  - intros t H.
    destruct (of_rarity (rarity_draw d) hdb) as [| g gs] eqn:Hg.
    + destruct (of_rarity "common" hdb !! tmpl_idx d) as [t0 |] eqn:Ht0;
        simpl in H; [| discriminate].
      inversion H; subst t; clear H.
      apply list_elem_of_lookup_2 in Ht0. unfold of_rarity in Ht0.
      apply list_elem_of_filter in Ht0 as [Hr Hin].
      exists t0, "common". split; [exact Hin |]. split; [exact Hr |].
      split; [reflexivity |]. right. split; reflexivity.
    + cbv beta iota zeta in H.
      destruct (of_rarity (rarity_draw d) hdb !! tmpl_idx d) as [t0 |] eqn:Ht0;
        simpl in H; [| discriminate].
      inversion H; subst t; clear H.
      apply list_elem_of_lookup_2 in Ht0. unfold of_rarity in Ht0.
      apply list_elem_of_filter in Ht0 as [Hr Hin].
      exists t0, (rarity_draw d). split; [exact Hin |]. split; [exact Hr |].
      split; [reflexivity |]. left. reflexivity.
  - intros Hg Hc. rewrite Hg, Hc. reflexivity.
Qed.

End ExploreProperties.

Lemma explore_empty_catalog_raises_witness :
  explore ascii_builtins [] [] lucky_draws = None.
Proof.
  apply (proj1 (explore_empty_catalog_raises ascii_builtins [] [] lucky_draws eq_refl)).
  reflexivity.
Defined.

Lemma pick_random_hero_template_from_catalog_witness :
  exists t,
    pick_random_hero_template guild lucky_draws = Some t
    /\ t_name t = "Aiden" /\ t_level t = Some 7.
Proof.
  eexists. split; [reflexivity |].
  destruct (proj1 (pick_random_hero_template_from_catalog guild lucky_draws
                     ltac:(discriminate)) _ eq_refl) as (t0 & r & _ & _ & Ht & _).
  split; reflexivity.
Defined.

(** ** Coinflips and the account level *)

Section AccountProperties.
Context (xp_required_for_level : Z -> Z).

(** X25. When [/cftake] is accepted the coinflip is closed and the
    winner named by the draw ends one stake above the balance held when
    the challenge was taken (the creator: two stakes above the balance
    left after staking), the loser one stake below. *)
Theorem cftake_pays_winner (w w' : World) (user_id id : string) (pick : nat)
    (challenger creator : Player) (flip : Coinflip) :
  players w !! user_id = Some challenger ->
  coinflips w !! id = Some flip ->
  players w !! cf_creator flip = Some creator ->
  cftake w user_id id pick = Some (w', Accepted) ->
  user_id <> cf_creator flip
  /\ cf_amount flip <= coins challenger
  /\ coinflips w' = delete id (coinflips w)
  /\ ((pick = 0%nat
       /\ coins <$> players w' !! cf_creator flip
          = Some (coins creator + 2 * cf_amount flip)
       /\ coins <$> players w' !! user_id = Some (coins challenger - cf_amount flip))
      \/ (pick = 1%nat
          /\ coins <$> players w' !! user_id = Some (coins challenger + cf_amount flip)
          /\ players w' !! cf_creator flip = Some creator)).
Proof.
  intros Hch Hf Hcr H. unfold cftake in H. rewrite Hch, Hf in H.
  destruct (String.eqb user_id (cf_creator flip)) eqn:Heq; [inversion H |].
  destruct (coins challenger <? cf_amount flip) eqn:Hlt; [inversion H |].
  apply String.eqb_neq in Heq. apply Z.ltb_ge in Hlt.
  destruct pick as [| [| pick]]; simpl in H; [| | discriminate].
  - rewrite lookup_insert_ne in H by exact Heq. rewrite Hcr in H. simpl in H.
    inversion H; subst w'; clear H. simpl.
    split; [exact Heq |]. split; [exact Hlt |]. split; [reflexivity |].
    left. split; [reflexivity |].
    rewrite lookup_insert_eq. rewrite lookup_insert_ne by congruence.
    rewrite lookup_insert_eq. simpl. split; f_equal; lia.
  - rewrite lookup_insert_eq in H. simpl in H.
    inversion H; subst w'; clear H. simpl.
    split; [exact Heq |]. split; [exact Hlt |]. split; [reflexivity |].
    right. split; [reflexivity |].
    rewrite lookup_insert_eq. rewrite !lookup_insert_ne by exact Heq.
    simpl. split; [f_equal; lia | exact Hcr].
Qed.


End AccountProperties.

Lemma cftake_pays_winner_witness :
  exists w1 w2,
    cfcreate town "alice" 100 1700000000 1700000000 = (w1, Accepted)
    /\ cftake w1 "bob" "000000" 1 = Some (w2, Accepted)
    /\ coins <$> players w2 !! "bob" = Some 1100
    /\ coins <$> players w2 !! "alice" = Some 900.
Proof.
  eexists _, _. split; [vm_compute; reflexivity |].
  split; [vm_compute; reflexivity |].
  destruct (cftake_pays_winner
              (cfcreate town "alice" 100 1700000000 1700000000).1
              (default town
                 (fst <$> cftake (cfcreate town "alice" 100 1700000000 1700000000).1
                            "bob" "000000" 1))
              "bob" "000000" 1 bob (with_coins alice 900)
              (mkCoinflip "alice" 100 1700000000))
    as (_ & _ & _ & Hw); try (vm_compute; reflexivity).
  split; vm_compute; reflexivity.
Defined.



Lemma fresh_run_total_witness :
  exists w',
    fresh_run town
      [OpCreate "alice" 100 1700000000 1700000000; OpTake "bob" "000000" 1;
       OpCleanup 1700005000] w'
    /\ total_coins w' = total_coins town.
Proof.
  assert (exists w',
            fresh_run town
              [OpCreate "alice" 100 1700000000 1700000000; OpTake "bob" "000000" 1;
               OpCleanup 1700005000] w') as [w' Hrun].
  { eexists.
    eapply fresh_run_cons; [vm_compute; reflexivity | vm_compute; reflexivity |].
    eapply fresh_run_cons; [exact I | vm_compute; reflexivity |].
    eapply fresh_run_cons; [exact I | vm_compute; reflexivity |].
    apply fresh_run_nil. }
  exists w'. split; [exact Hrun |].
  apply (fresh_run_total town w'
           [OpCreate "alice" 100 1700000000 1700000000; OpTake "bob" "000000" 1;
            OpCleanup 1700005000]); [| exact Hrun].
  intros k f Hk. vm_compute in Hk. discriminate.
Defined.

(** ** Elixirs *)

Section ElixirBounds.
Context (B : Builtins).

(** X28. An accepted [/elixir] raises one hero by at least one level
    and never above level 100, by no more levels than the elixirs the
    player holds nor than the amount asked for (one level when the
    amount is 0); no other hero, nor the party, nor the coins change.
    A negative amount is never accepted. *)
Theorem elixir_level_bounds (p p' : Player) (identifier : string) (amount : Z) :
  elixir B p identifier amount = Some (p', Accepted) ->
  exists i h h',
    pc p !! i = Some h /\ pc p' !! i = Some h'
    /\ level h < level h' <= 100
    /\ level h' - level h <= lowered_get B (bag p) "elixir"
    /\ (amount <> 0 -> level h' - level h <= amount)
    /\ (amount = 0 -> level h' = level h + 1)
    /\ 0 <= amount
    /\ (forall j, j <> i -> pc p' !! j = pc p !! j)
    /\ coins p' = coins p /\ active_team p' = active_team p.
Proof.
  intros H. unfold elixir in H.
  destruct (lowered_get B (bag p) "elixir" <=? 0) eqn:He; [inversion H |].
  apply Z.leb_gt in He.
  destruct (elixir_hero B p identifier) as [[[i hero] |] |] eqn:Hh; simpl in H;
    [| inversion H | discriminate].
  apply elixir_hero_lookup in Hh.
  destruct (100 <=? level hero) eqn:Hcap; [inversion H |].
  apply Z.leb_gt in Hcap.
  set (max_usable := Z.min (Z.min (if amount =? 0 then 1 else amount)
                              (lowered_get B (bag p) "elixir"))
                       (100 - level hero)) in *.
  destruct (max_usable <=? 0) eqn:Hm; [inversion H |].
  apply Z.leb_gt in Hm.
  destruct (recalc_stats_from_base _ _) as [hero' |] eqn:Hr; simpl in H;
    [| discriminate].
  inversion H; subst p'; clear H.
  apply recalc_keeps in Hr as (Hl & _).
  assert (Hl' : level hero' = level hero + max_usable).
  { rewrite Hl. destruct (base_stats_memo hero); reflexivity. }
  assert (Hi : (i < length (pc p))%nat) by (eapply lookup_lt_Some; exact Hh).
  exists i, hero, hero'. cbn [pc coins active_team with_pc with_bag].
  split; [exact Hh |].
  split; [apply list_lookup_insert_eq; exact Hi |].
  rewrite Hl'. unfold max_usable in *.
  destruct (amount =? 0) eqn:Ha.
  - apply Z.eqb_eq in Ha.
    repeat split; try lia. intros j Hj. apply list_lookup_insert_ne. congruence.
  - apply Z.eqb_neq in Ha.
    repeat split; try lia. intros j Hj. apply list_lookup_insert_ne. congruence.
Qed.

End ElixirBounds.

Lemma elixir_level_bounds_witness :
  exists p' h',
    elixir ascii_builtins alchemist "1" 5 = Some (p', Accepted)
    /\ pc p' !! 0%nat = Some h' /\ level h' = 12.
Proof.
  destruct (elixir ascii_builtins alchemist "1" 5) as [[p' r] |] eqn:He;
    [| vm_compute in He; discriminate].
  assert (r = Accepted) as -> by (vm_compute in He; inversion He; reflexivity).
  destruct (elixir_level_bounds ascii_builtins alchemist p' "1" 5 He)
    as (i & h & h' & _ & _ & _).
  vm_compute in He. inversion He; subst p'.
  eexists _, _. split; [reflexivity |]. split; reflexivity.
Defined.


Lemma award_entity_xp_settles_witness :
  exists e' log',
    award_entity_xp no_stats veteran 115005 [] catalog_stats = Ok (e', log')
    /\ level e' <= 100.
Proof.
  destruct (award_entity_xp no_stats veteran 115005 [] catalog_stats)
    as [[e' log'] | |] eqn:He; try (vm_compute in He; discriminate).
  exists e', log'. split; [reflexivity |].
  apply (proj2 (award_entity_xp_settles no_stats veteran 115005 [] catalog_stats) e' log' He).
Defined.

(** ** Starters *)

Section StarterProperties.
Context (B : Builtins).


End StarterProperties.

